(** * The Nextcloud plugin: HTTP client, OCS envelope decoding, table handlers

    A shallow embedding of [nextcloud/connection_config.go], of the activity
    table and of [nextcloud/table_nextcloud_files_sharing.go], followed by
    the properties of the specification that concern them.

    Conventions.
    - A Go [string] is a Rocq [string] (a sequence of bytes).
    - Go's [int] and [int64] are [Z]; both are 64 bits wide and the bounds
      are written out where a value is parsed.
    - A function returning [(T, error)] returns a [Result T].
    - A pointer that may be [nil] is an [option].
    - A slice is a [list]; a nil slice and an empty slice are identified.
    - What the Go runtime and the network contribute (the HTTP round trip,
      the lexical layer of encoding/json, [url.Parse], the JSON method of
      [time.Time], base64)
      is collected in the class [Runtime]; every definition below is
      parametric in it. *)

From Stdlib Require Import ZArith Ascii String List Lia Bool.
From stdpp Require Import base strings gmap.

Local Open Scope Z_scope.

(** ** Strings *)

Module strings.

(** [strings.HasSuffix]:
    [len(s) >= len(suffix) && s[len(s)-len(suffix):] == suffix]. *)
Definition HasSuffix (s suffix : string) : bool :=
  (String.length suffix <=? String.length s)%nat
  && String.eqb
       (String.substring (String.length s - String.length suffix)
                         (String.length suffix) s)
       suffix.

(** [strings.HasPrefix]. *)
Fixpoint HasPrefix (s prefix : string) {struct prefix} : bool :=
  match prefix with
  | EmptyString => true
  | String a prefix' =>
      match s with
      | EmptyString => false
      | String b s' => Ascii.eqb a b && HasPrefix s' prefix'
      end
  end.

(** [strings.Contains], as a proposition. *)
Definition Contains (s substr : string) : Prop :=
  exists pre post, s = pre +:+ substr +:+ post.

End strings.

(** The number of path separators that end [s]. *)
Fixpoint trailing_separators (s : string) : nat :=
  match s with
  | EmptyString => 0%nat
  | String c s' =>
      let k := trailing_separators s' in
      if (k =? String.length s')%nat && Ascii.eqb c "/" then S k else k
  end.

(** ** Errors *)

(** Go's [error] values as the plugin builds them: [errorString] is what
    [fmt.Errorf] returns without [%w] (and what the libraries return),
    [wrapError] what it returns with [%w]: the formatted text together with
    the wrapped error. *)
Inductive error : Type :=
| errorString (s : string)
| wrapError (msg : string) (err : error).

Definition Error (e : error) : string :=
  match e with
  | errorString s => s
  | wrapError msg _ => msg
  end.

Definition Unwrap (e : error) : option error :=
  match e with
  | errorString _ => None
  | wrapError _ err => Some err
  end.

(** [fmt.Errorf(prefix + "%w", err)]. *)
Definition Errorf_w (prefix : string) (err : error) : error :=
  wrapError (prefix +:+ Error err) err.

Inductive Result (A : Type) : Type :=
| Ok (a : A)
| Err (e : error).
Arguments Ok {A} a.
Arguments Err {A} e.

(** ** Decimal integers: [%d] and [strconv.ParseInt] *)

Module strconv.

Definition digit (d : Z) : ascii := ascii_of_nat (48 + Z.to_nat d).

(** The loop of [formatBits] in base 10: the digits are produced from the
    least significant one and written in front of [acc].  A 64-bit value
    has at most 20 digits, the size of the loop's buffer. *)
Fixpoint formatBits (fuel : nat) (u : Z) (acc : string) : string :=
  match fuel with
  | O => acc
  | S fuel' =>
      if u <? 10 then String (digit u) acc
      else formatBits fuel' (u / 10) (String (digit (u mod 10)) acc)
  end.

(** [strconv.FormatInt(i, 10)], which is also what [%d] prints. *)
Definition FormatInt (i : Z) : string :=
  if i <? 0 then String "-" (formatBits 20 (- i) "")
  else formatBits 20 i "".

Definition Itoa := FormatInt.

Inductive NumError : Type := ErrSyntax | ErrRange.

Definition maxUint64 : Z := 2 ^ 64 - 1.

Definition is_digit (c : ascii) : bool :=
  (48 <=? nat_of_ascii c)%nat && (nat_of_ascii c <=? 57)%nat.

(** The loop of [strconv.ParseUint(s, 10, 64)]; [n] is the [uint64]
    accumulator, its wrap-around written out. *)
Fixpoint parseUint_loop (s : string) (n : Z) : NumError + Z :=
  match s with
  | EmptyString => inr n
  | String c s' =>
      if is_digit c then
        let d := Z.of_nat (nat_of_ascii c) - 48 in
        (* cutoff = maxUint64/10 + 1: n*10 would overflow *)
        if maxUint64 / 10 + 1 <=? n then inl ErrRange
        else
          let n10 := (n * 10) mod 2 ^ 64 in
          let n1 := (n10 + d) mod 2 ^ 64 in
          if (n1 <? n10) || (maxUint64 <? n1) then inl ErrRange
          else parseUint_loop s' n1
      else inl ErrSyntax
  end.

Definition ParseUint (s : string) : NumError + Z :=
  match s with
  | EmptyString => inl ErrSyntax
  | _ => parseUint_loop s 0
  end.

(** [strconv.ParseInt(s, 10, 64)]. *)
Definition ParseInt (s : string) : NumError + Z :=
  match s with
  | EmptyString => inl ErrSyntax
  | String c s' =>
      let '(neg, digits) :=
        if Ascii.eqb c "+" then (false, s')
        else if Ascii.eqb c "-" then (true, s')
        else (false, s) in
      match ParseUint digits with
      | inl e => inl e
      | inr un =>
          let cutoff := 2 ^ 63 in
          if negb neg && (cutoff <=? un) then inl ErrRange
          else if neg && (cutoff <? un) then inl ErrRange
          else inr (if neg then - un else un)
      end
  end.

End strconv.

Definition int64_range (z : Z) : Prop := - 2 ^ 63 <= z < 2 ^ 63.

(** The number that a string of decimal digits stands for, read after the
    digits of [n]; and whether a string is made of decimal digits. *)
Fixpoint val (s : string) (n : Z) : Z :=
  match s with
  | EmptyString => n
  | String c s' => val s' (n * 10 + (Z.of_nat (nat_of_ascii c) - 48))
  end.

Fixpoint all_digits (s : string) : bool :=
  match s with
  | EmptyString => true
  | String c s' => strconv.is_digit c && all_digits s'
  end.


(** ** JSON values *)

(** The values of a JSON text.  A number keeps its literal, which is what
    the decoder hands to [strconv.ParseInt]; an object keeps its members in
    the order of the text, duplicates included. *)
#[local] Unset Elimination Schemes.
Inductive json : Type :=
| JNull
| JBool (b : bool)
| JNumber (lit : string)
| JString (s : string)
| JArray (elems : list json)
| JObject (members : list (string * json)).
#[local] Set Elimination Schemes.

(** The [Value] that a [*json.UnmarshalTypeError] reports for a JSON value. *)
Definition json_kind (j : json) : string :=
  match j with
  | JNull => "null"
  | JBool _ => "bool"
  | JNumber _ => "number"
  | JString _ => "string"
  | JArray _ => "array"
  | JObject _ => "object"
  end.

(** ** HTTP messages *)

Module http.

(** The header keys the client sets are valid tokens, for which
    [CanonicalMIMEHeaderKey] puts the first letter and every letter after
    a dash in upper case and the others in lower case. *)
Definition upper_ascii (c : ascii) : ascii :=
  let n := nat_of_ascii c in
  if (97 <=? n)%nat && (n <=? 122)%nat then ascii_of_nat (n - 32) else c.

Definition lower_ascii (c : ascii) : ascii :=
  let n := nat_of_ascii c in
  if (65 <=? n)%nat && (n <=? 90)%nat then ascii_of_nat (n + 32) else c.

Fixpoint canonical_from (upper : bool) (s : string) : string :=
  match s with
  | EmptyString => EmptyString
  | String c s' =>
      let c' := if upper then upper_ascii c else lower_ascii c in
      String c' (canonical_from (Ascii.eqb c' "-") s')
  end.

Definition CanonicalMIMEHeaderKey (s : string) : string :=
  canonical_from true s.

Definition Header : Type := gmap string (list string).

(** [h.Set(key, value)]. *)
Definition Header_Set (key value : string) (h : Header) : Header :=
  <[CanonicalMIMEHeaderKey key := [value]]> h.

(** A response body as a reader: [bytes] is what can be read before the
    stream ends, with [io.EOF] when [readErr] is [None] and with that
    error otherwise. *)
Record Body : Type := {
  bytes : string;
  readErr : option error;
}.

(** [io.ReadAll]: what was read, and the error that stopped the read. *)
Definition ReadAll (b : Body) : string * option error :=
  (bytes b, readErr b).

Record Request : Type := {
  Method : string;
  URL : string;
  ReqHeader : Header;
  ReqBody : option string;
}.

Record Response : Type := {
  StatusCode : Z;
  RespBody : Body;
}.

(** [http.Client]; [Timeout] is a [time.Duration], in nanoseconds. *)
Record Client : Type := {
  Timeout : Z;
}.

End http.

Definition time_Second : Z := 1000000000.

(** ** What the Go runtime and the network contribute *)

Class Runtime : Type := {
  (** [time.Time], its zero value, and [Time.UnmarshalJSON] on a JSON value
      other than [null]. *)
  time_Time : Type;
  time_Time_zero : time_Time;
  time_UnmarshalJSON : json -> Result time_Time;
  (** The [*json.UnmarshalTypeError] that the decoder reports for a value
      of JSON kind [Value] found at the key path [Field]. *)
  json_UnmarshalTypeError : forall (Value Field : string), error;
  (** [json.Decoder]: the next JSON value of the stream, or the error of
      the read or of the syntax check. *)
  json_readValue : http.Body -> Result json;
  (** [float64], and [strconv.ParseFloat(lit, 64)] on the literal of a
      JSON number: the nearest [float64], or nothing when the number is
      outside the range of [float64]. *)
  float64 : Type;
  strconv_ParseFloat : string -> option float64;
  (** [url.Parse(raw)], followed by [u.String()]. *)
  url_Parse : string -> Result string;
  (** The checks of [http.NewRequestWithContext] on the method and URL. *)
  http_NewRequest_check : forall (method url : string), option error;
  (** [base64.StdEncoding.EncodeToString], used by [SetBasicAuth]. *)
  base64_EncodeToString : string -> string;
  (** The remote service and the network in between: the state they are
      in, and [http.Client.Do], which answers a request or fails (also
      when the caller's context is cancelled or the timeout expires). *)
  Server : Type;
  http_Client_Do : http.Client -> http.Request -> Server ->
                   Result http.Response * Server;
}.

(** Whether [strconv.ParseFloat(lit, 64)] accepts the literal of a JSON
    number, that is, whether the number is in the range of [float64]. *)
Definition strconv_ParseFloat_ok `{Runtime} (lit : string) : bool :=
  match strconv_ParseFloat lit with
  | Some _ => true
  | None => false
  end.

(** ** Decoding JSON values into Go values *)

Module encoding_json.

(** The Go values that the decoder stores into an [interface{}]: nil, a
    [bool], a [float64], a [string], a [[]interface{}] and a
    [map[string]interface{}]. *)
#[local] Unset Elimination Schemes.
Inductive value `{Runtime} : Type :=
| VNil
| VBool (b : bool)
| VFloat64 (f : float64)
| VString (s : string)
| VSlice (elems : list value)
| VMap (m : gmap string value).
#[local] Set Elimination Schemes.

(** The state of a decoding: the value as updated so far and the first
    [UnmarshalTypeError] that was saved (the decoder goes on after such
    an error and reports it at the end); [Err] is an error that stops the
    decoding at once, such as the one of an [UnmarshalJSON] method. *)
Definition decoding (T : Type) : Type := Result (T * option error).

Definition first_error (saved new : option error) : option error :=
  match saved with
  | Some _ => saved
  | None => new
  end.

(** [foldName]: ASCII letters in upper case; the two runes outside ASCII
    whose simple folding reaches an ASCII letter, U+017F (bytes C5 BF,
    folds to S) and U+212A (bytes E2 84 AA, folds to K), are mapped to
    that letter.  The names of all fields below are ASCII. *)
Definition long_s : string :=
  String (ascii_of_nat 197) (String (ascii_of_nat 191) EmptyString).

Definition kelvin : string :=
  String (ascii_of_nat 226)
    (String (ascii_of_nat 132) (String (ascii_of_nat 170) EmptyString)).

Fixpoint foldName_from (skip : nat) (s : string) : string :=
  match s with
  | EmptyString => EmptyString
  | String c s' =>
      match skip with
      | S k => foldName_from k s'
      | O =>
          if String.prefix long_s s then String "S" (foldName_from 1 s')
          else if String.prefix kelvin s then String "K" (foldName_from 2 s')
          else String (http.upper_ascii c) (foldName_from 0 s')
      end
  end.

Definition foldName (s : string) : string := foldName_from 0 s.

(** A field of a struct type [T] as the decoder sees it: the name of
    its tag, and how a JSON value found under that name is stored into
    a value of [T] ([path] is the key path, for error reports). *)
Record field (T : Type) : Type := {
  name : string;
  store : forall (path : string), json -> T -> decoding T;
}.
Arguments name {T} f.
Arguments store {T} f path j v.

(** The field for a key: the one of that exact name, otherwise the
    first one whose name matches when case is ignored. *)
Definition find_field {T} (fields : list (field T)) (key : string)
  : option (field T) :=
  match List.find (fun f => String.eqb (name f) key) fields with
  | Some f => Some f
  | None =>
      List.find (fun f => String.eqb (foldName (name f)) (foldName key))
                fields
  end.

Definition path_append (path name : string) : string :=
  match path with
  | EmptyString => name
  | _ => path +:+ "." +:+ name
  end.

Section Decoders.
Context `{Runtime}.

(** The members of an object, in order; a key that names no field is
    skipped. *)
Fixpoint object_members {T} (fields : list (field T)) (path : string)
    (members : list (string * json)) (v : T) (saved : option error)
  : decoding T :=
  match members with
  | [] => Ok (v, saved)
  | (key, j) :: rest =>
      match find_field fields key with
      | None => object_members fields path rest v saved
      | Some f =>
          match store f (path_append path (name f)) j v with
          | Err e => Err e
          | Ok (v', new) =>
              object_members fields path rest v' (first_error saved new)
          end
      end
  end.

Definition type_error {T} (path : string) (j : json) (v : T)
  : decoding T :=
  Ok (v, Some (json_UnmarshalTypeError (json_kind j) path)).

(** A struct: [null] leaves it as it is. *)
Definition decode_struct {T} (fields : list (field T)) (path : string)
    (j : json) (v : T) : decoding T :=
  match j with
  | JObject members => object_members fields path members v None
  | JNull => Ok (v, None)
  | _ => type_error path j v
  end.

Definition decode_string (path : string) (j : json) (v : string)
  : decoding string :=
  match j with
  | JString s => Ok (s, None)
  | JNull => Ok (v, None)
  | _ => type_error path j v
  end.

Definition decode_bool (path : string) (j : json) (v : bool)
  : decoding bool :=
  match j with
  | JBool b => Ok (b, None)
  | JNull => Ok (v, None)
  | _ => type_error path j v
  end.

(** [int] and [int64]: the literal goes through [strconv.ParseInt]; a
    literal that it rejects is reported as ["number " + literal]. *)
Definition decode_int (path : string) (j : json) (v : Z) : decoding Z :=
  match j with
  | JNumber lit =>
      match strconv.ParseInt lit with
      | inr n => Ok (n, None)
      | inl _ =>
          Ok (v, Some (json_UnmarshalTypeError ("number " +:+ lit) path))
      end
  | JNull => Ok (v, None)
  | _ => type_error path j v
  end.

(** [*string]: [null] stores the nil pointer. *)
Definition decode_string_ptr (path : string) (j : json)
    (v : option string) : decoding (option string) :=
  match j with
  | JString s => Ok (Some s, None)
  | JNull => Ok (None, None)
  | _ => type_error path j v
  end.

(** The first number of [j], in the order of the text, that is
    outside the range of [float64]. *)
Fixpoint first_unfit (j : json) : option string :=
  match j with
  | JNumber lit => if strconv_ParseFloat_ok lit then None else Some lit
  | JArray elems =>
      (fix go (js : list json) : option string :=
         match js with
         | [] => None
         | x :: rest =>
             match first_unfit x with
             | Some lit => Some lit
             | None => go rest
             end
         end) elems
  | JObject members =>
      (fix go (ms : list (string * json)) : option string :=
         match ms with
         | [] => None
         | (_, x) :: rest =>
             match first_unfit x with
             | Some lit => Some lit
             | None => go rest
             end
         end) members
  | _ => None
  end.

Definition number_error (path : string) (j : json) : option error :=
  match first_unfit j with
  | Some lit => Some (json_UnmarshalTypeError ("number " +:+ lit) path)
  | None => None
  end.

(** [valueInterface]: the Go value for a JSON value.  A number becomes
    the [float64] that [strconv.ParseFloat] returns for its literal, and
    nil when it is outside the range of [float64] (the error is saved,
    see [number_error]); in a map a later member replaces an earlier one
    of the same key. *)
Fixpoint valueInterface (j : json) : value :=
  match j with
  | JNull => VNil
  | JBool b => VBool b
  | JNumber lit =>
      match strconv_ParseFloat lit with
      | Some f => VFloat64 f
      | None => VNil
      end
  | JString s => VString s
  | JArray elems =>
      VSlice
        ((fix go (js : list json) : list value :=
            match js with
            | [] => []
            | x :: rest => valueInterface x :: go rest
            end) elems)
  | JObject members =>
      VMap
        ((fix go (ms : list (string * json)) (m : gmap string value)
            : gmap string value :=
            match ms with
            | [] => m
            | (key, x) :: rest => go rest (<[key := valueInterface x]> m)
            end) members ∅)
  end.

(** [interface{}]: the value of [valueInterface] is stored; a number
    outside the range of [float64] is a type error, which leaves the
    target as it was when the number is the whole value. *)
Definition decode_any (path : string) (j : json) (v : value)
  : decoding value :=
  match j with
  | JNumber lit =>
      match strconv_ParseFloat lit with
      | Some f => Ok (VFloat64 f, None)
      | None => Ok (v, number_error path j)
      end
  | _ => Ok (valueInterface j, number_error path j)
  end.

(** [time.Time]: its [UnmarshalJSON] returns at once on [null] and its
    error stops the decoding. *)
Definition decode_Time (path : string) (j : json) (v : time_Time)
  : decoding time_Time :=
  match j with
  | JNull => Ok (v, None)
  | _ =>
      match time_UnmarshalJSON j with
      | Ok t => Ok (t, None)
      | Err e => Err e
      end
  end.

(** The elements of an array, each decoded into a zero value. *)
Fixpoint array_elems {E} (elem : string -> json -> E -> decoding E)
    (zero : E) (path : string) (js : list json) (saved : option error)
  : decoding (list E) :=
  match js with
  | [] => Ok ([], saved)
  | j :: rest =>
      match elem path j zero with
      | Err e => Err e
      | Ok (x, new) =>
          match array_elems elem zero path rest (first_error saved new) with
          | Err e => Err e
          | Ok (xs, saved') => Ok (x :: xs, saved')
          end
      end
  end.

(** A slice: the length is reset and the elements are appended;
    [null] stores the nil slice. *)
Definition decode_slice {E} (elem : string -> json -> E -> decoding E)
    (zero : E) (path : string) (j : json) (v : list E)
  : decoding (list E) :=
  match j with
  | JArray js => array_elems elem zero path js None
  | JNull => Ok ([], None)
  | _ => type_error path j v
  end.

(** [map[string]interface{}]: the members are stored in order. *)
Definition decode_map (path : string) (j : json) (v : gmap string value)
  : decoding (gmap string value) :=
  match j with
  | JObject members =>
      Ok (fold_left (fun m kv => <[fst kv := valueInterface (snd kv)]> m)
                    members v,
          number_error path j)
  | JNull => Ok (∅, None)
  | _ => type_error path j v
  end.

(** The field of [T] read by [get] and written by [set], decoded by
    [dec]. *)
Definition into {T F} (get : T -> F) (set : F -> T -> T)
    (dec : string -> json -> F -> decoding F)
  : string -> json -> T -> decoding T :=
  fun path j v =>
    match dec path j (get v) with
    | Err e => Err e
    | Ok (x, saved) => Ok (set x v, saved)
    end.

(** [json.NewDecoder(body).Decode(&v)]. *)
Definition Decode {T} (unmarshal : string -> json -> T -> decoding T)
    (body : http.Body) (v : T) : Result T :=
  match json_readValue body with
  | Err e => Err e
  | Ok j =>
      match unmarshal "" j v with
      | Err e => Err e
      | Ok (_, Some e) => Err e
      | Ok (v', None) => Ok v'
      end
  end.

End Decoders.

End encoding_json.

Import encoding_json.

(** ** The connection configuration and the client *)

(** [NextcloudConfig]: three optional strings ([*string]). *)
Module NextcloudConfig.
Record t : Type := mk {
  ServerURL : option string;
  Username : option string;
  Password : option string;
}.
(** [NextcloudConfig{}]. *)
Definition zero : t := mk None None None.
End NextcloudConfig.

Module NextcloudClient.
Record t : Type := mk {
  BaseURL : string;
  Username : string;
  Password : string;
  HTTPClient : http.Client;
}.
Definition with_BaseURL (x : string) (c : t) : t :=
  mk x (Username c) (Password c) (HTTPClient c).
Definition with_Username (x : string) (c : t) : t :=
  mk (BaseURL c) x (Password c) (HTTPClient c).
Definition with_Password (x : string) (c : t) : t :=
  mk (BaseURL c) (Username c) x (HTTPClient c).
End NextcloudClient.

(** ** The host's side of the plugin protocol *)

Module plugin.

(** What [Connection.Config], an [interface{}], can hold: nothing, a
    [*NextcloudConfig] (which may be a nil pointer), a [NextcloudConfig]
    by value, or a value of another type, given by the name of its type. *)
Inductive ConfigValue : Type :=
| nil_interface
| ptr_NextcloudConfig (p : option NextcloudConfig.t)
| val_NextcloudConfig (c : NextcloudConfig.t)
| other_type (typeName : string).

Record Connection : Type := {
  Config : ConfigValue;
}.

(** [proto.QualValue]: the variants whose payload a handler reads, and
    [OtherValue] for the remaining ones (double, inet, timestamp, list). *)
Inductive QualValue : Type :=
| StringValue (s : string)
| Int64Value (i : Z)
| BoolValue (b : bool)
| JsonbValue (s : string)
| LtreeValue (s : string)
| OtherValue.

Definition GetStringValue (q : QualValue) : string :=
  match q with
  | StringValue s => s
  | _ => ""
  end.

Definition GetInt64Value (q : QualValue) : Z :=
  match q with
  | Int64Value i => i
  | _ => 0
  end.

(** [QueryData], as far as the handlers read it; a key that is absent
    from [EqualsQuals] reads as [nil]. *)
Record QueryData : Type := {
  Connection_ : option Connection;
  EqualsQuals : gmap string QualValue;
}.

End plugin.

(** ** The records of the two tables and the OCS envelope *)

Module Activity.
Record t `{Runtime} : Type := mk {
  ActivityID : Z;
  App : string;
  Type_ : string;
  Subject : string;
  SubjectRich : value;
  SubjectParams : list string;
  ObjectType : string;
  ObjectID : Z;
  ObjectName : string;
  Time : time_Time;
  User : string;
}.
Arguments mk {_}.

Section Fields.
Context `{Runtime}.

Definition zero : t :=
  mk 0 "" "" "" VNil [] "" 0 "" time_Time_zero "".

Definition with_ActivityID (x : Z) (a : t) : t :=
  let '(mk _ ap ty su sr sp ot oi on ti us) := a in
  mk x ap ty su sr sp ot oi on ti us.
Definition with_App (x : string) (a : t) : t :=
  let '(mk id _ ty su sr sp ot oi on ti us) := a in
  mk id x ty su sr sp ot oi on ti us.
Definition with_Type (x : string) (a : t) : t :=
  let '(mk id ap _ su sr sp ot oi on ti us) := a in
  mk id ap x su sr sp ot oi on ti us.
Definition with_Subject (x : string) (a : t) : t :=
  let '(mk id ap ty _ sr sp ot oi on ti us) := a in
  mk id ap ty x sr sp ot oi on ti us.
Definition with_SubjectRich (x : value) (a : t) : t :=
  let '(mk id ap ty su _ sp ot oi on ti us) := a in
  mk id ap ty su x sp ot oi on ti us.
Definition with_SubjectParams (x : list string) (a : t) : t :=
  let '(mk id ap ty su sr _ ot oi on ti us) := a in
  mk id ap ty su sr x ot oi on ti us.
Definition with_ObjectType (x : string) (a : t) : t :=
  let '(mk id ap ty su sr sp _ oi on ti us) := a in
  mk id ap ty su sr sp x oi on ti us.
Definition with_ObjectID (x : Z) (a : t) : t :=
  let '(mk id ap ty su sr sp ot _ on ti us) := a in
  mk id ap ty su sr sp ot x on ti us.
Definition with_ObjectName (x : string) (a : t) : t :=
  let '(mk id ap ty su sr sp ot oi _ ti us) := a in
  mk id ap ty su sr sp ot oi x ti us.
Definition with_Time (x : time_Time) (a : t) : t :=
  let '(mk id ap ty su sr sp ot oi on _ us) := a in
  mk id ap ty su sr sp ot oi on x us.
Definition with_User (x : string) (a : t) : t :=
  let '(mk id ap ty su sr sp ot oi on ti _) := a in
  mk id ap ty su sr sp ot oi on ti x.

(** The [json] tags of the struct. *)
Definition fields : list (field t) := [
  {| name := "activity_id";
     store := into ActivityID with_ActivityID decode_int |};
  {| name := "app"; store := into App with_App decode_string |};
  {| name := "type"; store := into Type_ with_Type decode_string |};
  {| name := "subject";
     store := into Subject with_Subject decode_string |};
  {| name := "subject_rich";
     store := into SubjectRich with_SubjectRich decode_any |};
  {| name := "subject_params";
     store := into SubjectParams with_SubjectParams
                   (decode_slice decode_string "") |};
  {| name := "object_type";
     store := into ObjectType with_ObjectType decode_string |};
  {| name := "object_id";
     store := into ObjectID with_ObjectID decode_int |};
  {| name := "object_name";
     store := into ObjectName with_ObjectName decode_string |};
  {| name := "datetime"; store := into Time with_Time decode_Time |};
  {| name := "user"; store := into User with_User decode_string |}
].

Definition unmarshal : string -> json -> t -> decoding t :=
  decode_struct fields.

End Fields.
End Activity.

Module ocsShare.
Record t : Type := mk {
  ID : string;
  ShareType : Z;
  ShareWith : string;
  ShareWithDisplayName : string;
  Path : string;
  Permissions : Z;
  Password : option string;
  PublicUpload : bool;
  ExpireDate : option string;
  URL : string;
  UIDOwner : string;
  Owner : string;
  TimeCreated : Z;
  TimeModified : Z;
}.

Definition zero : t :=
  mk "" 0 "" "" "" 0 None false None "" "" "" 0 0.

Definition with_ID (x : string) (s : t) : t :=
  let '(mk _ b c d e f g h i j k l m n) := s in mk x b c d e f g h i j k l m n.
Definition with_ShareType (x : Z) (s : t) : t :=
  let '(mk a _ c d e f g h i j k l m n) := s in mk a x c d e f g h i j k l m n.
Definition with_ShareWith (x : string) (s : t) : t :=
  let '(mk a b _ d e f g h i j k l m n) := s in mk a b x d e f g h i j k l m n.
Definition with_ShareWithDisplayName (x : string) (s : t) : t :=
  let '(mk a b c _ e f g h i j k l m n) := s in mk a b c x e f g h i j k l m n.
Definition with_Path (x : string) (s : t) : t :=
  let '(mk a b c d _ f g h i j k l m n) := s in mk a b c d x f g h i j k l m n.
Definition with_Permissions (x : Z) (s : t) : t :=
  let '(mk a b c d e _ g h i j k l m n) := s in mk a b c d e x g h i j k l m n.
Definition with_Password (x : option string) (s : t) : t :=
  let '(mk a b c d e f _ h i j k l m n) := s in mk a b c d e f x h i j k l m n.
Definition with_PublicUpload (x : bool) (s : t) : t :=
  let '(mk a b c d e f g _ i j k l m n) := s in mk a b c d e f g x i j k l m n.
Definition with_ExpireDate (x : option string) (s : t) : t :=
  let '(mk a b c d e f g h _ j k l m n) := s in mk a b c d e f g h x j k l m n.
Definition with_URL (x : string) (s : t) : t :=
  let '(mk a b c d e f g h i _ k l m n) := s in mk a b c d e f g h i x k l m n.
Definition with_UIDOwner (x : string) (s : t) : t :=
  let '(mk a b c d e f g h i j _ l m n) := s in mk a b c d e f g h i j x l m n.
Definition with_Owner (x : string) (s : t) : t :=
  let '(mk a b c d e f g h i j k _ m n) := s in mk a b c d e f g h i j k x m n.
Definition with_TimeCreated (x : Z) (s : t) : t :=
  let '(mk a b c d e f g h i j k l _ n) := s in mk a b c d e f g h i j k l x n.
Definition with_TimeModified (x : Z) (s : t) : t :=
  let '(mk a b c d e f g h i j k l m _) := s in mk a b c d e f g h i j k l m x.

Section Fields.
Context `{Runtime}.

Definition fields : list (field t) := [
  {| name := "id"; store := into ID with_ID decode_string |};
  {| name := "share_type";
     store := into ShareType with_ShareType decode_int |};
  {| name := "share_with";
     store := into ShareWith with_ShareWith decode_string |};
  {| name := "share_with_displayname";
     store := into ShareWithDisplayName with_ShareWithDisplayName
                   decode_string |};
  {| name := "path"; store := into Path with_Path decode_string |};
  {| name := "permissions";
     store := into Permissions with_Permissions decode_int |};
  {| name := "password";
     store := into Password with_Password decode_string_ptr |};
  {| name := "public_upload";
     store := into PublicUpload with_PublicUpload decode_bool |};
  {| name := "expire_date";
     store := into ExpireDate with_ExpireDate decode_string_ptr |};
  {| name := "url"; store := into URL with_URL decode_string |};
  {| name := "uid_owner";
     store := into UIDOwner with_UIDOwner decode_string |};
  {| name := "displayname_owner";
     store := into Owner with_Owner decode_string |};
  {| name := "stime";
     store := into TimeCreated with_TimeCreated decode_int |};
  {| name := "item_mtime";
     store := into TimeModified with_TimeModified decode_int |}
].

Definition unmarshal : string -> json -> t -> decoding t :=
  decode_struct fields.

End Fields.
End ocsShare.

(** The [meta] member of the envelope. *)
Module ocsMeta.
Record t : Type := mk {
  Status : string;
  StatusCode : Z;
  Message : string;
}.

Definition zero : t := mk "" 0 "".

Section Fields.
Context `{Runtime}.

Definition fields : list (field t) := [
  {| name := "status";
     store := into Status
                   (fun x m => mk x (StatusCode m) (Message m))
                   decode_string |};
  {| name := "statuscode";
     store := into StatusCode
                   (fun x m => mk (Status m) x (Message m))
                   decode_int |};
  {| name := "message";
     store := into Message
                   (fun x m => mk (Status m) (StatusCode m) x)
                   decode_string |}
].

Definition unmarshal : string -> json -> t -> decoding t :=
  decode_struct fields.

End Fields.
End ocsMeta.

(** The envelope [{ocs: {meta: ..., data: [...]}}] around a list of
    records of type [E]; [ocsActivityListResponse] and
    [ocsShareListResponse] are its two instances. *)
Module ocsListResponse.
Record Ocs_t (E : Type) : Type := mkOcs {
  Meta : ocsMeta.t;
  Data : list E;
}.
Arguments mkOcs {E}.
Arguments Meta {E}.
Arguments Data {E}.

Record t (E : Type) : Type := mk {
  Ocs : Ocs_t E;
}.
Arguments mk {E}.
Arguments Ocs {E}.

Definition zero {E} : t E := mk (mkOcs ocsMeta.zero []).

Section Fields.
Context `{Runtime} {E : Type}.
Variable elem : string -> json -> E -> decoding E.
Variable elem_zero : E.

Definition Ocs_fields : list (field (Ocs_t E)) := [
  {| name := "meta";
     store := into Meta (fun x o => mkOcs x (Data o)) ocsMeta.unmarshal |};
  {| name := "data";
     store := into Data (fun x o => mkOcs (Meta o) x)
                   (decode_slice elem elem_zero) |}
].

Definition fields : list (field (t E)) := [
  {| name := "ocs";
     store := into Ocs (fun x _ => mk x) (decode_struct Ocs_fields) |}
].

Definition unmarshal : string -> json -> t E -> decoding (t E) :=
  decode_struct fields.

End Fields.
End ocsListResponse.

Definition ocsActivityListResponse `{Runtime} : Type :=
  ocsListResponse.t Activity.t.

Definition ocsShareListResponse : Type :=
  ocsListResponse.t ocsShare.t.

(** ** The world a handler runs in *)

(** A value handed to the host as an [interface{}]: a row of one of the
    two tables. *)
Inductive item `{Runtime} : Type :=
| ActivityItem (a : Activity.t)
| ShareItem (s : ocsShare.t).

(** The state outside the plugin: the remote service, the requests that
    were executed (oldest first) and the rows streamed to the host. *)
Record World `{Runtime} : Type := mkWorld {
  server : Server;
  sent : list http.Request;
  streamed : list item;
}.
Arguments mkWorld {_}.

(** A call either returns or panics. *)
Inductive Outcome (A : Type) : Type :=
| Returned (a : A)
| Panicked (msg : string).
Arguments Returned {A} a.
Arguments Panicked {A} msg.

Definition IO `{Runtime} (A : Type) : Type := World -> Outcome A * World.

Definition ret `{Runtime} {A} (a : A) : IO A := fun w => (Returned a, w).

Definition panic `{Runtime} {A} (msg : string) : IO A :=
  fun w => (Panicked msg, w).

Definition bind `{Runtime} {A B} (m : IO A) (k : A -> IO B) : IO B :=
  fun w =>
    match m w with
    | (Returned a, w') => k a w'
    | (Panicked msg, w') => (Panicked msg, w')
    end.

Notation "x <- m ;; k" := (bind m (fun x => k))
  (at level 100, m at next level, right associativity).
Notation "m ;;; k" := (bind m (fun _ => k))
  (at level 100, right associativity).

Definition nil_dereference : string :=
  "runtime error: invalid memory address or nil pointer dereference".

Section Plugin.
Context `{Runtime}.

(** [c.HTTPClient.Do(req)]: the request is executed and recorded. *)
Definition Do (c : http.Client) (req : http.Request)
  : IO (Result http.Response) :=
  fun w =>
    let '(r, s) := http_Client_Do c req (server w) in
    (Returned r, mkWorld s (sent w ++ [req]) (streamed w)).

(** [d.StreamListItem(ctx, x)]. *)
Definition StreamListItem (x : item) : IO unit :=
  fun w => (Returned tt, mkWorld (server w) (sent w) (streamed w ++ [x])).

(** [for _, x := range xs { body }]. *)
Fixpoint for_range {A} (xs : list A) (body : A -> IO unit) : IO unit :=
  match xs with
  | [] => ret tt
  | x :: rest => body x ;;; for_range rest body
  end.

(** *** connection_config.go *)

Definition ConfigInstance : plugin.ConfigValue :=
  plugin.ptr_NextcloudConfig (Some NextcloudConfig.zero).

(** [GetConfig] returns a [*NextcloudConfig]. *)
Definition GetConfig (conn : option plugin.Connection)
  : option NextcloudConfig.t :=
  match conn with
  | None => Some NextcloudConfig.zero
  | Some c =>
      match plugin.Config c with
      | plugin.nil_interface => Some NextcloudConfig.zero
      | plugin.ptr_NextcloudConfig cfg => cfg
      | plugin.val_NextcloudConfig cfg => Some cfg
      | plugin.other_type _ => Some NextcloudConfig.zero
      end
  end.

(** [p != nil && *p != ""], with the string it then holds. *)
Definition configured (p : option string) : option string :=
  match p with
  | Some s => if String.eqb s "" then None else Some s
  | None => None
  end.

Definition SetBasicAuth (username password : string) (req : http.Request)
  : http.Request :=
  {| http.Method := http.Method req;
     http.URL := http.URL req;
     http.ReqHeader :=
       http.Header_Set "Authorization"
         ("Basic " +:+ base64_EncodeToString (username +:+ ":" +:+ password))
         (http.ReqHeader req);
     http.ReqBody := http.ReqBody req |}.

Definition Header_Set (key value : string) (req : http.Request)
  : http.Request :=
  {| http.Method := http.Method req;
     http.URL := http.URL req;
     http.ReqHeader := http.Header_Set key value (http.ReqHeader req);
     http.ReqBody := http.ReqBody req |}.

Definition MakeRequest (c : NextcloudClient.t) (method endpoint : string)
    (body : option string) : IO (Result http.Response) :=
  match url_Parse (NextcloudClient.BaseURL c +:+ endpoint) with
  | Err err => ret (Err (Errorf_w "invalid URL: " err))
  | Ok u =>
      match http_NewRequest_check method u with
      | Some err => ret (Err (Errorf_w "failed to create request: " err))
      | None =>
          let req := {| http.Method := method; http.URL := u;
                        http.ReqHeader := ∅; http.ReqBody := body |} in
          let req := Header_Set "OCS-APIREQUEST" "true" req in
          let req := Header_Set "Accept" "application/json" req in
          let req := Header_Set "Content-Type" "application/json" req in
          let req :=
            Header_Set "User-Agent" "Steampipe-Nextcloud-Plugin/1.0" req in
          let req :=
            SetBasicAuth (NextcloudClient.Username c)
                         (NextcloudClient.Password c) req in
          r <- Do (NextcloudClient.HTTPClient c) req ;;
          match r with
          | Err err => ret (Err (Errorf_w "request failed: " err))
          | Ok resp =>
              if 400 <=? http.StatusCode resp then
                let '(bodyBytes, _) := http.ReadAll (http.RespBody resp) in
                ret (Err (errorString
                       ("Nextcloud API error "
                        +:+ strconv.Itoa (http.StatusCode resp)
                        +:+ ": " +:+ bodyBytes)))
              else ret (Ok resp)
          end
      end
  end.

(** [GetJSON]: the value returned on success is what the call leaves
    in [result]. *)
Definition GetJSON {T} (c : NextcloudClient.t) (endpoint : string)
    (unmarshal : string -> json -> T -> decoding T) (result : T)
  : IO (Result T) :=
  r <- MakeRequest c "GET" endpoint None ;;
  match r with
  | Err err => ret (Err err)
  | Ok resp => ret (Decode unmarshal (http.RespBody resp) result)
  end.

Definition capabilities_endpoint : string :=
  "ocs/v1.php/cloud/capabilities?format=json".

Definition TestConnection (c : NextcloudClient.t) : IO (option error) :=
  r <- GetJSON c capabilities_endpoint decode_map ∅ ;;
  match r with
  | Err err => ret (Some (Errorf_w "connection test failed: " err))
  | Ok _ => ret None
  end.

Definition NewNextcloudClient (conn : option plugin.Connection)
  : IO (Result NextcloudClient.t) :=
  match GetConfig conn with
  | None => panic nil_dereference
  | Some cfg =>
      let client :=
        NextcloudClient.mk "" "" "" {| http.Timeout := 30 * time_Second |} in
      match configured (NextcloudConfig.ServerURL cfg) with
      | None => ret (Err (errorString "server_url must be configured"))
      | Some url =>
          let client := NextcloudClient.with_BaseURL url client in
          match configured (NextcloudConfig.Username cfg) with
          | None => ret (Err (errorString "username must be configured"))
          | Some username =>
              let client := NextcloudClient.with_Username username client in
              match configured (NextcloudConfig.Password cfg) with
              | None =>
                  ret (Err (errorString "password must be configured"))
              | Some password =>
                  let client :=
                    NextcloudClient.with_Password password client in
                  let client :=
                    if negb (strings.HasSuffix
                               (NextcloudClient.BaseURL client) "/")
                    then NextcloudClient.with_BaseURL
                           (NextcloudClient.BaseURL client +:+ "/") client
                    else client in
                  e <- TestConnection client ;;
                  match e with
                  | Some err =>
                      ret (Err (Errorf_w "unable to connect to Nextcloud: "
                                         err))
                  | None => ret (Ok client)
                  end
              end
          end
      end
  end.

Definition GetClient (conn : option plugin.Connection)
  : IO (Result NextcloudClient.t) :=
  NewNextcloudClient conn.

End Plugin.

(** The [GetConfig] of the earlier revision of connection_config.go: a
    type assertion in place of the type switch. *)
Module Legacy.

Definition GetConfig (conn : option plugin.Connection)
  : Outcome (option NextcloudConfig.t) :=
  match conn with
  | None => Returned (Some NextcloudConfig.zero)
  | Some c =>
      match plugin.Config c with
      | plugin.nil_interface => Returned (Some NextcloudConfig.zero)
      | plugin.ptr_NextcloudConfig cfg => Returned cfg
      | plugin.val_NextcloudConfig _ =>
          Panicked ("interface conversion: interface {} is "
                    +:+ "nextcloud.NextcloudConfig, not "
                    +:+ "*nextcloud.NextcloudConfig")
      | plugin.other_type T =>
          Panicked ("interface conversion: interface {} is " +:+ T
                    +:+ ", not *nextcloud.NextcloudConfig")
      end
  end.

End Legacy.

(** ** The table handlers *)

Section Handlers.
Context `{Runtime}.

Definition activity_endpoint : string :=
  "ocs/v2.php/apps/activity/api/v2/activity?format=json".

Definition shares_endpoint : string :=
  "ocs/v2.php/apps/files_sharing/api/v1/shares?format=json".

(** [fmt.Sprintf(".../shares/%d?format=json", id)]. *)
Definition share_endpoint (id : Z) : string :=
  "ocs/v2.php/apps/files_sharing/api/v1/shares/" +:+ strconv.Itoa id
  +:+ "?format=json".

Definition decode_ActivityList (body : http.Body)
  : Result ocsActivityListResponse :=
  Decode (ocsListResponse.unmarshal Activity.unmarshal Activity.zero)
         body ocsListResponse.zero.

Definition decode_ShareList (body : http.Body)
  : Result ocsShareListResponse :=
  Decode (ocsListResponse.unmarshal ocsShare.unmarshal ocsShare.zero)
         body ocsListResponse.zero.

(** The errors of the handlers, one definition for each [fmt.Errorf]. *)

Definition listActivity_decode_error (err : error) : error :=
  Errorf_w "échec du décodage JSON Nextcloud Activity : " err.

Definition listActivity_ocs_error (m : ocsMeta.t) : error :=
  errorString ("erreur OCS API : " +:+ ocsMeta.Message m +:+ " (code : "
               +:+ strconv.Itoa (ocsMeta.StatusCode m) +:+ ")").

Definition getActivity_decode_error (err : error) : error :=
  Errorf_w "échec du décodage JSON Nextcloud Activity : " err.

Definition getActivity_ocs_error (m : ocsMeta.t) : error :=
  errorString ("OCS API error: " +:+ ocsMeta.Message m +:+ " (code: "
               +:+ strconv.Itoa (ocsMeta.StatusCode m) +:+ ")").

Definition getActivity_not_found (id : string) : error :=
  errorString ("activity with ID " +:+ id +:+ " not found").

Definition listShares_decode_error (err : error) : error :=
  Errorf_w "error decoding JSON Nextcloud Shares: " err.

Definition listShares_ocs_error (m : ocsMeta.t) : error :=
  errorString ("OCS API error: " +:+ ocsMeta.Message m +:+ " (code "
               +:+ strconv.Itoa (ocsMeta.StatusCode m) +:+ ")").

Definition getShare_decode_error (err : error) : error :=
  Errorf_w "error decoding JSON Nextcloud Share detail: " err.

Definition getShare_not_found (id : Z) : error :=
  errorString ("share with ID " +:+ strconv.Itoa id +:+ " not found").

Definition id_qualifier_not_provided : error :=
  errorString "id qualifier not provided".

(** [listActivity] returns [(nil, nil)], here [Ok None], or an error. *)
Definition listActivity (d : plugin.QueryData) : IO (Result (option item)) :=
  r <- GetClient (plugin.Connection_ d) ;;
  match r with
  | Err err => ret (Err err)
  | Ok client =>
      r <- MakeRequest client "GET" activity_endpoint None ;;
      match r with
      | Err err => ret (Err err)
      | Ok resp =>
          match decode_ActivityList (http.RespBody resp) with
          | Err err => ret (Err (listActivity_decode_error err))
          | Ok result =>
              let ocs := ocsListResponse.Ocs result in
              if negb (String.eqb (ocsMeta.Status (ocsListResponse.Meta ocs))
                                  "ok")
              then ret (Err (listActivity_ocs_error
                               (ocsListResponse.Meta ocs)))
              else
                match plugin.EqualsQuals d !! "user_id" with
                | Some qual =>
                    let userID := plugin.GetStringValue qual in
                    for_range (ocsListResponse.Data ocs)
                      (fun activity =>
                         if String.eqb (Activity.User activity) userID
                         then StreamListItem (ActivityItem activity)
                         else ret tt) ;;;
                    ret (Ok None)
                | None =>
                    for_range (ocsListResponse.Data ocs)
                      (fun activity =>
                         StreamListItem (ActivityItem activity)) ;;;
                    ret (Ok None)
                end
          end
      end
  end.

Definition getActivity (d : plugin.QueryData) : IO (Result (option item)) :=
  match plugin.EqualsQuals d !! "id" with
  | None => ret (Err id_qualifier_not_provided)
  | Some qual =>
      let id := plugin.GetStringValue qual in
      match strconv.ParseInt id with
      | inl _ => ret (Err (errorString ("invalid ID format: " +:+ id)))
      | inr idInt =>
          r <- GetClient (plugin.Connection_ d) ;;
          match r with
          | Err err => ret (Err err)
          | Ok client =>
              r <- MakeRequest client "GET" activity_endpoint None ;;
              match r with
              | Err err => ret (Err err)
              | Ok resp =>
                  match decode_ActivityList (http.RespBody resp) with
                  | Err err => ret (Err (getActivity_decode_error err))
                  | Ok result =>
                      let ocs := ocsListResponse.Ocs result in
                      if negb (String.eqb
                                 (ocsMeta.Status (ocsListResponse.Meta ocs))
                                 "ok")
                      then ret (Err (getActivity_ocs_error
                                       (ocsListResponse.Meta ocs)))
                      else
                        match List.find
                                (fun activity =>
                                   Activity.ActivityID activity =? idInt)
                                (ocsListResponse.Data ocs) with
                        | Some activity =>
                            ret (Ok (Some (ActivityItem activity)))
                        | None => ret (Err (getActivity_not_found id))
                        end
                  end
              end
          end
      end
  end.

Definition listShares (d : plugin.QueryData) : IO (Result (option item)) :=
  r <- GetClient (plugin.Connection_ d) ;;
  match r with
  | Err err => ret (Err err)
  | Ok client =>
      r <- MakeRequest client "GET" shares_endpoint None ;;
      match r with
      | Err err => ret (Err err)
      | Ok resp =>
          match decode_ShareList (http.RespBody resp) with
          | Err err => ret (Err (listShares_decode_error err))
          | Ok result =>
              let ocs := ocsListResponse.Ocs result in
              if negb (String.eqb (ocsMeta.Status (ocsListResponse.Meta ocs))
                                  "ok")
              then ret (Err (listShares_ocs_error (ocsListResponse.Meta ocs)))
              else
                for_range (ocsListResponse.Data ocs)
                  (fun share => StreamListItem (ShareItem share)) ;;;
                ret (Ok None)
          end
      end
  end.

Definition getShare (d : plugin.QueryData) : IO (Result (option item)) :=
  match plugin.EqualsQuals d !! "id" with
  | None => ret (Err id_qualifier_not_provided)
  | Some qual =>
      let id := plugin.GetInt64Value qual in
      r <- GetClient (plugin.Connection_ d) ;;
      match r with
      | Err err => ret (Err err)
      | Ok client =>
          r <- MakeRequest client "GET" (share_endpoint id) None ;;
          match r with
          | Err err => ret (Err err)
          | Ok resp =>
              match decode_ShareList (http.RespBody resp) with
              | Err err => ret (Err (getShare_decode_error err))
              | Ok result =>
                  let ocs := ocsListResponse.Ocs result in
                  if negb (String.eqb
                             (ocsMeta.Status (ocsListResponse.Meta ocs)) "ok")
                     || (length (ocsListResponse.Data ocs) =? 0)%nat
                  then ret (Err (getShare_not_found id))
                  else
                    (* API returns single-element array *)
                    match ocsListResponse.Data ocs with
                    | share :: _ => ret (Ok (Some (ShareItem share)))
                    | [] => panic "index out of range [0] with length 0"
                    end
              end
          end
      end
  end.

End Handlers.

(** ** Notions used to state the properties *)

Section Notions.
Context `{Runtime}.

(** What the four handlers start with: build the client, then GET the
    endpoint. *)
Definition fetch (d : plugin.QueryData) (endpoint : string)
  : IO (Result http.Response) :=
  r <- GetClient (plugin.Connection_ d) ;;
  match r with
  | Err err => ret (Err err)
  | Ok client => MakeRequest client "GET" endpoint None
  end.

(** The errors that come from the HTTP layer and from the construction
    of the client: those that [MakeRequest] and [GetClient] return. *)
Definition returned_by_MakeRequest (t : error) : Prop :=
  exists c method endpoint body w w',
    MakeRequest c method endpoint body w = (Returned (Err t), w').

Definition returned_by_GetClient (t : error) : Prop :=
  exists conn w w', GetClient conn w = (Returned (Err t), w').

Definition request_error (t : error) : Prop :=
  returned_by_MakeRequest t \/ returned_by_GetClient t.

(** The request that [MakeRequest] builds for the URL [u]. *)
Definition request_of (c : NextcloudClient.t) (method u : string)
    (body : option string) : http.Request :=
  SetBasicAuth (NextcloudClient.Username c) (NextcloudClient.Password c)
    (Header_Set "User-Agent" "Steampipe-Nextcloud-Plugin/1.0"
       (Header_Set "Content-Type" "application/json"
          (Header_Set "Accept" "application/json"
             (Header_Set "OCS-APIREQUEST" "true"
                {| http.Method := method; http.URL := u;
                   http.ReqHeader := ∅; http.ReqBody := body |})))).

(** The client that the constructor builds from the three settings:
    the URL with a separator appended when it does not end with one. *)
Definition client_of (url username password : string) : NextcloudClient.t :=
  NextcloudClient.mk
    (if strings.HasSuffix url "/" then url else url +:+ "/")
    username password {| http.Timeout := 30 * time_Second |}.

(** The probe of [c] succeeded between the worlds [w] and [w']: one
    request was executed, a GET of the capabilities endpoint under the
    base URL of [c] with its credentials, and the answer had a status
    under 400 and a body that decodes into a map. *)
Definition verified (c : NextcloudClient.t) (w w' : World) : Prop :=
  exists u resp caps,
    url_Parse (NextcloudClient.BaseURL c +:+ capabilities_endpoint) = Ok u
    /\ sent w' = sent w ++ [request_of c "GET" u None]
    /\ streamed w' = streamed w
    /\ http_Client_Do (NextcloudClient.HTTPClient c)
         (request_of c "GET" u None) (server w) = (Ok resp, server w')
    /\ http.StatusCode resp < 400
    /\ Decode decode_map (http.RespBody resp) ∅ = Ok caps.

(** The probe of [c] was carried out between the worlds [w] and [w']:
    nothing was streamed, and the GET of the capabilities endpoint under
    the base URL of [c], with its credentials, was executed and moved the
    service to the state it has in [w'].  The one exception is a URL that
    [url.Parse] or [http.NewRequest] refuses: there is then no request to
    execute, and the service and the requests are as they were. *)
Definition probe_attempted (c : NextcloudClient.t) (w w' : World) : Prop :=
  streamed w' = streamed w
  /\ match url_Parse (NextcloudClient.BaseURL c +:+ capabilities_endpoint) with
     | Err _ => sent w' = sent w /\ server w' = server w
     | Ok u =>
         match http_NewRequest_check "GET" u with
         | Some _ => sent w' = sent w /\ server w' = server w
         | None =>
             let req := request_of c "GET" u None in
             sent w' = sent w ++ [req]
             /\ server w'
                = snd (http_Client_Do (NextcloudClient.HTTPClient c) req
                         (server w))
         end
     end.



(** The rows that [listActivity] streams for the records [data]. *)
Definition listActivity_rows (d : plugin.QueryData) (data : list Activity.t)
  : list Activity.t :=
  match plugin.EqualsQuals d !! "user_id" with
  | Some qual =>
      List.filter
        (fun activity =>
           String.eqb (Activity.User activity) (plugin.GetStringValue qual))
        data
  | None => data
  end.

(** [e] reports the failure that the envelope's [meta] announces: its
    text holds the message and the status code of [meta], and it is the
    text of no request error. *)
Definition logical_API_error (e : error) (meta : ocsMeta.t) : Prop :=
  strings.Contains (Error e) (ocsMeta.Message meta)
  /\ strings.Contains (Error e) (strconv.Itoa (ocsMeta.StatusCode meta))
  /\ forall t, request_error t -> Error e <> Error t.

(** A required setting is missing: nil or empty. *)
Definition missing (p : option string) : Prop := p = None \/ p = Some "".

(** The required settings with the names the configuration gives them,
    in the order in which the constructor checks them. *)
Definition required_fields (cfg : NextcloudConfig.t)
  : list (string * option string) :=
  [("server_url", NextcloudConfig.ServerURL cfg);
   ("username", NextcloudConfig.Username cfg);
   ("password", NextcloudConfig.Password cfg)].

End Notions.

(** How the texts of the request errors start. *)
Definition request_error_prefixes : list string :=
  ["invalid URL: "; "failed to create request: "; "request failed: ";
   "Nextcloud API error "; "server_url must be configured";
   "username must be configured"; "password must be configured";
   "unable to connect to Nextcloud: "].

Definition has_request_error_prefix (s : string) : bool :=
  existsb (strings.HasPrefix s) request_error_prefixes.

(** [strings.Contains] as a test: [substr] starts at some position of [s]. *)
Fixpoint contains (s substr : string) : bool :=
  strings.HasPrefix s substr
  || match s with
     | EmptyString => false
     | String _ s' => contains s' substr
     end.

(** ** A runtime to run the handlers on concrete inputs *)

(** The remote service replays a script of answers, one for each request;
    times are kept as their RFC 3339 text; the JSON reader knows the
    bodies of [documents]. *)
Module Scripted.

Definition ok_meta : json :=
  JObject [("status", JString "ok"); ("statuscode", JNumber "200");
           ("message", JString "OK")].

Definition failure_meta : json :=
  JObject [("status", JString "failure"); ("statuscode", JNumber "997");
           ("message", JString "Current user is not logged in")].

Definition envelope (meta : json) (data : list json) : json :=
  JObject [("ocs", JObject [("meta", meta); ("data", JArray data)])].

Definition activity_of (id user : string) : json :=
  JObject [("activity_id", JNumber id); ("app", JString "files");
           ("type", JString "file_created");
           ("subject", JString "You created notes.md");
           ("datetime", JString "2024-05-01T10:00:00+00:00");
           ("user", JString user)].

(** A subject_rich as the service sends it: the pattern and its
    parameter, a file whose identifier needs more than 53 bits. *)
Definition rich_text : json :=
  JArray
    [JString "You created {file}";
     JObject
       [("file",
         JObject [("type", JString "file");
                  ("id", JNumber "9007199254740993");
                  ("name", JString "notes.md")])]].

Definition share_of (id : string) : json :=
  JObject [("id", JString id); ("share_type", JNumber "3");
           ("path", JString "/notes.md"); ("permissions", JNumber "1")].

Definition documents : list (string * json) := [
  ("{}", JObject []);
  ("activities a b", envelope ok_meta [activity_of "1" "a"; activity_of "2" "b"]);
  ("no activities", envelope ok_meta []);
  ("not logged in", envelope failure_meta []);
  ("one activity",
   envelope ok_meta
     [JObject
        [("activity_id", JNumber "42"); ("app", JString "files");
         ("type", JString "file_created");
         ("subject", JString "You created notes.md");
         ("subject_rich", rich_text);
         ("subject_params", JArray [JString "notes.md"]);
         ("object_type", JString "files"); ("object_id", JNumber "7");
         ("object_name", JString "/notes.md");
         ("datetime", JString "2024-05-01T10:00:00+00:00");
         ("user", JString "alice")]]);
  ("share 7", envelope ok_meta [share_of "7"]);
  ("no shares", envelope ok_meta [])
].

Definition readValue (b : http.Body) : Result json :=
  match List.find (fun d => String.eqb (fst d) (http.bytes b)) documents with
  | Some d => Ok (snd d)
  | None => Err (errorString "invalid character")
  end.

(** The numbers of the documents are integers of 64 bits.  Their
    [float64] is given by the integer it is equal to: the integer itself
    when 53 bits hold it, and otherwise the nearest integer of 53
    significant bits, the even one of two that are as near.
    [drop_bits k p] removes the [k] low bits of [p] and tells whether the
    rest is to be rounded up: [guard] is the last bit removed and
    [sticky] tells whether a bit removed before it was set. *)
Fixpoint drop_bits (k : nat) (p : positive) (guard sticky : bool)
  : positive * bool :=
  match k with
  | O => (p, guard && (sticky || match p with xI _ => true | _ => false end))
  | S k' =>
      match p with
      | xI q => drop_bits k' q true (sticky || guard)
      | xO q => drop_bits k' q false (sticky || guard)
      | xH => (xH, false)
      end
  end.

Definition nearest_pos (p : positive) : positive :=
  let k := (Pos.size_nat p - 53)%nat in
  let '(q, up) := drop_bits k p false false in
  Nat.iter k xO (if up then Pos.succ q else q).

Definition nearest_float64 (n : Z) : Z :=
  match n with
  | Z0 => Z0
  | Zpos p => Zpos (nearest_pos p)
  | Zneg p => Zneg (nearest_pos p)
  end.

(** [strconv.ParseFloat] on the numbers that the documents hold where
    the decoder stores an [interface{}]; another literal is not read. *)
Definition numbers : list (string * Z) :=
  map (fun lit => (lit, nearest_float64 (val lit 0)))
      ["9007199254740993"; "42"; "0"].

Definition ParseFloat (lit : string) : option Z :=
  match List.find (fun e => String.eqb (fst e) lit) numbers with
  | Some e => Some (snd e)
  | None => None
  end.

#[local] Instance runtime : Runtime := {|
  time_Time := string;
  time_Time_zero := "0001-01-01T00:00:00Z";
  time_UnmarshalJSON j :=
    match j with
    | JString s => Ok s
    | _ => Err (errorString "Time.UnmarshalJSON: input is not a JSON string")
    end;
  json_UnmarshalTypeError Value Field :=
    errorString ("json: cannot unmarshal " +:+ Value
                 +:+ " into Go struct field " +:+ Field);
  json_readValue := readValue;
  url_Parse raw := Ok raw;
  http_NewRequest_check _ _ := None;
  float64 := Z;
  strconv_ParseFloat := ParseFloat;
  base64_EncodeToString s := s;
  Server := list (Result http.Response);
  http_Client_Do _ _ script :=
    match script with
    | answer :: rest => (answer, rest)
    | [] => (Err (errorString "EOF"), [])
    end;
|}.


(** The record that [activity_of id user] decodes to. *)
Definition activity (id : Z) (user : string) : Activity.t :=
  Activity.mk id "files" "file_created" "You created notes.md" VNil []
    "" 0 "" "2024-05-01T10:00:00+00:00" user.

Definition answer (status : Z) (body : string) : Result http.Response :=
  Ok {| http.StatusCode := status;
        http.RespBody := {| http.bytes := body; http.readErr := None |} |}.

(** The answer to the probe, and the URL, of the runs below. *)
Definition probe_ok : Result http.Response := answer 200 "{}".

Definition cloud : string := "https://cloud.example.com".

Definition world (script : list (Result http.Response)) : World :=
  mkWorld script [] [].

Definition config (url : string) : NextcloudConfig.t :=
  NextcloudConfig.mk (Some url) (Some "alice") (Some "secret").

Definition query (url : string) (quals : list (string * plugin.QualValue))
  : plugin.QueryData :=
  {| plugin.Connection_ :=
       Some {| plugin.Config := plugin.val_NextcloudConfig (config url) |};
     plugin.EqualsQuals := list_to_map quals |}.

End Scripted.


(** ** Further notions *)

(** The configurations under which [GetConfig] falls back to the empty
    configuration. *)
Definition degenerate (conn : option plugin.Connection) : Prop :=
  conn = None
  \/ exists c, conn = Some c
       /\ (plugin.Config c = plugin.nil_interface
           \/ exists T, plugin.Config c = plugin.other_type T).

(** The query [d] with the qualifier [q] on the column [key]. *)
Definition with_qual (key : string) (q : plugin.QualValue)
    (d : plugin.QueryData) : plugin.QueryData :=
  {| plugin.Connection_ := plugin.Connection_ d;
     plugin.EqualsQuals := <[key := q]> (plugin.EqualsQuals d) |}.

(** The identifier texts that [strconv.ParseInt] accepts for [n]: an
    optional sign and at least one decimal digit. *)
Definition decimal_text (s : string) (n : Z) : Prop :=
  exists sign digits,
    s = sign +:+ digits
    /\ (sign = "" \/ sign = "+" \/ sign = "-")
    /\ digits <> ""
    /\ all_digits digits = true
    /\ n = (if String.eqb sign "-" then - val digits 0 else val digits 0).

Definition marshal_string_ptr (p : option string) : json :=
  match p with
  | Some s => JString s
  | None => JNull
  end.

(** The JSON text of a share, member by member as the tags of the struct
    name them. *)
Definition marshal_Share (s : ocsShare.t) : json :=
  JObject
    [("id", JString (ocsShare.ID s));
     ("share_type", JNumber (strconv.Itoa (ocsShare.ShareType s)));
     ("share_with", JString (ocsShare.ShareWith s));
     ("share_with_displayname", JString (ocsShare.ShareWithDisplayName s));
     ("path", JString (ocsShare.Path s));
     ("permissions", JNumber (strconv.Itoa (ocsShare.Permissions s)));
     ("password", marshal_string_ptr (ocsShare.Password s));
     ("public_upload", JBool (ocsShare.PublicUpload s));
     ("expire_date", marshal_string_ptr (ocsShare.ExpireDate s));
     ("url", JString (ocsShare.URL s));
     ("uid_owner", JString (ocsShare.UIDOwner s));
     ("displayname_owner", JString (ocsShare.Owner s));
     ("stime", JNumber (strconv.Itoa (ocsShare.TimeCreated s)));
     ("item_mtime", JNumber (strconv.Itoa (ocsShare.TimeModified s)))].

(** The envelope, with status "ok", around the shares. *)
Definition shares_envelope (shares : list ocsShare.t) : json :=
  JObject
    [("ocs",
      JObject
        [("meta",
          JObject [("status", JString "ok"); ("statuscode", JNumber "200");
                   ("message", JString "OK")]);
         ("data", JArray (map marshal_Share shares))])].

(** The four integers of a share are 64-bit integers. *)
Definition share_in_range (s : ocsShare.t) : Prop :=
  int64_range (ocsShare.ShareType s)
  /\ int64_range (ocsShare.Permissions s)
  /\ int64_range (ocsShare.TimeCreated s)
  /\ int64_range (ocsShare.TimeModified s).

(** A JSON value that is not the envelope: [null], or an object none of
    whose keys matches "ocs" when case is ignored. *)
Definition without_ocs (j : json) : Prop :=
  j = JNull
  \/ exists members,
       j = JObject members
       /\ Forall (fun m => foldName (fst m) <> "OCS") members.

(** Between the worlds [w] and [w'] exactly two requests were executed
    for the query [d]: the probe of the capabilities endpoint and then a
    GET of [endpoint], both built from the settings of the connection. *)
Definition probe_then_GET `{Runtime} (d : plugin.QueryData)
    (endpoint : string) (w w' : World) : Prop :=
  exists cfg url username password u1 u2,
    GetConfig (plugin.Connection_ d) = Some cfg
    /\ configured (NextcloudConfig.ServerURL cfg) = Some url
    /\ configured (NextcloudConfig.Username cfg) = Some username
    /\ configured (NextcloudConfig.Password cfg) = Some password
    /\ let c := client_of url username password in
       url_Parse (NextcloudClient.BaseURL c +:+ capabilities_endpoint)
       = Ok u1
       /\ url_Parse (NextcloudClient.BaseURL c +:+ endpoint) = Ok u2
       /\ sent w'
          = sent w ++ [request_of c "GET" u1 None; request_of c "GET" u2 None].

(** A request of the kind the handlers make. *)
Definition GET_without_body (req : http.Request) : Prop :=
  http.Method req = "GET" /\ http.ReqBody req = None.

(** The keys of the header that [MakeRequest] sets, as the header holds
    them. *)
Definition request_header_keys : list string :=
  ["Ocs-Apirequest"; "Accept"; "Content-Type"; "User-Agent"; "Authorization"].

(** A second runtime to run the handlers: as [Scripted], with the
    documents that the JSON reader knows given as an argument, a URL
    parser that refuses a text that starts with a colon and a request
    constructor that refuses a method with a space. *)
Module Replay.

Definition readValue (documents : list (string * json)) (b : http.Body)
  : Result json :=
  match List.find (fun d => String.eqb (fst d) (http.bytes b)) documents with
  | Some d => Ok (snd d)
  | None => Err (errorString "invalid character")
  end.

Definition runtime (documents : list (string * json)) : Runtime := {|
  time_Time := string;
  time_Time_zero := "0001-01-01T00:00:00Z";
  time_UnmarshalJSON j :=
    match j with
    | JString s => Ok s
    | _ => Err (errorString "Time.UnmarshalJSON: input is not a JSON string")
    end;
  json_UnmarshalTypeError Value Field :=
    errorString ("json: cannot unmarshal " +:+ Value
                 +:+ " into Go struct field " +:+ Field);
  json_readValue := readValue documents;
  float64 := Z;
  strconv_ParseFloat := Scripted.ParseFloat;
  url_Parse raw :=
    if strings.HasPrefix raw ":"
    then Err (errorString "missing protocol scheme")
    else Ok raw;
  http_NewRequest_check method _ :=
    if contains method " "
    then Some (errorString "net/http: invalid method")
    else None;
  base64_EncodeToString s := s;
  Server := list (Result http.Response);
  http_Client_Do _ _ script :=
    match script with
    | answer :: rest => (answer, rest)
    | [] => (Err (errorString "EOF"), [])
    end;
|}.

(** A share with every field set, and one with the optional fields nil. *)
Definition link : ocsShare.t :=
  ocsShare.mk "7" 3 "" "" "/notes.md" 17 (Some "hunter2") true
    (Some "2025-01-31 00:00:00") "https://cloud.example.com/s/abc" "alice"
    "Alice" 1714557600 1714557700.

Definition plain : ocsShare.t :=
  ocsShare.mk "8" 0 "bob" "Bob" "/plan.txt" 1 None false None "" "alice"
    "Alice" 1714557800 (-1).

Definition documents : list (string * json) := [
  ("{}", JObject []);
  ("[]", JArray []);
  ("null", JNull);
  ("error page", JObject [("message", JString "Bad gateway")]);
  ("two shares", shares_envelope [link; plain])
].

Definition standard : Runtime := runtime documents.

Definition answer (status : Z) (body : string) : Result http.Response :=
  Ok {| http.StatusCode := status;
        http.RespBody := {| http.bytes := body; http.readErr := None |} |}.

Definition world (script : list (Result http.Response)) : @World standard :=
  @mkWorld standard script [] [].

Definition client (url : string) : NextcloudClient.t :=
  client_of url "alice" "secret".

Definition query (url : string) (quals : list (string * plugin.QualValue))
  : plugin.QueryData :=
  {| plugin.Connection_ :=
       Some {| plugin.Config :=
                 plugin.ptr_NextcloudConfig
                   (Some (NextcloudConfig.mk (Some url) (Some "alice")
                            (Some "secret"))) |};
     plugin.EqualsQuals := list_to_map quals |}.

End Replay.

(** * Properties *)

#[local] Arguments String.append : simpl nomatch.

(** ** Strings *)

Lemma append_nil_r (s : string) : s +:+ "" = s.
Proof. induction s as [|c s IH]; simpl; [reflexivity | now rewrite IH]. Qed.

Lemma append_assoc (s t u : string) : (s +:+ t) +:+ u = s +:+ (t +:+ u).
Proof. induction s as [|c s IH]; simpl; [reflexivity | now rewrite IH]. Qed.

Lemma length_append (s t : string) :
  String.length (s +:+ t) = (String.length s + String.length t)%nat.
Proof. induction s as [|c s IH]; simpl; [reflexivity | now rewrite IH]. Qed.

Lemma Contains_middle (pre sub post : string) :
  strings.Contains (pre +:+ sub +:+ post) sub.
Proof. now exists pre, post. Qed.

Lemma Contains_append_l (pre s sub : string) :
  strings.Contains s sub -> strings.Contains (pre +:+ s) sub.
Proof.
  intros (a & b & ->). exists (pre +:+ a), b. now rewrite append_assoc.
Qed.

(** ** Decimal integers *)

Module strconv_facts.
Import strconv.

#[local] Arguments digit : simpl never.
#[local] Arguments is_digit : simpl never.

Lemma digit_cases (d : Z) :
  0 <= d < 10 ->
  d = 0 \/ d = 1 \/ d = 2 \/ d = 3 \/ d = 4 \/ d = 5 \/ d = 6 \/ d = 7
  \/ d = 8 \/ d = 9.
Proof. lia. Qed.

Lemma digit_value (d : Z) :
  0 <= d < 10 -> Z.of_nat (nat_of_ascii (digit d)) - 48 = d.
Proof.
  intros Hd. destruct (digit_cases d Hd) as [E|[E|[E|[E|[E|[E|[E|[E|[E|E]]]]]]]]];
    subst d; reflexivity.
Qed.

Lemma digit_is_digit (d : Z) : 0 <= d < 10 -> is_digit (digit d) = true.
Proof.
  intros Hd. destruct (digit_cases d Hd) as [E|[E|[E|[E|[E|[E|[E|[E|[E|E]]]]]]]]];
    subst d; reflexivity.
Qed.

Lemma is_digit_bounds (c : ascii) :
  is_digit c = true -> 0 <= Z.of_nat (nat_of_ascii c) - 48 < 10.
Proof.
  unfold is_digit. rewrite andb_true_iff, !Nat.leb_le. lia.
Qed.

Lemma val_shift (s : string) (n : Z) :
  val s n = n * 10 ^ Z.of_nat (String.length s) + val s 0.
Proof.
  revert n. induction s as [|c s IH]; intros n; simpl String.length; simpl val.
  - change (10 ^ Z.of_nat 0) with 1. lia.
  - rewrite IH, (IH (0 * 10 + _)).
    rewrite Nat2Z.inj_succ, Z.pow_succ_r by lia. ring.
Qed.

Lemma val_ge (s : string) (n : Z) :
  all_digits s = true -> 0 <= n -> n <= val s n.
Proof.
  revert n. induction s as [|c s IH]; intros n Hs Hn; simpl in *; [lia|].
  apply andb_true_iff in Hs as [Hc Hs]. apply is_digit_bounds in Hc.
  specialize (IH (n * 10 + (Z.of_nat (nat_of_ascii c) - 48)) Hs). lia.
Qed.

(** On digits, and as long as the result fits 64 bits, the loop of
    [ParseUint] computes [val]. *)
Lemma parseUint_loop_val (s : string) (n : Z) :
  all_digits s = true -> 0 <= n -> val s n <= maxUint64 ->
  parseUint_loop s n = inr (val s n).
Proof.
  revert n. induction s as [|c s IH]; intros n Hs Hn Hv; [reflexivity|].
  simpl in Hs. apply andb_true_iff in Hs as [Hc Hs].
  pose proof (is_digit_bounds c Hc) as Hd.
  simpl in Hv. simpl parseUint_loop. rewrite Hc.
  set (d := Z.of_nat (nat_of_ascii c) - 48) in *.
  assert (Hle : n * 10 + d <= val s (n * 10 + d)) by (apply val_ge; [assumption|lia]).
  unfold maxUint64 in *.
  assert (Hn10 : (n * 10) mod 2 ^ 64 = n * 10) by (apply Z.mod_small; lia).
  assert (Hn1 : (n * 10 + d) mod 2 ^ 64 = n * 10 + d) by (apply Z.mod_small; lia).
  destruct (Z.leb_spec ((2 ^ 64 - 1) / 10 + 1) n) as [Hc1|Hc1].
  { exfalso. change ((2 ^ 64 - 1) / 10 + 1) with 1844674407370955162 in Hc1.
    change (2 ^ 64) with 18446744073709551616 in *. lia. }
  rewrite Hn10, Hn1.
  destruct (Z.ltb_spec (n * 10 + d) (n * 10)); [lia|].
  destruct (Z.ltb_spec (2 ^ 64 - 1) (n * 10 + d)); [lia|].
  simpl. apply IH; [assumption | lia | assumption].
Qed.

Lemma formatBits_digits (fuel : nat) (u : Z) (acc : string) :
  0 <= u -> all_digits acc = true -> all_digits (formatBits fuel u acc) = true.
Proof.
  revert u acc. induction fuel as [|fuel IH]; intros u acc Hu Hacc; simpl;
    [assumption|].
  destruct (Z.ltb_spec u 10).
  - cbn [all_digits]. rewrite digit_is_digit by lia. assumption.
  - apply IH; [apply Z.div_pos; lia|].
    cbn [all_digits]. rewrite digit_is_digit; [assumption|].
    apply Z.mod_pos_bound. lia.
Qed.

Lemma formatBits_val (fuel : nat) (u : Z) (acc : string) :
  0 <= u < 10 ^ Z.of_nat fuel ->
  val (formatBits fuel u acc) 0
  = u * 10 ^ Z.of_nat (String.length acc) + val acc 0.
Proof.
  revert u acc. induction fuel as [|fuel IH]; intros u acc Hu.
  - change (10 ^ Z.of_nat 0) with 1 in Hu. assert (u = 0) by lia. subst u.
    simpl. lia.
  - simpl formatBits. destruct (Z.ltb_spec u 10).
    + simpl val. rewrite val_shift, digit_value by lia. lia.
    + rewrite Nat2Z.inj_succ, Z.pow_succ_r in Hu by lia.
      rewrite IH by (split; [apply Z.div_pos; lia | apply Z.div_lt_upper_bound; lia]).
      simpl String.length. simpl val.
      rewrite (val_shift acc), digit_value by (apply Z.mod_pos_bound; lia).
      rewrite Nat2Z.inj_succ, Z.pow_succ_r by lia.
      pose proof (Z.div_mod u 10 ltac:(lia)) as Hdm.
      set (q := u / 10) in *. set (r := u mod 10) in *.
      clearbody q r. subst u. ring.
Qed.

Lemma formatBits_nonempty (fuel : nat) (u : Z) (acc : string) :
  formatBits (S fuel) u acc <> "".
Proof.
  revert u acc. induction fuel as [|fuel IH]; intros u acc; simpl.
  - destruct (u <? 10); discriminate.
  - destruct (u <? 10); [discriminate|]. apply (IH (u / 10)).
Qed.

Lemma ParseUint_formatBits (u : Z) :
  0 <= u <= maxUint64 -> ParseUint (formatBits 20 u "") = inr u.
Proof.
  intros Hu.
  assert (Hv : val (formatBits 20 u "") 0 = u).
  { rewrite formatBits_val; [simpl; lia|]. unfold maxUint64 in Hu.
    change (10 ^ Z.of_nat 20) with 100000000000000000000.
    change (2 ^ 64) with 18446744073709551616 in Hu. lia. }
  assert (Hd : all_digits (formatBits 20 u "") = true)
    by (apply formatBits_digits; [lia | reflexivity]).
  unfold ParseUint.
  destruct (formatBits 20 u "") eqn:E; [now apply formatBits_nonempty in E|].
  rewrite parseUint_loop_val;
    [now rewrite Hv | assumption | lia | rewrite Hv; lia].
Qed.

(** A string of digits does not start with a sign. *)
Lemma digits_head (c : ascii) (s : string) :
  all_digits (String c s) = true ->
  Ascii.eqb c "+" = false /\ Ascii.eqb c "-" = false.
Proof.
  simpl. intros Hc%andb_true_iff. destruct Hc as [Hc _].
  apply is_digit_bounds in Hc.
  split; apply Ascii.eqb_neq; intros ->; cbv in Hc;
    destruct Hc as [Hc _]; now apply Hc.
Qed.

(** Parsing what [FormatInt] printed gives the number back. *)
Lemma ParseInt_FormatInt (i : Z) :
  int64_range i -> ParseInt (FormatInt i) = inr i.
Proof.
  unfold int64_range. intros Hi.
  change (2 ^ 63) with 9223372036854775808 in Hi.
  unfold FormatInt. destruct (Z.ltb_spec i 0) as [Hneg|Hpos].
  - unfold ParseInt. change (Ascii.eqb "-" "+") with false.
    change (Ascii.eqb "-" "-") with true. cbv iota beta.
    rewrite ParseUint_formatBits
      by (unfold maxUint64; change (2 ^ 64) with 18446744073709551616; lia).
    change (2 ^ 63) with 9223372036854775808.
    simpl negb. simpl andb.
    destruct (Z.ltb_spec 9223372036854775808 (- i)); [lia|].
    f_equal. lia.
  - pose proof (ParseUint_formatBits i) as HP.
    assert (Hd : all_digits (formatBits 20 i "") = true)
      by (apply formatBits_digits; [lia | reflexivity]).
    unfold ParseInt.
    destruct (formatBits 20 i "") as [|c s] eqn:E;
      [now apply formatBits_nonempty in E|].
    destruct (digits_head c s Hd) as [-> ->].
    rewrite HP
      by (unfold maxUint64; change (2 ^ 64) with 18446744073709551616; lia).
    change (2 ^ 63) with 9223372036854775808.
    simpl negb. simpl andb.
    destruct (Z.leb_spec 9223372036854775808 i); [lia|]. reflexivity.
Qed.

End strconv_facts.

Lemma HasPrefix_append (p s : string) : strings.HasPrefix (p +:+ s) p = true.
Proof.
  induction p as [|c p IH]; simpl; [reflexivity|].
  now rewrite Ascii.eqb_refl.
Qed.

Lemma HasPrefix_split (p s : string) :
  strings.HasPrefix s p = true -> exists rest, s = p +:+ rest.
Proof.
  revert s. induction p as [|c p IH]; intros s Hp; simpl in *.
  - now exists s.
  - destruct s as [|c' s]; [discriminate|].
    apply andb_true_iff in Hp as [Hc Hp]. apply Ascii.eqb_eq in Hc. subst c'.
    destruct (IH s Hp) as [rest E]. exists rest. now rewrite E at 1.
Qed.

Lemma Contains_contains (s substr : string) :
  strings.Contains s substr -> contains s substr = true.
Proof.
  assert (Hunfold : forall s, contains s substr
            = strings.HasPrefix s substr
              || match s with
                 | EmptyString => false
                 | String _ s' => contains s' substr
                 end) by (now intros [|c s']).
  intros (pre & post & ->). induction pre as [|c pre IH]; simpl.
  - now rewrite Hunfold, HasPrefix_append.
  - rewrite IH. apply orb_true_r.
Qed.

(** ** The trailing separator *)

Lemma trailing_separators_le (s : string) :
  (trailing_separators s <= String.length s)%nat.
Proof.
  induction s as [|c s IH]; simpl; [lia|].
  destruct (_ && _); lia.
Qed.

Lemma trailing_separators_append (s : string) :
  trailing_separators (s +:+ "/") = S (trailing_separators s).
Proof.
  induction s as [|c s IH]; [reflexivity|].
  simpl. rewrite IH, length_append. simpl String.length.
  replace (String.length s + 1)%nat with (S (String.length s)) by lia.
  change (S (trailing_separators s) =? S (String.length s))%nat
    with (trailing_separators s =? String.length s)%nat.
  now destruct (_ && _).
Qed.

Lemma HasSuffix_cons (c c' : ascii) (s : string) :
  strings.HasSuffix (String c (String c' s)) "/"
  = strings.HasSuffix (String c' s) "/".
Proof.
  unfold strings.HasSuffix. simpl String.length.
  replace (S (S (String.length s)) - 1)%nat with (S (S (String.length s) - 1))
    by lia.
  reflexivity.
Qed.

Lemma HasSuffix_trailing (s : string) :
  strings.HasSuffix s "/" = true <-> (1 <= trailing_separators s)%nat.
Proof.
  induction s as [|c s IH]; [simpl; split; [discriminate | lia]|].
  destruct s as [|c' s].
  - unfold strings.HasSuffix. simpl.
    destruct (Ascii.eqb_spec c "/") as [->|Hc].
    + simpl. split; [lia | reflexivity].
    + simpl. destruct (Ascii.eqb_spec c "/"); [contradiction|].
      split; [discriminate | lia].
  - rewrite HasSuffix_cons, IH.
    change (trailing_separators (String c (String c' s)))
      with (let k := trailing_separators (String c' s) in
            if (k =? String.length (String c' s))%nat && Ascii.eqb c "/"
            then S k else k).
    cbv zeta. destruct (_ && _) eqn:E; [|reflexivity].
    apply andb_true_iff in E as [E _]. apply Nat.eqb_eq in E.
    simpl String.length in E. lia.
Qed.

Lemma HasSuffix_append (s : string) : strings.HasSuffix (s +:+ "/") "/" = true.
Proof. apply HasSuffix_trailing. rewrite trailing_separators_append. lia. Qed.

(** ** The client *)

Section Client_facts.
Context `{Runtime}.

Lemma configured_None (p : option string) :
  configured p = None <-> missing p.
Proof.
  unfold configured, missing. destruct p as [s|]; [|intuition].
  destruct (String.eqb_spec s ""); subst; intuition congruence.
Qed.

Lemma configured_Some (p : option string) (s : string) :
  configured p = Some s <-> p = Some s /\ s <> "".
Proof.
  unfold configured. destruct p as [s'|]; [|intuition congruence].
  destruct (String.eqb_spec s' ""); subst; intuition congruence.
Qed.

(** [MakeRequest], step by step. *)
Lemma MakeRequest_unfold c method endpoint body w :
  MakeRequest c method endpoint body w
  = match url_Parse (NextcloudClient.BaseURL c +:+ endpoint) with
    | Err err => (Returned (Err (Errorf_w "invalid URL: " err)), w)
    | Ok u =>
        match http_NewRequest_check method u with
        | Some err =>
            (Returned (Err (Errorf_w "failed to create request: " err)), w)
        | None =>
            let req := request_of c method u body in
            let '(r, s) :=
              http_Client_Do (NextcloudClient.HTTPClient c) req (server w) in
            let w' := mkWorld s (sent w ++ [req]) (streamed w) in
            match r with
            | Err err => (Returned (Err (Errorf_w "request failed: " err)), w')
            | Ok resp =>
                if 400 <=? http.StatusCode resp
                then (Returned
                        (Err (errorString
                                ("Nextcloud API error "
                                 +:+ strconv.Itoa (http.StatusCode resp)
                                 +:+ ": "
                                 +:+ http.bytes (http.RespBody resp)))), w')
                else (Returned (Ok resp), w')
            end
        end
    end.
Proof.
  unfold MakeRequest.
  destruct (url_Parse _) as [u|err]; [|reflexivity].
  destruct (http_NewRequest_check method u) as [err|]; [reflexivity|].
  unfold bind, Do. fold (request_of c method u body).
  destruct (http_Client_Do _ _ _) as [[resp|err] s]; [|reflexivity].
  cbv zeta. destruct (400 <=? http.StatusCode resp); reflexivity.
Qed.

Lemma MakeRequest_returns c method endpoint body w :
  exists r w', MakeRequest c method endpoint body w = (Returned r, w')
               /\ streamed w' = streamed w.
Proof.
  rewrite MakeRequest_unfold.
  destruct (url_Parse _) as [u|err]; [|eauto].
  destruct (http_NewRequest_check method u) as [err|]; [eauto|].
  cbv zeta. destruct (http_Client_Do _ _ _) as [[resp|err] s]; [|eauto].
  destruct (400 <=? http.StatusCode resp); eauto.
Qed.

(** A response that [MakeRequest] returns was the answer to the request
    it built, and its status is under 400. *)
Lemma MakeRequest_Ok c method endpoint body w resp w' :
  MakeRequest c method endpoint body w = (Returned (Ok resp), w') ->
  exists u,
    url_Parse (NextcloudClient.BaseURL c +:+ endpoint) = Ok u
    /\ sent w' = sent w ++ [request_of c method u body]
    /\ streamed w' = streamed w
    /\ http_Client_Do (NextcloudClient.HTTPClient c)
         (request_of c method u body) (server w) = (Ok resp, server w')
    /\ http.StatusCode resp < 400.
Proof.
  rewrite MakeRequest_unfold.
  destruct (url_Parse _) as [u|err]; [|discriminate].
  destruct (http_NewRequest_check method u) as [err|]; [discriminate|].
  cbv zeta. destruct (http_Client_Do _ _ _) as [[resp0|err] s] eqn:E;
    [|discriminate].
  destruct (Z.leb_spec 400 (http.StatusCode resp0)); [discriminate|].
  intros [= <- <-]. exists u. simpl. auto.
Qed.

Lemma MakeRequest_error_text c method endpoint body w t w' :
  MakeRequest c method endpoint body w = (Returned (Err t), w') ->
  has_request_error_prefix (Error t) = true.
Proof.
  rewrite MakeRequest_unfold.
  destruct (url_Parse _) as [u|err]; [|intros [= <- _]; reflexivity].
  destruct (http_NewRequest_check method u) as [err|]; [intros [= <- _]; reflexivity|].
  cbv zeta. destruct (http_Client_Do _ _ _) as [[resp|err] s];
    [|intros [= <- _]; reflexivity].
  destruct (400 <=? http.StatusCode resp); [intros [= <- _]; reflexivity|discriminate].
Qed.

Lemma TestConnection_unfold c w :
  TestConnection c w
  = match MakeRequest c "GET" capabilities_endpoint None w with
    | (Returned (Err err), w') =>
        (Returned (Some (Errorf_w "connection test failed: " err)), w')
    | (Returned (Ok resp), w') =>
        match Decode decode_map (http.RespBody resp) ∅ with
        | Err err =>
            (Returned (Some (Errorf_w "connection test failed: " err)), w')
        | Ok _ => (Returned None, w')
        end
    | (Panicked msg, w') => (Panicked msg, w')
    end.
Proof.
  unfold TestConnection, GetJSON, bind.
  destruct (MakeRequest _ _ _ _ _) as [[[resp|err]|msg] w']; try reflexivity.
  unfold ret. destruct (Decode _ _ _); reflexivity.
Qed.

Lemma TestConnection_returns c w :
  exists r w', TestConnection c w = (Returned r, w')
               /\ streamed w' = streamed w.
Proof.
  rewrite TestConnection_unfold.
  destruct (MakeRequest_returns c "GET" capabilities_endpoint None w)
    as (r & w' & -> & Hs).
  destruct r as [resp|err]; [|eauto]. destruct (Decode _ _ _); eauto.
Qed.

Lemma TestConnection_verified c w w' :
  TestConnection c w = (Returned None, w') -> verified c w w'.
Proof.
  rewrite TestConnection_unfold.
  destruct (MakeRequest _ _ _ _ _) as [[[resp|err]|msg] w1] eqn:E;
    try discriminate.
  destruct (Decode _ _ _) as [caps|err] eqn:D; [|discriminate].
  intros [= <-]. apply MakeRequest_Ok in E as (u & ? & ? & ? & ? & ?).
  now exists u, resp, caps.
Qed.

Lemma TestConnection_attempted c w o w' :
  TestConnection c w = (o, w') -> probe_attempted c w w'.
Proof.
  rewrite TestConnection_unfold, MakeRequest_unfold. unfold probe_attempted.
  destruct (url_Parse _) as [u|err];
    [|intros [= _ <-]; repeat split].
  destruct (http_NewRequest_check "GET" u) as [err|];
    [intros [= _ <-]; repeat split|].
  cbv zeta. destruct (http_Client_Do _ _ _) as [[resp|err] s];
    [|intros [= _ <-]; repeat split].
  destruct (400 <=? http.StatusCode resp); [intros [= _ <-]; repeat split|].
  destruct (Decode _ _ _); intros [= _ <-]; repeat split.
Qed.

Lemma verified_TestConnection c w probe w' :
  TestConnection c w = (Returned probe, w') ->
  verified c w w' -> probe = None.
Proof.
  intros HT (u & resp & caps & Hu & Hsent & _ & HDo & Hst & HD).
  rewrite TestConnection_unfold, MakeRequest_unfold, Hu in HT.
  destruct (http_NewRequest_check "GET" u) as [err|].
  { injection HT as _ <-. apply (f_equal (@length _)) in Hsent.
    rewrite length_app in Hsent. simpl in Hsent. lia. }
  cbv zeta in HT. rewrite HDo in HT.
  destruct (Z.leb_spec 400 (http.StatusCode resp)); [lia|].
  rewrite HD in HT. now injection HT as <- _.
Qed.

(** The constructor on a configuration that has the three settings. *)
Lemma NewNextcloudClient_valid conn cfg url username password w :
  GetConfig conn = Some cfg ->
  configured (NextcloudConfig.ServerURL cfg) = Some url ->
  configured (NextcloudConfig.Username cfg) = Some username ->
  configured (NextcloudConfig.Password cfg) = Some password ->
  NewNextcloudClient conn w
  = match TestConnection (client_of url username password) w with
    | (Returned None, w') =>
        (Returned (Ok (client_of url username password)), w')
    | (Returned (Some err), w') =>
        (Returned (Err (Errorf_w "unable to connect to Nextcloud: " err)), w')
    | (Panicked msg, w') => (Panicked msg, w')
    end.
Proof.
  intros Hcfg Hurl Huser Hpass. unfold NewNextcloudClient.
  rewrite Hcfg, Hurl, Huser, Hpass. unfold bind.
  replace (if negb _ then _ else _) with (client_of url username password).
  - destruct (TestConnection _ _) as [[[err|]|msg] w']; reflexivity.
  - unfold client_of. simpl. now destruct (strings.HasSuffix url "/").
Qed.

(** A client that the constructor returns was built from a configuration
    with the three settings, and its probe succeeded. *)
Lemma NewNextcloudClient_Ok conn w c w' :
  NewNextcloudClient conn w = (Returned (Ok c), w') ->
  exists cfg url username password,
    GetConfig conn = Some cfg
    /\ configured (NextcloudConfig.ServerURL cfg) = Some url
    /\ configured (NextcloudConfig.Username cfg) = Some username
    /\ configured (NextcloudConfig.Password cfg) = Some password
    /\ c = client_of url username password
    /\ TestConnection c w = (Returned None, w').
Proof.
  intros HN.
  destruct (GetConfig conn) as [cfg|] eqn:Hcfg;
    [|unfold NewNextcloudClient in HN; now rewrite Hcfg in HN].
  destruct (configured (NextcloudConfig.ServerURL cfg)) as [url|] eqn:Hurl;
    [|unfold NewNextcloudClient in HN; now rewrite Hcfg, Hurl in HN].
  destruct (configured (NextcloudConfig.Username cfg)) as [username|] eqn:Hu;
    [|unfold NewNextcloudClient in HN; now rewrite Hcfg, Hurl, Hu in HN].
  destruct (configured (NextcloudConfig.Password cfg)) as [password|] eqn:Hp;
    [|unfold NewNextcloudClient in HN; now rewrite Hcfg, Hurl, Hu, Hp in HN].
  rewrite (NewNextcloudClient_valid _ _ _ _ _ _ Hcfg Hurl Hu Hp) in HN.
  destruct (TestConnection _ _) as [[[err|]|msg] w1] eqn:HT; try discriminate.
  injection HN as <- <-. now exists cfg, url, username, password.
Qed.

Lemma NewNextcloudClient_error_text conn w t w' :
  NewNextcloudClient conn w = (Returned (Err t), w') ->
  has_request_error_prefix (Error t) = true.
Proof.
  unfold NewNextcloudClient.
  destruct (GetConfig conn) as [cfg|]; [|discriminate].
  destruct (configured _); [|intros [= <- _]; reflexivity].
  destruct (configured _); [|intros [= <- _]; reflexivity].
  destruct (configured _); [|intros [= <- _]; reflexivity].
  unfold bind. destruct (TestConnection _ _) as [[[err|]|msg] w1];
    [intros [= <- _]; reflexivity | discriminate | discriminate].
Qed.

Lemma request_error_text (t : error) :
  request_error t -> has_request_error_prefix (Error t) = true.
Proof.
  intros [(c & m & e & b & w & w' & HM) | (conn & w & w' & HG)].
  - eapply MakeRequest_error_text, HM.
  - eapply NewNextcloudClient_error_text, HG.
Qed.

End Client_facts.

Section Client_properties.
Context `{Runtime}.

(** C5.  When the answer to the request has a status of 400 or more,
    [MakeRequest] returns an error whose text holds the status in decimal
    and the bytes of the body as they were read, whatever these bytes
    are; and a response that [MakeRequest] returns has a status under
    400. *)
Theorem MakeRequest_http_status c method endpoint body w :
  (forall u resp s,
      url_Parse (NextcloudClient.BaseURL c +:+ endpoint) = Ok u ->
      http_NewRequest_check method u = None ->
      http_Client_Do (NextcloudClient.HTTPClient c)
        (request_of c method u body) (server w) = (Ok resp, s) ->
      400 <= http.StatusCode resp ->
      let text := "Nextcloud API error "
                  +:+ strconv.Itoa (http.StatusCode resp) +:+ ": "
                  +:+ http.bytes (http.RespBody resp) in
      MakeRequest c method endpoint body w
      = (Returned (Err (errorString text)),
         mkWorld s (sent w ++ [request_of c method u body]) (streamed w))
      /\ strings.Contains text (strconv.Itoa (http.StatusCode resp))
      /\ strings.Contains text (http.bytes (http.RespBody resp)))
  /\ (forall resp w',
         MakeRequest c method endpoint body w = (Returned (Ok resp), w') ->
         http.StatusCode resp < 400).
Proof.
  split.
  - intros u resp s Hu Hreq Hdo Hst text. rewrite MakeRequest_unfold.
    rewrite Hu, Hreq. cbv zeta. rewrite Hdo.
    destruct (Z.leb_spec 400 (http.StatusCode resp)); [|lia].
    split; [reflexivity|]. split.
    + apply Contains_middle.
    + exists ("Nextcloud API error "
              +:+ strconv.Itoa (http.StatusCode resp) +:+ ": "), "".
      now rewrite append_nil_r, !append_assoc.
  - intros resp w' HM. now apply MakeRequest_Ok in HM as (u & _ & _ & _ & _ & ?).
Qed.

(** C6.  When one of the three required settings is nil or empty, the
    constructor fails without executing a request, and the message of
    its error names a setting that is missing: the first one, in the
    order server_url, username, password. *)
Theorem NewNextcloudClient_missing_setting conn cfg w :
  GetConfig conn = Some cfg ->
  missing (NextcloudConfig.ServerURL cfg)
  \/ missing (NextcloudConfig.Username cfg)
  \/ missing (NextcloudConfig.Password cfg) ->
  exists before name value after,
    required_fields cfg = before ++ (name, value) :: after
    /\ Forall (fun field => ~ missing (snd field)) before
    /\ missing value
    /\ NewNextcloudClient conn w
       = (Returned (Err (errorString (name +:+ " must be configured"))), w).
Proof.
  intros Hcfg Hmiss. unfold NewNextcloudClient. rewrite Hcfg.
  destruct (configured (NextcloudConfig.ServerURL cfg)) as [url|] eqn:Hurl.
  2:{ exists [], "server_url", (NextcloudConfig.ServerURL cfg),
        [("username", NextcloudConfig.Username cfg);
         ("password", NextcloudConfig.Password cfg)].
      repeat split; [constructor | now apply configured_None]. }
  destruct (configured (NextcloudConfig.Username cfg)) as [user|] eqn:Huser.
  2:{ exists [("server_url", NextcloudConfig.ServerURL cfg)], "username",
        (NextcloudConfig.Username cfg),
        [("password", NextcloudConfig.Password cfg)].
      repeat split; [|now apply configured_None].
      repeat constructor. simpl. rewrite <- configured_None. congruence. }
  destruct (configured (NextcloudConfig.Password cfg)) as [pass|] eqn:Hpass.
  2:{ exists [("server_url", NextcloudConfig.ServerURL cfg);
              ("username", NextcloudConfig.Username cfg)], "password",
        (NextcloudConfig.Password cfg), [].
      repeat split; [|now apply configured_None].
      repeat constructor; simpl; rewrite <- configured_None; congruence. }
  exfalso. rewrite <- !configured_None in Hmiss.
  destruct Hmiss as [E|[E|E]]; congruence.
Qed.

(** C7.  On a configuration with the three settings the constructor
    carries out the probe: it executes the GET of the capabilities
    endpoint with the configured credentials, whether the probe then
    succeeds or fails (a request is missing only when the URL could not
    be turned into one, and the probe fails).  The probe succeeds exactly
    when that request was answered with a status under 400 and a body
    that decodes; the constructor then returns the client, and otherwise
    it returns an error that wraps the error of the probe under the text
    "unable to connect to Nextcloud: ".  Whatever the connection, a
    client that the constructor returns is one whose probe succeeded. *)
Theorem NewNextcloudClient_probes conn w :
  (forall cfg url username password,
      GetConfig conn = Some cfg ->
      configured (NextcloudConfig.ServerURL cfg) = Some url ->
      configured (NextcloudConfig.Username cfg) = Some username ->
      configured (NextcloudConfig.Password cfg) = Some password ->
      let client := client_of url username password in
      exists probe w',
        TestConnection client w = (Returned probe, w')
        /\ probe_attempted client w w'
        /\ (probe = None <-> verified client w w')
        /\ match probe with
           | None =>
               NewNextcloudClient conn w = (Returned (Ok client), w')
               /\ verified client w w'
           | Some err =>
               exists e,
                 NewNextcloudClient conn w = (Returned (Err e), w')
                 /\ Error e = "unable to connect to Nextcloud: " +:+ Error err
                 /\ Unwrap e = Some err
           end)
  /\ (forall c w',
         NewNextcloudClient conn w = (Returned (Ok c), w') ->
         verified c w w').
Proof.
  split.
  - intros cfg url username password Hcfg Hurl Huser Hpass client.
    rewrite (NewNextcloudClient_valid _ _ _ _ _ _ Hcfg Hurl Huser Hpass).
    fold client.
    destruct (TestConnection_returns client w) as (probe & w' & HT & _).
    exists probe, w'. rewrite HT. split; [reflexivity|].
    split; [exact (TestConnection_attempted _ _ _ _ HT)|].
    split.
    + split; [intros ->; now apply TestConnection_verified|].
      now apply verified_TestConnection.
    + destruct probe as [err|].
      * eexists. repeat split.
      * split; [reflexivity|]. now apply TestConnection_verified.
  - intros c w' HN.
    apply NewNextcloudClient_Ok in HN as (_ & _ & _ & _ & _ & _ & _ & _ & _ & HT).
    now apply TestConnection_verified.
Qed.

(** C2, as amended.  The base URL of a client that the constructor
    returns is the configured URL when that URL ends with a separator,
    and the configured URL followed by one separator otherwise.  It
    always ends with a separator; the separators that end it are those
    that ended the configured URL, or one when there was none. *)
Theorem NewNextcloudClient_BaseURL conn cfg url w c w' :
  GetConfig conn = Some cfg ->
  configured (NextcloudConfig.ServerURL cfg) = Some url ->
  NewNextcloudClient conn w = (Returned (Ok c), w') ->
  NextcloudClient.BaseURL c
  = (if strings.HasSuffix url "/" then url else url +:+ "/")
  /\ strings.HasSuffix (NextcloudClient.BaseURL c) "/" = true
  /\ trailing_separators (NextcloudClient.BaseURL c)
     = Nat.max 1 (trailing_separators url).
Proof.
  intros Hcfg Hurl HN.
  apply NewNextcloudClient_Ok in HN
    as (cfg' & url' & username & password & Hcfg' & Hurl' & _ & _ & -> & _).
  assert (cfg' = cfg) by congruence. subst cfg'.
  assert (url' = url) by congruence. subst url'.
  unfold client_of. simpl.
  destruct (strings.HasSuffix url "/") eqn:Hs.
  - split; [reflexivity|]. split; [assumption|].
    apply HasSuffix_trailing in Hs. lia.
  - split; [reflexivity|]. split; [apply HasSuffix_append|].
    rewrite trailing_separators_append.
    destruct (trailing_separators url) as [|k] eqn:Hk; [reflexivity|].
    assert (strings.HasSuffix url "/" = true)
      by (apply HasSuffix_trailing; lia).
    congruence.
Qed.

End Client_properties.

(** ** The handlers *)

Section Handler_facts.
Context `{Runtime}.

Lemma fetch_Ok d endpoint w resp w' :
  fetch d endpoint w = (Returned (Ok resp), w') ->
  exists client w1,
    GetClient (plugin.Connection_ d) w = (Returned (Ok client), w1)
    /\ MakeRequest client "GET" endpoint None w1 = (Returned (Ok resp), w')
    /\ streamed w' = streamed w.
Proof.
  unfold fetch, bind.
  destruct (GetClient _ w) as [[[client|err]|msg] w1] eqn:HG; try discriminate.
  intros HM. exists client, w1. repeat split; [assumption|].
  unfold GetClient in HG. apply NewNextcloudClient_Ok in HG
    as (_ & _ & _ & _ & _ & _ & _ & _ & _ & HT).
  apply TestConnection_verified in HT as (_ & _ & _ & _ & _ & Hs & _).
  apply MakeRequest_Ok in HM as (_ & _ & _ & Hs' & _). congruence.
Qed.

(** A loop that streams the elements that pass a test. *)
Lemma for_range_stream {A} (xs : list A) (keep : A -> bool) (row : A -> item)
    (w : World) :
  for_range xs (fun x => if keep x then StreamListItem (row x) else ret tt) w
  = (Returned tt,
     mkWorld (server w) (sent w)
             (streamed w ++ map row (List.filter keep xs))).
Proof.
  revert w. induction xs as [|x xs IH]; intros w; simpl.
  - unfold ret. rewrite app_nil_r. now destruct w.
  - unfold bind. destruct (keep x); simpl.
    + unfold StreamListItem at 1. rewrite IH. simpl.
      now rewrite <- app_assoc.
    + unfold ret at 1. apply IH.
Qed.

Lemma for_range_stream_all {A} (xs : list A) (row : A -> item) (w : World) :
  for_range xs (fun x => StreamListItem (row x)) w
  = (Returned tt, mkWorld (server w) (sent w) (streamed w ++ map row xs)).
Proof.
  pose proof (for_range_stream xs (fun _ => true) row w) as E.
  simpl in E. replace (List.filter (fun _ => true) xs) with xs in E; [exact E|].
  clear. induction xs; simpl; congruence.
Qed.

Lemma listActivity_unfold d w :
  listActivity d w
  = match fetch d activity_endpoint w with
    | (Returned (Err err), w') => (Returned (Err err), w')
    | (Panicked msg, w') => (Panicked msg, w')
    | (Returned (Ok resp), w') =>
        match decode_ActivityList (http.RespBody resp) with
        | Err err => (Returned (Err (listActivity_decode_error err)), w')
        | Ok result =>
            let ocs := ocsListResponse.Ocs result in
            if String.eqb (ocsMeta.Status (ocsListResponse.Meta ocs)) "ok"
            then (Returned (Ok None),
                  mkWorld (server w') (sent w')
                    (streamed w'
                     ++ map ActivityItem
                          (listActivity_rows d (ocsListResponse.Data ocs))))
            else (Returned (Err (listActivity_ocs_error
                                   (ocsListResponse.Meta ocs))), w')
        end
    end.
Proof.
  unfold listActivity, fetch, bind.
  destruct (GetClient _ w) as [[[client|err]|msg] w1]; try reflexivity.
  destruct (MakeRequest _ _ _ _ w1) as [[[resp|err]|msg] w2]; try reflexivity.
  destruct (decode_ActivityList _) as [result|err]; [|reflexivity].
  cbv zeta. destruct (String.eqb _ "ok"); [|reflexivity].
  change (negb true) with false. cbv iota beta. unfold listActivity_rows.
  destruct (plugin.EqualsQuals d !! "user_id") as [qual|].
  - unfold bind.
    now rewrite (for_range_stream _
                   (fun activity =>
                      String.eqb (Activity.User activity)
                                 (plugin.GetStringValue qual))
                   ActivityItem).
  - unfold bind. now rewrite (for_range_stream_all _ ActivityItem).
Qed.

Lemma listActivity_Ok d w resp w' result :
  fetch d activity_endpoint w = (Returned (Ok resp), w') ->
  decode_ActivityList (http.RespBody resp) = Ok result ->
  ocsMeta.Status (ocsListResponse.Meta (ocsListResponse.Ocs result)) = "ok" ->
  listActivity d w
  = (Returned (Ok None),
     mkWorld (server w') (sent w')
       (streamed w
        ++ map ActivityItem
             (listActivity_rows d
                (ocsListResponse.Data (ocsListResponse.Ocs result))))).
Proof.
  intros Hf Hd Hs. rewrite listActivity_unfold, Hf, Hd. cbv zeta.
  rewrite Hs. simpl String.eqb. cbv iota.
  apply fetch_Ok in Hf as (_ & _ & _ & _ & ->). reflexivity.
Qed.

Lemma getActivity_unfold d w qual idInt :
  plugin.EqualsQuals d !! "id" = Some qual ->
  strconv.ParseInt (plugin.GetStringValue qual) = inr idInt ->
  getActivity d w
  = match fetch d activity_endpoint w with
    | (Returned (Err err), w') => (Returned (Err err), w')
    | (Panicked msg, w') => (Panicked msg, w')
    | (Returned (Ok resp), w') =>
        match decode_ActivityList (http.RespBody resp) with
        | Err err => (Returned (Err (getActivity_decode_error err)), w')
        | Ok result =>
            let ocs := ocsListResponse.Ocs result in
            if String.eqb (ocsMeta.Status (ocsListResponse.Meta ocs)) "ok"
            then
              match List.find
                      (fun activity => Activity.ActivityID activity =? idInt)
                      (ocsListResponse.Data ocs) with
              | Some activity =>
                  (Returned (Ok (Some (ActivityItem activity))), w')
              | None =>
                  (Returned (Err (getActivity_not_found
                                    (plugin.GetStringValue qual))), w')
              end
            else (Returned (Err (getActivity_ocs_error
                                   (ocsListResponse.Meta ocs))), w')
        end
    end.
Proof.
  intros Hq Hp. unfold getActivity, fetch, bind. rewrite Hq, Hp.
  destruct (GetClient _ w) as [[[client|err]|msg] w1]; try reflexivity.
  destruct (MakeRequest _ _ _ _ w1) as [[[resp|err]|msg] w2]; try reflexivity.
  destruct (decode_ActivityList _) as [result|err]; [|reflexivity].
  cbv zeta. destruct (String.eqb _ "ok"); [|reflexivity].
  change (negb true) with false. cbv iota beta. now destruct (List.find _ _).
Qed.

Lemma listShares_unfold d w :
  listShares d w
  = match fetch d shares_endpoint w with
    | (Returned (Err err), w') => (Returned (Err err), w')
    | (Panicked msg, w') => (Panicked msg, w')
    | (Returned (Ok resp), w') =>
        match decode_ShareList (http.RespBody resp) with
        | Err err => (Returned (Err (listShares_decode_error err)), w')
        | Ok result =>
            let ocs := ocsListResponse.Ocs result in
            if String.eqb (ocsMeta.Status (ocsListResponse.Meta ocs)) "ok"
            then (Returned (Ok None),
                  mkWorld (server w') (sent w')
                    (streamed w'
                     ++ map ShareItem (ocsListResponse.Data ocs)))
            else (Returned (Err (listShares_ocs_error
                                   (ocsListResponse.Meta ocs))), w')
        end
    end.
Proof.
  unfold listShares, fetch, bind.
  destruct (GetClient _ w) as [[[client|err]|msg] w1]; try reflexivity.
  destruct (MakeRequest _ _ _ _ w1) as [[[resp|err]|msg] w2]; try reflexivity.
  destruct (decode_ShareList _) as [result|err]; [|reflexivity].
  cbv zeta. destruct (String.eqb _ "ok"); [|reflexivity].
  change (negb true) with false. cbv iota beta. unfold bind.
  now rewrite (for_range_stream_all _ ShareItem).
Qed.

Lemma getShare_unfold d w qual :
  plugin.EqualsQuals d !! "id" = Some qual ->
  let id := plugin.GetInt64Value qual in
  getShare d w
  = match fetch d (share_endpoint id) w with
    | (Returned (Err err), w') => (Returned (Err err), w')
    | (Panicked msg, w') => (Panicked msg, w')
    | (Returned (Ok resp), w') =>
        match decode_ShareList (http.RespBody resp) with
        | Err err => (Returned (Err (getShare_decode_error err)), w')
        | Ok result =>
            let ocs := ocsListResponse.Ocs result in
            if String.eqb (ocsMeta.Status (ocsListResponse.Meta ocs)) "ok"
            then
              match ocsListResponse.Data ocs with
              | share :: _ => (Returned (Ok (Some (ShareItem share))), w')
              | [] => (Returned (Err (getShare_not_found id)), w')
              end
            else (Returned (Err (getShare_not_found id)), w')
        end
    end.
Proof.
  intros Hq id. unfold getShare, fetch, bind. rewrite Hq. fold id.
  destruct (GetClient _ w) as [[[client|err]|msg] w1]; try reflexivity.
  destruct (MakeRequest _ _ _ _ w1) as [[[resp|err]|msg] w2]; try reflexivity.
  destruct (decode_ShareList _) as [result|err]; [|reflexivity].
  cbv zeta. destruct (String.eqb _ "ok"); [|reflexivity].
  now destruct (ocsListResponse.Data _).
Qed.

Lemma has_no_request_error_prefix (s : string) (t : error) :
  has_request_error_prefix s = false -> request_error t -> s <> Error t.
Proof.
  intros Hs Ht ->. apply request_error_text in Ht. congruence.
Qed.

End Handler_facts.

Section Handler_properties.
Context `{Runtime}.

Lemma listActivity_ocs_error_logical (meta : ocsMeta.t) :
  logical_API_error (listActivity_ocs_error meta) meta.
Proof.
  split; [apply Contains_middle|]. split.
  - exists ("erreur OCS API : " +:+ ocsMeta.Message meta +:+ " (code : "), ")".
    simpl. now rewrite !append_assoc.
  - intros t Ht. now apply has_no_request_error_prefix.
Qed.

Lemma getActivity_ocs_error_logical (meta : ocsMeta.t) :
  logical_API_error (getActivity_ocs_error meta) meta.
Proof.
  split; [apply Contains_middle|]. split.
  - exists ("OCS API error: " +:+ ocsMeta.Message meta +:+ " (code: "), ")".
    simpl. now rewrite !append_assoc.
  - intros t Ht. now apply has_no_request_error_prefix.
Qed.

Lemma listShares_ocs_error_logical (meta : ocsMeta.t) :
  logical_API_error (listShares_ocs_error meta) meta.
Proof.
  split; [apply Contains_middle|]. split.
  - exists ("OCS API error: " +:+ ocsMeta.Message meta +:+ " (code "), ")".
    simpl. now rewrite !append_assoc.
  - intros t Ht. now apply has_no_request_error_prefix.
Qed.

(** C1, as amended.  When the envelope decodes and its status is not
    "ok": the activity list, the activity get and the shares list return
    an error whose text holds the envelope's message and status code and
    is the text of no request error; the share get returns its not-found
    error, which names the requested identifier and is the text of no
    request error either. *)
Theorem ocs_status_not_ok d w resp w' :
  (forall result,
      fetch d activity_endpoint w = (Returned (Ok resp), w') ->
      decode_ActivityList (http.RespBody resp) = Ok result ->
      let meta := ocsListResponse.Meta (ocsListResponse.Ocs result) in
      ocsMeta.Status meta <> "ok" ->
      listActivity d w = (Returned (Err (listActivity_ocs_error meta)), w')
      /\ logical_API_error (listActivity_ocs_error meta) meta)
  /\ (forall result qual idInt,
         plugin.EqualsQuals d !! "id" = Some qual ->
         strconv.ParseInt (plugin.GetStringValue qual) = inr idInt ->
         fetch d activity_endpoint w = (Returned (Ok resp), w') ->
         decode_ActivityList (http.RespBody resp) = Ok result ->
         let meta := ocsListResponse.Meta (ocsListResponse.Ocs result) in
         ocsMeta.Status meta <> "ok" ->
         getActivity d w = (Returned (Err (getActivity_ocs_error meta)), w')
         /\ logical_API_error (getActivity_ocs_error meta) meta)
  /\ (forall result,
         fetch d shares_endpoint w = (Returned (Ok resp), w') ->
         decode_ShareList (http.RespBody resp) = Ok result ->
         let meta := ocsListResponse.Meta (ocsListResponse.Ocs result) in
         ocsMeta.Status meta <> "ok" ->
         listShares d w = (Returned (Err (listShares_ocs_error meta)), w')
         /\ logical_API_error (listShares_ocs_error meta) meta)
  /\ (forall result qual,
         plugin.EqualsQuals d !! "id" = Some qual ->
         let id := plugin.GetInt64Value qual in
         fetch d (share_endpoint id) w = (Returned (Ok resp), w') ->
         decode_ShareList (http.RespBody resp) = Ok result ->
         ocsMeta.Status (ocsListResponse.Meta (ocsListResponse.Ocs result))
         <> "ok" ->
         getShare d w = (Returned (Err (getShare_not_found id)), w')
         /\ strings.Contains (Error (getShare_not_found id)) (strconv.Itoa id)
         /\ forall t, request_error t ->
                      Error (getShare_not_found id) <> Error t).
Proof.
  split; [|split; [|split]].
  - intros result Hf Hd meta Hs. split; [|apply listActivity_ocs_error_logical].
    rewrite listActivity_unfold, Hf, Hd. cbv zeta. fold meta.
    now apply String.eqb_neq in Hs as ->.
  - intros result qual idInt Hq Hp Hf Hd meta Hs.
    split; [|apply getActivity_ocs_error_logical].
    rewrite (getActivity_unfold _ _ _ _ Hq Hp), Hf, Hd. cbv zeta. fold meta.
    now apply String.eqb_neq in Hs as ->.
  - intros result Hf Hd meta Hs. split; [|apply listShares_ocs_error_logical].
    rewrite listShares_unfold, Hf, Hd. cbv zeta. fold meta.
    now apply String.eqb_neq in Hs as ->.
  - intros result qual Hq id Hf Hd Hs. split; [|split].
    + rewrite (getShare_unfold _ _ _ Hq). fold id. rewrite Hf, Hd. cbv zeta.
      now apply String.eqb_neq in Hs as ->.
    + apply Contains_middle.
    + intros t Ht. now apply has_no_request_error_prefix.
Qed.

(** C3.  When the envelope decodes with status "ok", the activity list
    streams, after the rows streamed before and in the order of the data
    array: with a qualifier on user_id, exactly the records whose user
    is the value of the qualifier; without one, every record. *)
Theorem listActivity_streams d w resp w' result :
  fetch d activity_endpoint w = (Returned (Ok resp), w') ->
  decode_ActivityList (http.RespBody resp) = Ok result ->
  ocsMeta.Status (ocsListResponse.Meta (ocsListResponse.Ocs result)) = "ok" ->
  let data := ocsListResponse.Data (ocsListResponse.Ocs result) in
  let rows :=
    match plugin.EqualsQuals d !! "user_id" with
    | Some qual =>
        List.filter
          (fun activity =>
             String.eqb (Activity.User activity) (plugin.GetStringValue qual))
          data
    | None => data
    end in
  listActivity d w
  = (Returned (Ok None),
     mkWorld (server w') (sent w') (streamed w ++ map ActivityItem rows)).
Proof.
  intros Hf Hd Hs data rows. exact (listActivity_Ok _ _ _ _ _ Hf Hd Hs).
Qed.

Lemma find_none_ne (data : list Activity.t) (idInt : Z) :
  (forall a, In a data -> Activity.ActivityID a <> idInt) ->
  List.find (fun activity => Activity.ActivityID activity =? idInt) data
  = None.
Proof.
  induction data as [|a data IH]; intros Hne; simpl; [reflexivity|].
  destruct (Z.eqb_spec (Activity.ActivityID a) idInt) as [E|_].
  - exfalso. apply (Hne a); [now left | assumption].
  - apply IH. intros a' Ha'. apply Hne. now right.
Qed.

(** C4, as amended.  When the envelope decodes with status "ok": the
    activity get, when no record of the data array has the requested
    identifier (an empty array included), returns the not-found error,
    whose text holds the identifier and is the text of no request error,
    of no decoding error and of no logical-API error of that handler;
    the share get returns the not-found error, with the same
    distinctions, when the data array is empty, and otherwise returns
    the first record of the array, whatever its identifier. *)
Theorem get_by_id_not_found d w resp w' :
  (forall result qual idInt,
      plugin.EqualsQuals d !! "id" = Some qual ->
      strconv.ParseInt (plugin.GetStringValue qual) = inr idInt ->
      fetch d activity_endpoint w = (Returned (Ok resp), w') ->
      decode_ActivityList (http.RespBody resp) = Ok result ->
      ocsMeta.Status (ocsListResponse.Meta (ocsListResponse.Ocs result))
      = "ok" ->
      (forall a, In a (ocsListResponse.Data (ocsListResponse.Ocs result)) ->
                 Activity.ActivityID a <> idInt) ->
      let e := getActivity_not_found (plugin.GetStringValue qual) in
      getActivity d w = (Returned (Err e), w')
      /\ strings.Contains (Error e) (plugin.GetStringValue qual)
      /\ (forall t, request_error t -> Error e <> Error t)
      /\ (forall err, Error e <> Error (getActivity_decode_error err))
      /\ (forall meta, Error e <> Error (getActivity_ocs_error meta)))
  /\ (forall result qual,
         plugin.EqualsQuals d !! "id" = Some qual ->
         let id := plugin.GetInt64Value qual in
         fetch d (share_endpoint id) w = (Returned (Ok resp), w') ->
         decode_ShareList (http.RespBody resp) = Ok result ->
         ocsMeta.Status (ocsListResponse.Meta (ocsListResponse.Ocs result))
         = "ok" ->
         match ocsListResponse.Data (ocsListResponse.Ocs result) with
         | [] =>
             let e := getShare_not_found id in
             getShare d w = (Returned (Err e), w')
             /\ strings.Contains (Error e) (strconv.Itoa id)
             /\ (forall t, request_error t -> Error e <> Error t)
             /\ (forall err, Error e <> Error (getShare_decode_error err))
         | share :: _ =>
             getShare d w = (Returned (Ok (Some (ShareItem share))), w')
         end).
Proof.
  split.
  - intros result qual idInt Hq Hp Hf Hd Hs Hne e.
    split; [|split; [|split; [|split]]].
    + rewrite (getActivity_unfold _ _ _ _ Hq Hp), Hf, Hd. cbv zeta.
      rewrite Hs. simpl String.eqb. cbv iota.
      now rewrite (find_none_ne _ _ Hne).
    + apply Contains_middle.
    + intros t Ht. now apply has_no_request_error_prefix.
    + intros err E. simpl in E. discriminate E.
    + intros meta E. simpl in E. discriminate E.
  - intros result qual Hq id Hf Hd Hs.
    rewrite (getShare_unfold _ _ _ Hq). fold id. rewrite Hf, Hd. cbv zeta.
    rewrite Hs. simpl String.eqb. cbv iota.
    destruct (ocsListResponse.Data (ocsListResponse.Ocs result))
      as [|share rest]; [|reflexivity].
    cbv beta iota zeta. split; [reflexivity|]. split; [apply Contains_middle|]. split.
    + intros t Ht. now apply has_no_request_error_prefix.
    + intros err E. simpl in E. discriminate E.
Qed.

Lemma append_cancel_r (s1 s2 t : string) : s1 +:+ t = s2 +:+ t -> s1 = s2.
Proof.
  intros E.
  assert (Hlen : String.length s1 = String.length s2).
  { apply (f_equal String.length) in E. rewrite !length_append in E. lia. }
  revert s2 E Hlen.
  induction s1 as [|c s1 IH]; intros [|c' s2] E Hlen; try discriminate;
    [reflexivity|].
  simpl in E. injection E as -> E. f_equal. apply IH; [assumption|].
  simpl in Hlen. lia.
Qed.

Lemma Itoa_inj (m n : Z) :
  int64_range m -> int64_range n -> strconv.Itoa m = strconv.Itoa n -> m = n.
Proof.
  intros Hm Hn E.
  pose proof (strconv_facts.ParseInt_FormatInt m Hm) as Pm.
  pose proof (strconv_facts.ParseInt_FormatInt n Hn) as Pn.
  unfold strconv.Itoa in E. rewrite E in Pm. congruence.
Qed.

(** C9.  An identifier [n] in the range of [int64] is read back exactly.
    Its decimal text parses to [n], as a qualifier and as the number of
    a record.  The activity get, given the text of [n], compares the
    records with [n]: it returns the first record whose identifier is
    [n], or the not-found error.  The share get, given [n] as an
    integer, requests the share whose endpoint is that of [n] alone. *)
Theorem identifier_exact (n : Z) :
  int64_range n ->
  strconv.ParseInt (strconv.Itoa n) = inr n
  /\ (forall path v, decode_int path (JNumber (strconv.Itoa n)) v = Ok (n, None))
  /\ (forall d w resp w' result,
         plugin.EqualsQuals d !! "id"
         = Some (plugin.StringValue (strconv.Itoa n)) ->
         fetch d activity_endpoint w = (Returned (Ok resp), w') ->
         decode_ActivityList (http.RespBody resp) = Ok result ->
         ocsMeta.Status (ocsListResponse.Meta (ocsListResponse.Ocs result))
         = "ok" ->
         getActivity d w
         = (Returned
              match List.find
                      (fun activity => Activity.ActivityID activity =? n)
                      (ocsListResponse.Data (ocsListResponse.Ocs result))
              with
              | Some activity => Ok (Some (ActivityItem activity))
              | None => Err (getActivity_not_found (strconv.Itoa n))
              end, w'))
  /\ (forall d w resp w' result share rest,
         plugin.EqualsQuals d !! "id" = Some (plugin.Int64Value n) ->
         fetch d (share_endpoint n) w = (Returned (Ok resp), w') ->
         decode_ShareList (http.RespBody resp) = Ok result ->
         ocsMeta.Status (ocsListResponse.Meta (ocsListResponse.Ocs result))
         = "ok" ->
         ocsListResponse.Data (ocsListResponse.Ocs result) = share :: rest ->
         getShare d w = (Returned (Ok (Some (ShareItem share))), w'))
  /\ (forall m, int64_range m -> share_endpoint m = share_endpoint n -> m = n).
Proof.
  intros Hn.
  pose proof (strconv_facts.ParseInt_FormatInt n Hn) as HP.
  split; [exact HP|]. split; [|split; [|split]].
  - intros path v. unfold decode_int. unfold strconv.Itoa. now rewrite HP.
  - intros d w resp w' result Hq Hf Hd Hs.
    rewrite (getActivity_unfold _ _ _ n Hq HP), Hf, Hd. cbv zeta.
    rewrite Hs. simpl String.eqb. cbv iota. simpl plugin.GetStringValue.
    now destruct (List.find _ _).
  - intros d w resp w' result share rest Hq Hf Hd Hs Hdata.
    rewrite (getShare_unfold _ _ _ Hq). simpl plugin.GetInt64Value.
    cbv zeta. rewrite Hf, Hd, Hs, Hdata. reflexivity.
  - intros m Hm E. unfold share_endpoint in E.
    apply String.app_inj in E. apply append_cancel_r in E.
    now apply Itoa_inj.
Qed.

End Handler_properties.

(** ** GetConfig *)

(** [GetConfig] returns a configuration, the empty one in the degenerate
    cases, unless the connection holds a nil [*NextcloudConfig]. *)
Lemma GetConfig_returns (conn : option plugin.Connection) :
  (forall c, conn = Some c ->
             plugin.Config c <> plugin.ptr_NextcloudConfig None) ->
  exists cfg, GetConfig conn = Some cfg
    /\ (conn = None -> cfg = NextcloudConfig.zero)
    /\ (forall c, conn = Some c -> plugin.Config c = plugin.nil_interface ->
                  cfg = NextcloudConfig.zero)
    /\ (forall c T, conn = Some c -> plugin.Config c = plugin.other_type T ->
                    cfg = NextcloudConfig.zero).
Proof.
  intros Hnil. destruct conn as [[config]|]; simpl.
  - destruct config as [|[cfg|]|cfg|T];
      try (eexists; split; [reflexivity|]; repeat split; intros;
           simplify_eq/=; reflexivity).
    now destruct (Hnil _ eq_refl).
  - eexists; split; [reflexivity|]. repeat split; intros; congruence.
Qed.

(** C10.  [GetConfig] is not total on every connection.  The revision
    that asserts the type panics when the connection holds the
    configuration by value, or a value of another type; the revision that
    switches on the type returns a nil pointer when the connection holds a
    nil [*NextcloudConfig], and the constructor then panics on it. *)
Theorem GetConfig_not_total :
  (forall cfg,
      exists msg,
        Legacy.GetConfig
          (Some {| plugin.Config := plugin.val_NextcloudConfig cfg |})
        = Panicked msg)
  /\ (forall T,
         exists msg,
           Legacy.GetConfig (Some {| plugin.Config := plugin.other_type T |})
           = Panicked msg)
  /\ GetConfig (Some {| plugin.Config := plugin.ptr_NextcloudConfig None |})
     = None
  /\ (forall (R : Runtime) (w : World),
         NewNextcloudClient
           (Some {| plugin.Config := plugin.ptr_NextcloudConfig None |}) w
         = (Panicked nil_dereference, w)).
Proof.
  repeat split; intros; simpl; eauto.
Qed.

(** ** Decoding the synthetic envelope *)

Section Roundtrip.
Context `{Runtime}.


Lemma decode_int_Itoa (path : string) (n v : Z) :
  int64_range n -> decode_int path (JNumber (strconv.Itoa n)) v = Ok (n, None).
Proof.
  intros Hn. unfold decode_int, strconv.Itoa.
  now rewrite strconv_facts.ParseInt_FormatInt.
Qed.






End Roundtrip.

(** * Further properties of the client and the handlers *)

(** ** What a call changes in the world *)

Section World_facts.
Context `{Runtime}.

(** [MakeRequest] executes no request or one, the one it built, and
    streams nothing. *)
Lemma MakeRequest_world c method endpoint body w o w' :
  MakeRequest c method endpoint body w = (o, w') ->
  streamed w' = streamed w
  /\ ((sent w' = sent w /\ server w' = server w /\ exists e, o = Returned (Err e))
      \/ exists u,
           url_Parse (NextcloudClient.BaseURL c +:+ endpoint) = Ok u
           /\ http_NewRequest_check method u = None
           /\ sent w' = sent w ++ [request_of c method u body]).
Proof.
  rewrite MakeRequest_unfold.
  destruct (url_Parse _) as [u|err] eqn:Hu;
    [|intros [= <- <-]; split; [reflexivity|left; eauto]].
  destruct (http_NewRequest_check method u) as [err|] eqn:Hc;
    [intros [= <- <-]; split; [reflexivity|left; eauto]|].
  cbv zeta. destruct (http_Client_Do _ _ _) as [[resp|err] s].
  - destruct (400 <=? http.StatusCode resp); intros [= <- <-];
      (split; [reflexivity|right; exists u; auto]).
  - intros [= <- <-]. split; [reflexivity|right; exists u; auto].
Qed.

Lemma TestConnection_world c w o w' :
  TestConnection c w = (o, w') ->
  streamed w' = streamed w
  /\ (exists probe, o = Returned probe)
  /\ ((sent w' = sent w /\ server w' = server w /\ exists e, o = Returned (Some e))
      \/ exists u,
           url_Parse (NextcloudClient.BaseURL c +:+ capabilities_endpoint) = Ok u
           /\ sent w' = sent w ++ [request_of c "GET" u None]).
Proof.
  rewrite TestConnection_unfold.
  destruct (MakeRequest c "GET" capabilities_endpoint None w)
    as [o1 w1] eqn:HM.
  destruct (MakeRequest_world _ _ _ _ _ _ _ HM) as (Hs & Hsent).
  destruct (MakeRequest_returns c "GET" capabilities_endpoint None w)
    as (r & w2 & HM' & _).
  rewrite HM in HM'. injection HM' as -> ->.
  destruct r as [resp|err].
  - destruct (Decode _ _ _); intros [= <- <-];
      (split; [assumption|]; split; [eauto|]);
      (destruct Hsent as [(_ & _ & e0 & He)|(u & Hu & _ & Hsent)];
       [discriminate He | right; eauto]).
  - intros [= <- <-]. split; [assumption|]. split; [eauto|].
    destruct Hsent as [(? & ? & _)|(u & Hu & _ & Hsent)]; [left|right]; eauto.
Qed.

(** The constructor executes no request or one, the probe, and streams
    nothing. *)
Lemma NewNextcloudClient_world conn w o w' :
  NewNextcloudClient conn w = (o, w') ->
  streamed w' = streamed w
  /\ ((sent w' = sent w /\ server w' = server w
       /\ forall c, o <> Returned (Ok c))
      \/ exists c u,
           url_Parse (NextcloudClient.BaseURL c +:+ capabilities_endpoint) = Ok u
           /\ sent w' = sent w ++ [request_of c "GET" u None]
           /\ forall c', o = Returned (Ok c') -> c' = c).
Proof.
  unfold NewNextcloudClient.
  destruct (GetConfig conn) as [cfg|];
    [|intros [= <- <-]; split; [reflexivity|left; repeat split; discriminate]].
  destruct (configured _) as [url|];
    [|intros [= <- <-]; split; [reflexivity|left; repeat split; discriminate]].
  destruct (configured _) as [username|];
    [|intros [= <- <-]; split; [reflexivity|left; repeat split; discriminate]].
  destruct (configured _) as [password|];
    [|intros [= <- <-]; split; [reflexivity|left; repeat split; discriminate]].
  unfold bind. set (client := if negb _ then _ else _).
  destruct (TestConnection client w) as [o1 w1] eqn:HT.
  destruct (TestConnection_world _ _ _ _ HT) as (Hs & (probe & ->) & Hsent).
  destruct probe as [err|]; intros [= <- <-]; (split; [assumption|]).
  - destruct Hsent as [(? & ? & _)|(u & Hu & Hsent)].
    + left. repeat split; try assumption. discriminate.
    + right. exists client, u. repeat split; try assumption. discriminate.
  - destruct Hsent as [(_ & _ & e & He)|(u & Hu & Hsent)]; [discriminate He|].
    right. exists client, u. repeat split; try assumption. now intros c' [= <-].
Qed.

End World_facts.

(** ** The request that [MakeRequest] executes *)

Section Request_properties.
Context `{Runtime}.

Lemma request_of_header c method u body :
  http.ReqHeader (request_of c method u body)
  = <["Authorization" :=
        ["Basic " +:+ base64_EncodeToString
                        (NextcloudClient.Username c +:+ ":"
                         +:+ NextcloudClient.Password c)]]>
      (<["User-Agent" := ["Steampipe-Nextcloud-Plugin/1.0"]]>
         (<["Content-Type" := ["application/json"]]>
            (<["Accept" := ["application/json"]]>
               (<["Ocs-Apirequest" := ["true"]]> ∅)))).
Proof. reflexivity. Qed.

(** X1.  When the URL parses and the request can be created,
    [MakeRequest] executes exactly one request and streams nothing.  The
    request has the method, the parsed URL and the body of the call; its
    header holds five keys and no other: the OCS marker under its
    canonical key with the value "true", Accept and Content-Type with
    "application/json", the fixed User-Agent, and Authorization with
    "Basic " followed by the base64 text of "username:password". *)
Theorem MakeRequest_request c method endpoint body w u :
  url_Parse (NextcloudClient.BaseURL c +:+ endpoint) = Ok u ->
  http_NewRequest_check method u = None ->
  exists r s req,
    MakeRequest c method endpoint body w
    = (Returned r, mkWorld s (sent w ++ [req]) (streamed w))
    /\ http.Method req = method
    /\ http.URL req = u
    /\ http.ReqBody req = body
    /\ http.ReqHeader req !! "Ocs-Apirequest" = Some ["true"]
    /\ http.ReqHeader req !! "Accept" = Some ["application/json"]
    /\ http.ReqHeader req !! "Content-Type" = Some ["application/json"]
    /\ http.ReqHeader req !! "User-Agent"
       = Some ["Steampipe-Nextcloud-Plugin/1.0"]
    /\ http.ReqHeader req !! "Authorization"
       = Some ["Basic " +:+ base64_EncodeToString
                              (NextcloudClient.Username c +:+ ":"
                               +:+ NextcloudClient.Password c)]
    /\ (forall key, key ∉ request_header_keys ->
                    http.ReqHeader req !! key = None).
Proof.
  intros Hu Hc. rewrite MakeRequest_unfold, Hu, Hc. cbv zeta.
  destruct (http_Client_Do _ _ _) as [r0 s] eqn:HD.
  exists (match r0 with
          | Err err => Err (Errorf_w "request failed: " err)
          | Ok resp =>
              if 400 <=? http.StatusCode resp
              then Err (errorString
                          ("Nextcloud API error "
                           +:+ strconv.Itoa (http.StatusCode resp) +:+ ": "
                           +:+ http.bytes (http.RespBody resp)))
              else Ok resp
          end), s, (request_of c method u body).
  split.
  { destruct r0 as [resp|err]; [|reflexivity].
    now destruct (400 <=? http.StatusCode resp). }
  rewrite request_of_header.
  repeat (split; [reflexivity|]).
  repeat (split; [now simplify_map_eq|]).
  intros key Hkey. unfold request_header_keys in Hkey.
  repeat (apply lookup_insert_None; split;
          [|intros <-; apply Hkey; set_solver]).
  apply lookup_empty.
Qed.

(** X2.  [MakeRequest] fails without executing a request when the URL
    does not parse or the request cannot be created: the world is
    unchanged and the error wraps the cause under "invalid URL: " or
    "failed to create request: ".  When the request is executed and the
    transport fails, the request is recorded and the error wraps the cause
    under "request failed: ". *)
Theorem MakeRequest_failures c method endpoint body w :
  (forall cause,
      url_Parse (NextcloudClient.BaseURL c +:+ endpoint) = Err cause ->
      exists e,
        MakeRequest c method endpoint body w = (Returned (Err e), w)
        /\ Error e = "invalid URL: " +:+ Error cause
        /\ Unwrap e = Some cause)
  /\ (forall u cause,
         url_Parse (NextcloudClient.BaseURL c +:+ endpoint) = Ok u ->
         http_NewRequest_check method u = Some cause ->
         exists e,
           MakeRequest c method endpoint body w = (Returned (Err e), w)
           /\ Error e = "failed to create request: " +:+ Error cause
           /\ Unwrap e = Some cause)
  /\ (forall u cause s,
         url_Parse (NextcloudClient.BaseURL c +:+ endpoint) = Ok u ->
         http_NewRequest_check method u = None ->
         http_Client_Do (NextcloudClient.HTTPClient c)
           (request_of c method u body) (server w) = (Err cause, s) ->
         exists e,
           MakeRequest c method endpoint body w
           = (Returned (Err e),
              mkWorld s (sent w ++ [request_of c method u body]) (streamed w))
           /\ Error e = "request failed: " +:+ Error cause
           /\ Unwrap e = Some cause).
Proof.
  split; [|split].
  - intros cause Hu. rewrite MakeRequest_unfold, Hu. eexists. eauto.
  - intros u cause Hu Hc. rewrite MakeRequest_unfold, Hu, Hc. eexists. eauto.
  - intros u cause s Hu Hc HD. rewrite MakeRequest_unfold, Hu, Hc. cbv zeta.
    rewrite HD. eexists. eauto.
Qed.

End Request_properties.

(** ** The errors of the constructor *)

Section Constructor_properties.
Context `{Runtime}.

(** X3.  Every error that the constructor returns is of one of two
    kinds.  Either it says that one of the three settings must be
    configured, and then no request was executed; or its text is
    "unable to connect to Nextcloud: connection test failed: " followed by
    the text of a cause, which two unwrappings reach, and the cause is an
    error of [MakeRequest] on the capabilities endpoint or the error of
    decoding the body of its response. *)
Theorem NewNextcloudClient_errors conn w e w' :
  NewNextcloudClient conn w = (Returned (Err e), w') ->
  (w' = w
   /\ exists name,
        In name ["server_url"; "username"; "password"]
        /\ e = errorString (name +:+ " must be configured"))
  \/ exists c cause middle,
       Error e
       = "unable to connect to Nextcloud: connection test failed: "
         +:+ Error cause
       /\ Unwrap e = Some middle
       /\ Unwrap middle = Some cause
       /\ ((exists w0,
               MakeRequest c "GET" capabilities_endpoint None w
               = (Returned (Err cause), w0))
           \/ exists resp,
                MakeRequest c "GET" capabilities_endpoint None w
                = (Returned (Ok resp), w')
                /\ Decode decode_map (http.RespBody resp) ∅ = Err cause).
Proof.
  unfold NewNextcloudClient.
  destruct (GetConfig conn) as [cfg|]; [|discriminate].
  destruct (configured _) as [url|];
    [|intros [= <- <-]; left; split; [reflexivity|];
      exists "server_url"; simpl; auto].
  destruct (configured _) as [username|];
    [|intros [= <- <-]; left; split; [reflexivity|];
      exists "username"; simpl; auto].
  destruct (configured _) as [password|];
    [|intros [= <- <-]; left; split; [reflexivity|];
      exists "password"; simpl; auto].
  unfold bind. set (client := if negb _ then _ else _).
  rewrite TestConnection_unfold.
  destruct (MakeRequest client "GET" capabilities_endpoint None w)
    as [[[resp|cause]|msg] w1] eqn:HM; try discriminate.
  - destruct (Decode _ _ _) as [caps|cause] eqn:HD; [discriminate|].
    intros [= <- <-]. right.
    exists client, cause, (Errorf_w "connection test failed: " cause).
    split; [|split; [reflexivity|split; [reflexivity|right; exists resp; auto]]].
    unfold Errorf_w. simpl. reflexivity.
  - intros [= <- <-]. right.
    exists client, cause, (Errorf_w "connection test failed: " cause).
    split; [|split; [reflexivity|split; [reflexivity|left; eauto]]].
    unfold Errorf_w. simpl. reflexivity.
Qed.

(** X4.  The body of the capabilities answer must read as a JSON object
    or as null.  After a response of [MakeRequest], the probe succeeds
    exactly when the body reads as null, or as an object in which no
    number is outside [float64]; a body that reads as an array, a
    string, a number or a boolean fails the probe. *)
Theorem TestConnection_body c w resp w1 :
  MakeRequest c "GET" capabilities_endpoint None w = (Returned (Ok resp), w1) ->
  TestConnection c w = (Returned None, w1)
  <-> exists j,
        json_readValue (http.RespBody resp) = Ok j
        /\ (j = JNull
            \/ exists members, j = JObject members /\ first_unfit j = None).
Proof.
  intros HM. rewrite TestConnection_unfold, HM. unfold Decode.
  destruct (json_readValue _) as [j|err].
  - split.
    + intros HT. exists j. split; [reflexivity|].
      destruct j as [| | | | |members]; try (simpl in HT; discriminate HT).
      * now left.
      * right. exists members. split; [reflexivity|].
        unfold decode_map, number_error in HT.
        now destruct (first_unfit (JObject members)).
    + intros (j' & [= <-] & [->|(members & -> & Hfit)]); [reflexivity|].
      unfold decode_map, number_error. now rewrite Hfit.
  - split; [discriminate|]. intros (j & Hj & _). discriminate Hj.
Qed.

(** X5.  On a nil connection, on a connection without configuration and
    on a connection whose configuration has another type, the constructor
    fails with "server_url must be configured" and executes no request,
    and so do the four handlers once their identifier is accepted. *)
Theorem degenerate_connection d w :
  degenerate (plugin.Connection_ d) ->
  let e := errorString "server_url must be configured" in
  NewNextcloudClient (plugin.Connection_ d) w = (Returned (Err e), w)
  /\ listActivity d w = (Returned (Err e), w)
  /\ listShares d w = (Returned (Err e), w)
  /\ (forall qual idInt,
         plugin.EqualsQuals d !! "id" = Some qual ->
         strconv.ParseInt (plugin.GetStringValue qual) = inr idInt ->
         getActivity d w = (Returned (Err e), w))
  /\ (forall qual,
         plugin.EqualsQuals d !! "id" = Some qual ->
         getShare d w = (Returned (Err e), w)).
Proof.
  intros Hdeg e.
  assert (HN : NewNextcloudClient (plugin.Connection_ d) w
               = (Returned (Err e), w)).
  { unfold NewNextcloudClient.
    destruct Hdeg as [->|(c & -> & [Hc|(T & Hc)])]; simpl; try rewrite Hc;
      reflexivity. }
  assert (Hf : forall endpoint, fetch d endpoint w = (Returned (Err e), w)).
  { intros endpoint. unfold fetch, bind, GetClient. now rewrite HN. }
  split; [exact HN|]. split; [|split; [|split]].
  - now rewrite listActivity_unfold, Hf.
  - now rewrite listShares_unfold, Hf.
  - intros qual idInt Hq Hp. now rewrite (getActivity_unfold _ _ _ _ Hq Hp), Hf.
  - intros qual Hq. rewrite (getShare_unfold _ _ _ Hq). cbv zeta.
    now rewrite Hf.
Qed.

End Constructor_properties.

(** X6.  Where the earlier [GetConfig] returns, the later one returns
    the same configuration: the type switch only adds results where the
    type assertion panicked. *)
Theorem GetConfig_extends_Legacy conn r :
  Legacy.GetConfig conn = Returned r -> GetConfig conn = r.
Proof.
  destruct conn as [[config]|]; simpl; [|now intros [= <-]].
  destruct config; simpl; intros E; try discriminate E; now injection E.
Qed.

(** ** What the handlers do to the world *)

Section Handler_world.
Context `{Runtime}.

(** The requests that [fetch] executes: none, the probe, or the probe
    followed by the request for the endpoint. *)
Lemma fetch_world d endpoint w o w' :
  fetch d endpoint w = (o, w') ->
  streamed w' = streamed w
  /\ exists reqs,
       sent w' = sent w ++ reqs
       /\ (length reqs <= 2)%nat
       /\ Forall GET_without_body reqs
       /\ (forall resp, o = Returned (Ok resp) -> length reqs = 2%nat)
       /\ (reqs = [] -> server w' = server w).
Proof.
  unfold fetch, bind, GetClient.
  destruct (NewNextcloudClient (plugin.Connection_ d) w) as [o1 w1] eqn:HN.
  destruct (NewNextcloudClient_world _ _ _ _ HN) as (Hs1 & Hsent1).
  destruct o1 as [[client|err]|msg].
  - intros HM. destruct (MakeRequest_world _ _ _ _ _ _ _ HM) as (Hs2 & Hsent2).
    split; [congruence|].
    destruct Hsent1 as [(_ & _ & Hno)|(c & u & Hu & Hsent1 & _)];
      [now destruct (Hno client)|].
    destruct Hsent2 as [(Hsent2 & _ & e & ->)|(u2 & Hu2 & _ & Hsent2)].
    + exists [request_of c "GET" u None]. rewrite Hsent2, Hsent1.
      repeat split; simpl; try lia; try discriminate.
      repeat constructor.
    + exists [request_of c "GET" u None; request_of client "GET" u2 None].
      rewrite Hsent2, Hsent1, <- app_assoc.
      repeat split; simpl; try lia; try discriminate.
      repeat constructor.
  - intros [= <- <-]. split; [assumption|].
    destruct Hsent1 as [(Hsent1 & Hsrv & _)|(c & u & Hu & Hsent1 & _)].
    + exists []. rewrite app_nil_r. repeat split; simpl; try lia; auto.
      discriminate.
    + exists [request_of c "GET" u None].
      repeat split; simpl; try lia; try discriminate; auto.
      repeat constructor.
  - intros [= <- <-]. split; [assumption|].
    destruct Hsent1 as [(Hsent1 & Hsrv & _)|(c & u & Hu & Hsent1 & _)].
    + exists []. rewrite app_nil_r. repeat split; simpl; try lia; auto.
      discriminate.
    + exists [request_of c "GET" u None].
      repeat split; simpl; try lia; try discriminate; auto.
      repeat constructor.
Qed.

(** Each handler leaves the service and the requests as its [fetch] left
    them, or returns before it. *)
Lemma listActivity_after_fetch d w o w' :
  listActivity d w = (o, w') ->
  exists o1 w1,
    fetch d activity_endpoint w = (o1, w1)
    /\ sent w' = sent w1 /\ server w' = server w1
    /\ ((o = Returned (Ok None)
         /\ exists rows, streamed w' = streamed w1 ++ map ActivityItem rows)
        \/ ((forall r, o <> Returned (Ok r)) /\ streamed w' = streamed w1)).
Proof.
  rewrite listActivity_unfold.
  destruct (fetch d activity_endpoint w) as [[[resp|err]|msg] w1];
    [|intros [= <- <-]; eexists _, _; repeat split; right; split;
      [discriminate|reflexivity] ..].
  destruct (decode_ActivityList _) as [result|err];
    [|intros [= <- <-]; eexists _, _; repeat split; right; split;
      [discriminate|reflexivity]].
  cbv zeta. destruct (String.eqb _ "ok"); intros [= <- <-];
    eexists _, _; repeat split.
  - left. split; [reflexivity|]. simpl. eauto.
  - right. split; [discriminate|reflexivity].
Qed.

Lemma listShares_after_fetch d w o w' :
  listShares d w = (o, w') ->
  exists o1 w1,
    fetch d shares_endpoint w = (o1, w1)
    /\ sent w' = sent w1 /\ server w' = server w1
    /\ ((o = Returned (Ok None)
         /\ exists rows, streamed w' = streamed w1 ++ map ShareItem rows)
        \/ ((forall r, o <> Returned (Ok r)) /\ streamed w' = streamed w1)).
Proof.
  rewrite listShares_unfold.
  destruct (fetch d shares_endpoint w) as [[[resp|err]|msg] w1];
    [|intros [= <- <-]; eexists _, _; repeat split; right; split;
      [discriminate|reflexivity] ..].
  destruct (decode_ShareList _) as [result|err];
    [|intros [= <- <-]; eexists _, _; repeat split; right; split;
      [discriminate|reflexivity]].
  cbv zeta. destruct (String.eqb _ "ok"); intros [= <- <-];
    eexists _, _; repeat split.
  - left. split; [reflexivity|]. simpl. eauto.
  - right. split; [discriminate|reflexivity].
Qed.

Lemma getActivity_after_fetch d w o w' :
  getActivity d w = (o, w') ->
  (w' = w /\ exists e, o = Returned (Err e))
  \/ exists o1, fetch d activity_endpoint w = (o1, w').
Proof.
  destruct (plugin.EqualsQuals d !! "id") as [qual|] eqn:Hq;
    [|unfold getActivity; rewrite Hq; intros [= <- <-]; left; eauto].
  destruct (strconv.ParseInt (plugin.GetStringValue qual)) as [e|idInt] eqn:Hp;
    [unfold getActivity; rewrite Hq, Hp; intros [= <- <-]; left; eauto|].
  rewrite (getActivity_unfold _ _ _ _ Hq Hp).
  destruct (fetch d activity_endpoint w) as [[[resp|err]|msg] w1];
    [|intros [= <- <-]; right; eauto ..].
  destruct (decode_ActivityList _) as [result|err];
    [|intros [= <- <-]; right; eauto].
  cbv zeta. destruct (String.eqb _ "ok"); [|intros [= <- <-]; right; eauto].
  destruct (List.find _ _); intros [= <- <-]; right; eauto.
Qed.

Lemma getShare_after_fetch d w o w' :
  getShare d w = (o, w') ->
  (w' = w /\ exists e, o = Returned (Err e))
  \/ exists qual o1,
       plugin.EqualsQuals d !! "id" = Some qual
       /\ fetch d (share_endpoint (plugin.GetInt64Value qual)) w = (o1, w').
Proof.
  destruct (plugin.EqualsQuals d !! "id") as [qual|] eqn:Hq;
    [|unfold getShare; rewrite Hq; intros [= <- <-]; left; eauto].
  rewrite (getShare_unfold _ _ _ Hq). cbv zeta.
  destruct (fetch d _ w) as [[[resp|err]|msg] w1] eqn:Hf;
    [|intros [= <- <-]; right; eauto ..].
  destruct (decode_ShareList _) as [result|err];
    [|intros [= <- <-]; right; eauto].
  destruct (String.eqb _ "ok"); [|intros [= <- <-]; right; eauto].
  destruct (ocsListResponse.Data _); intros [= <- <-]; right; eauto.
Qed.

End Handler_world.

(** ** The identifier texts *)

Lemma parseUint_loop_sound (s : string) (n v : Z) :
  0 <= n <= strconv.maxUint64 ->
  strconv.parseUint_loop s n = inr v ->
  all_digits s = true /\ v = val s n /\ 0 <= v <= strconv.maxUint64.
Proof.
  revert n. induction s as [|c s IH]; intros n Hn Hp.
  - simpl in Hp. injection Hp as <-. repeat split; lia.
  - simpl in Hp. cbn [all_digits val].
    destruct (strconv.is_digit c) eqn:Hc; [|discriminate].
    pose proof (strconv_facts.is_digit_bounds c Hc) as Hd.
    set (d := Z.of_nat (nat_of_ascii c) - 48) in *.
    unfold strconv.maxUint64 in *.
    change ((2 ^ 64 - 1) / 10 + 1) with 1844674407370955162 in Hp.
    change (2 ^ 64) with 18446744073709551616 in *.
    destruct (Z.leb_spec 1844674407370955162 n) as [Hc1|Hc1]; [discriminate|].
    rewrite (Z.mod_small (n * 10)) in Hp by lia.
    destruct (Z_lt_le_dec (n * 10 + d) 18446744073709551616) as [Hfit|Hwrap].
    + rewrite (Z.mod_small (n * 10 + d)) in Hp by lia.
      destruct ((n * 10 + d <? n * 10)
                || (18446744073709551616 - 1 <? n * 10 + d)); [discriminate|].
      apply IH in Hp as (Hs & Hv & Hr); [|lia]. now rewrite Hs.
    + assert (Hm : (n * 10 + d) mod 18446744073709551616
                   = n * 10 + d - 18446744073709551616)
        by (symmetry; apply (Z.mod_unique _ _ 1); lia).
      rewrite Hm in Hp.
      destruct (Z.ltb_spec (n * 10 + d - 18446744073709551616) (n * 10));
        [discriminate | lia].
Qed.

Lemma ParseUint_sound (s : string) (v : Z) :
  strconv.ParseUint s = inr v ->
  s <> "" /\ all_digits s = true /\ v = val s 0
  /\ 0 <= v <= strconv.maxUint64.
Proof.
  destruct s as [|c s]; [discriminate|]. unfold strconv.ParseUint.
  intros Hp. apply parseUint_loop_sound in Hp;
    [|unfold strconv.maxUint64; change (2 ^ 64) with 18446744073709551616; lia].
  split; [discriminate | assumption].
Qed.

Lemma ParseUint_digits (s : string) :
  s <> "" -> all_digits s = true -> val s 0 <= strconv.maxUint64 ->
  strconv.ParseUint s = inr (val s 0).
Proof.
  intros Hne Hs Hv. destruct s as [|c s]; [contradiction|].
  unfold strconv.ParseUint.
  now apply strconv_facts.parseUint_loop_val.
Qed.

(** [strconv.ParseInt] returns [n] on the decimal texts of the 64-bit
    integer [n], and on no other text. *)
Lemma ParseInt_decimal_text (s : string) (n : Z) :
  strconv.ParseInt s = inr n <-> decimal_text s n /\ int64_range n.
Proof.
  unfold int64_range. change (2 ^ 63) with 9223372036854775808. split.
  - destruct s as [|c s]; [discriminate|]. unfold strconv.ParseInt.
    change (2 ^ 63) with 9223372036854775808.
    destruct (Ascii.eqb c "+") eqn:Ep;
      [|destruct (Ascii.eqb c "-") eqn:Em].
    + apply Ascii.eqb_eq in Ep. subst c.
      destruct (strconv.ParseUint s) as [e|un] eqn:HU; [discriminate|].
      apply ParseUint_sound in HU as (Hne & Hs & -> & Hr).
      cbn [negb andb].
      destruct (Z.leb_spec 9223372036854775808 (val s 0)); [discriminate|].
      intros [= <-]. split; [|lia].
      exists "+", s. repeat split; auto.
    + apply Ascii.eqb_eq in Em. subst c.
      destruct (strconv.ParseUint s) as [e|un] eqn:HU; [discriminate|].
      apply ParseUint_sound in HU as (Hne & Hs & -> & Hr).
      cbn [negb andb].
      destruct (Z.ltb_spec 9223372036854775808 (val s 0)); [discriminate|].
      intros [= <-]. split; [|lia].
      exists "-", s. repeat split; auto.
    + destruct (strconv.ParseUint (String c s)) as [e|un] eqn:HU;
        [discriminate|].
      apply ParseUint_sound in HU as (Hne & Hs & -> & Hr).
      cbn [negb andb]. set (v := val (String c s) 0) in *.
      destruct (Z.leb_spec 9223372036854775808 v); [discriminate|].
      intros [= <-]. split; [|lia].
      exists "", (String c s). repeat split; auto.
  - intros [Hdec Hr].
    destruct Hdec as (sign & digits & -> & Hsign & Hne & Hd & ->).
    destruct Hsign as [-> | [-> | ->]].
    + change ("" +:+ digits) with digits. simpl String.eqb in *.
      destruct digits as [|c s]; [contradiction|].
      destruct (strconv_facts.digits_head c s Hd) as [Ep Em].
      unfold strconv.ParseInt. rewrite Ep, Em.
      rewrite ParseUint_digits;
        [|discriminate | assumption
         |unfold strconv.maxUint64; change (2 ^ 64) with 18446744073709551616;
          lia].
      change (2 ^ 63) with 9223372036854775808. cbn [negb andb].
      destruct (Z.leb_spec 9223372036854775808 (val (String c s) 0));
        [lia | reflexivity].
    + change ("+" +:+ digits) with (String "+" digits). simpl String.eqb in *.
      unfold strconv.ParseInt. change (Ascii.eqb "+" "+") with true.
      cbv iota beta.
      rewrite ParseUint_digits;
        [|assumption | assumption
         |unfold strconv.maxUint64; change (2 ^ 64) with 18446744073709551616;
          lia].
      change (2 ^ 63) with 9223372036854775808. cbn [negb andb].
      destruct (Z.leb_spec 9223372036854775808 (val digits 0));
        [lia | reflexivity].
    + change ("-" +:+ digits) with (String "-" digits). simpl String.eqb in *.
      unfold strconv.ParseInt. change (Ascii.eqb "-" "+") with false.
      change (Ascii.eqb "-" "-") with true. cbv iota beta.
      assert (0 <= val digits 0)
        by (apply (strconv_facts.val_ge digits 0); [assumption | lia]).
      rewrite ParseUint_digits;
        [|assumption | assumption
         |unfold strconv.maxUint64; change (2 ^ 64) with 18446744073709551616;
          lia].
      change (2 ^ 63) with 9223372036854775808. cbn [negb andb].
      destruct (Z.ltb_spec 9223372036854775808 (val digits 0));
        [lia | reflexivity].
Qed.

Lemma ParseInt_rejects (s : string) :
  (forall n, decimal_text s n -> ~ int64_range n) ->
  exists e, strconv.ParseInt s = inl e.
Proof.
  intros Hno. destruct (strconv.ParseInt s) as [e|n] eqn:Hp; [now exists e|].
  apply ParseInt_decimal_text in Hp as [Hd Hr]. now destruct (Hno n).
Qed.

Lemma ParseInt_rejected (s : string) (e : strconv.NumError) :
  strconv.ParseInt s = inl e ->
  forall n, decimal_text s n -> ~ int64_range n.
Proof.
  intros Hp n Hd Hr.
  assert (strconv.ParseInt s = inr n) by (apply ParseInt_decimal_text; now split).
  congruence.
Qed.

Section Handler_extras.
Context `{Runtime}.

(** X7.  The list handlers stream all or nothing: either the handler
    returns [(nil, nil)] and the rows streamed before are followed by
    rows of its table, or it returns no result and the streamed rows are
    unchanged.  The get handlers never stream. *)
Theorem streaming_all_or_nothing d w o w' :
  (listActivity d w = (o, w') ->
   (o = Returned (Ok None)
    /\ exists rows, streamed w' = streamed w ++ map ActivityItem rows)
   \/ ((forall r, o <> Returned (Ok r)) /\ streamed w' = streamed w))
  /\ (listShares d w = (o, w') ->
      (o = Returned (Ok None)
       /\ exists rows, streamed w' = streamed w ++ map ShareItem rows)
      \/ ((forall r, o <> Returned (Ok r)) /\ streamed w' = streamed w))
  /\ (getActivity d w = (o, w') -> streamed w' = streamed w)
  /\ (getShare d w = (o, w') -> streamed w' = streamed w).
Proof.
  split; [|split; [|split]].
  - intros Hh.
    apply listActivity_after_fetch in Hh as (o1 & w1 & Hf & _ & _ & Hh).
    apply fetch_world in Hf as (Hs & _). now rewrite <- Hs.
  - intros Hh.
    apply listShares_after_fetch in Hh as (o1 & w1 & Hf & _ & _ & Hh).
    apply fetch_world in Hf as (Hs & _). now rewrite <- Hs.
  - intros Hh. apply getActivity_after_fetch in Hh as [(-> & _)|(o1 & Hf)];
      [reflexivity|]. now apply fetch_world in Hf as (Hs & _).
  - intros Hh.
    apply getShare_after_fetch in Hh as [(-> & _)|(qual & o1 & _ & Hf)];
      [reflexivity|]. now apply fetch_world in Hf as (Hs & _).
Qed.

(** X8.  A call of a handler executes at most two requests, each a GET
    without body, and repeats none: the requests executed before are
    kept, and those of the call follow them. *)
Theorem handlers_requests d w o w' :
  listActivity d w = (o, w') \/ getActivity d w = (o, w')
  \/ listShares d w = (o, w') \/ getShare d w = (o, w') ->
  exists reqs,
    sent w' = sent w ++ reqs
    /\ (length reqs <= 2)%nat
    /\ Forall GET_without_body reqs
    /\ (reqs = [] -> server w' = server w).
Proof.
  assert (Hnone : forall w0 : World,
             exists reqs : list http.Request,
               sent w0 = sent w0 ++ reqs /\ (length reqs <= 2)%nat
               /\ Forall GET_without_body reqs
               /\ (reqs = [] -> server w0 = server w0)).
  { intros w0. exists []. rewrite app_nil_r. repeat split; simpl; auto. }
  intros [Hh|[Hh|[Hh|Hh]]].
  - apply listActivity_after_fetch in Hh as (o1 & w1 & Hf & -> & -> & _).
    apply fetch_world in Hf as (_ & reqs & ? & ? & ? & _ & ?). eauto.
  - apply getActivity_after_fetch in Hh as [(-> & _)|(o1 & Hf)];
      [apply Hnone|].
    apply fetch_world in Hf as (_ & reqs & ? & ? & ? & _ & ?). eauto.
  - apply listShares_after_fetch in Hh as (o1 & w1 & Hf & -> & -> & _).
    apply fetch_world in Hf as (_ & reqs & ? & ? & ? & _ & ?). eauto.
  - apply getShare_after_fetch in Hh as [(-> & _)|(qual & o1 & _ & Hf)];
      [apply Hnone|].
    apply fetch_world in Hf as (_ & reqs & ? & ? & ? & _ & ?). eauto.
Qed.

(** X9.  The activity get refuses an identifier before any request: with
    no qualifier on id it returns "id qualifier not provided"; with a
    qualifier whose text is not the decimal text of a 64-bit integer (an
    optional sign and at least one digit) it returns
    "invalid ID format: " followed by the text; a qualifier that is not a
    string reads as the empty text and is refused in the same way.  The
    world is unchanged in the three cases. *)
Theorem getActivity_refuses d w :
  (plugin.EqualsQuals d !! "id" = None ->
   getActivity d w = (Returned (Err id_qualifier_not_provided), w))
  /\ (forall qual,
         plugin.EqualsQuals d !! "id" = Some qual ->
         (forall n, decimal_text (plugin.GetStringValue qual) n ->
                    ~ int64_range n) ->
         getActivity d w
         = (Returned
              (Err (errorString
                      ("invalid ID format: " +:+ plugin.GetStringValue qual))),
            w))
  /\ (forall qual,
         plugin.EqualsQuals d !! "id" = Some qual ->
         (forall s, qual <> plugin.StringValue s) ->
         getActivity d w
         = (Returned (Err (errorString "invalid ID format: ")), w)).
Proof.
  split; [|split].
  - intros Hq. unfold getActivity. now rewrite Hq.
  - intros qual Hq Hno. apply ParseInt_rejects in Hno as [e Hp].
    unfold getActivity. now rewrite Hq, Hp.
  - intros qual Hq Hns. unfold getActivity. rewrite Hq.
    destruct qual; try reflexivity. now destruct (Hns s).
Qed.

(** X10.  The texts "7", "+7" and "007" name the same activity: when the
    text of the qualifier is a decimal text of the 64-bit integer [n],
    the activity get does what it does for the text that [n] prints as,
    except that its not-found error quotes the text as it was given. *)
Theorem getActivity_decimal_texts d w qual n o w' :
  plugin.EqualsQuals d !! "id" = Some qual ->
  decimal_text (plugin.GetStringValue qual) n ->
  int64_range n ->
  getActivity d w = (o, w') ->
  let d' := with_qual "id" (plugin.StringValue (strconv.Itoa n)) d in
  getActivity d' w = (o, w')
  \/ (o = Returned (Err (getActivity_not_found (plugin.GetStringValue qual)))
      /\ getActivity d' w
         = (Returned (Err (getActivity_not_found (strconv.Itoa n))), w')).
Proof.
  intros Hq Hd Hr Hg d'.
  assert (Hp : strconv.ParseInt (plugin.GetStringValue qual) = inr n)
    by (apply ParseInt_decimal_text; now split).
  assert (Hq' : plugin.EqualsQuals d' !! "id"
                = Some (plugin.StringValue (strconv.Itoa n)))
    by (unfold d', with_qual; simpl; apply lookup_insert_eq).
  assert (Hp' : strconv.ParseInt
                  (plugin.GetStringValue
                     (plugin.StringValue (strconv.Itoa n))) = inr n)
    by (apply strconv_facts.ParseInt_FormatInt; assumption).
  rewrite (getActivity_unfold _ _ _ _ Hq Hp) in Hg.
  rewrite (getActivity_unfold _ _ _ _ Hq' Hp').
  change (fetch d' activity_endpoint w) with (fetch d activity_endpoint w).
  destruct (fetch d activity_endpoint w) as [[[resp|err]|msg] w1];
    [|left; assumption ..].
  destruct (decode_ActivityList _) as [result|err]; [|left; assumption].
  cbv zeta in *. destruct (String.eqb _ "ok"); [|left; assumption].
  destruct (List.find _ _); [left; assumption|].
  right. injection Hg as <- <-. split; reflexivity.
Qed.

(** X11.  The share get returns "id qualifier not provided", with the
    world unchanged, when there is no qualifier on id; and a qualifier
    that is not an integer reads as 0, so that the call is the one for
    the share 0. *)
Theorem getShare_qualifier d w :
  (plugin.EqualsQuals d !! "id" = None ->
   getShare d w = (Returned (Err id_qualifier_not_provided), w))
  /\ (forall qual,
         plugin.EqualsQuals d !! "id" = Some qual ->
         (forall i, qual <> plugin.Int64Value i) ->
         getShare d w = getShare (with_qual "id" (plugin.Int64Value 0) d) w).
Proof.
  split.
  - intros Hq. unfold getShare. now rewrite Hq.
  - intros qual Hq Hni.
    assert (Hq0 : plugin.EqualsQuals (with_qual "id" (plugin.Int64Value 0) d)
                  !! "id" = Some (plugin.Int64Value 0))
      by (unfold with_qual; simpl; apply lookup_insert_eq).
    unfold getShare. rewrite Hq, Hq0.
    replace (plugin.GetInt64Value qual) with 0; [reflexivity|].
    destruct qual; try reflexivity. now destruct (Hni i).
Qed.

Lemma listShares_Ok d w resp w' result :
  fetch d shares_endpoint w = (Returned (Ok resp), w') ->
  decode_ShareList (http.RespBody resp) = Ok result ->
  ocsMeta.Status (ocsListResponse.Meta (ocsListResponse.Ocs result)) = "ok" ->
  listShares d w
  = (Returned (Ok None),
     mkWorld (server w') (sent w')
       (streamed w
        ++ map ShareItem (ocsListResponse.Data (ocsListResponse.Ocs result)))).
Proof.
  intros Hf Hd Hs. rewrite listShares_unfold, Hf, Hd. cbv zeta.
  rewrite Hs. simpl String.eqb. cbv iota.
  apply fetch_Ok in Hf as (_ & _ & _ & _ & ->). reflexivity.
Qed.

(** X12.  When the envelope decodes with status "ok", the shares list
    returns [(nil, nil)] and streams, after the rows streamed before,
    every share of the data array in the order of the array; the
    requests it executed stay recorded. *)
Theorem listShares_streams d w resp w' result :
  fetch d shares_endpoint w = (Returned (Ok resp), w') ->
  decode_ShareList (http.RespBody resp) = Ok result ->
  ocsMeta.Status (ocsListResponse.Meta (ocsListResponse.Ocs result)) = "ok" ->
  exists w'',
    listShares d w = (Returned (Ok None), w'')
    /\ streamed w''
       = streamed w
         ++ map ShareItem (ocsListResponse.Data (ocsListResponse.Ocs result))
    /\ sent w'' = sent w' /\ server w'' = server w'.
Proof.
  intros Hf Hd Hs. rewrite (listShares_Ok _ _ _ _ _ Hf Hd Hs).
  eexists. split; [reflexivity|]. repeat split.
Qed.

Lemma find_first {A} (f : A -> bool) (l : list A) :
  match List.find f l with
  | Some a =>
      exists before after,
        l = before ++ a :: after /\ f a = true
        /\ Forall (fun b => f b = false) before
  | None => Forall (fun b => f b = false) l
  end.
Proof.
  induction l as [|x l IH]; simpl; [constructor|].
  destruct (f x) eqn:Hx.
  - exists [], l. repeat split; [assumption|constructor].
  - destruct (List.find f l) as [a|].
    + destruct IH as (before & after & -> & Ha & Hb).
      exists (x :: before), after. repeat split; [assumption|].
      now constructor.
    + now constructor.
Qed.

(** X13.  When the envelope decodes with status "ok" and the identifier
    is accepted, the activity get returns a record of the data array that
    has the requested identifier, the first one in the order of the
    array, when there is one, and the not-found error otherwise; it
    returns nothing else. *)
Theorem getActivity_first_match d w resp w' result qual idInt :
  plugin.EqualsQuals d !! "id" = Some qual ->
  strconv.ParseInt (plugin.GetStringValue qual) = inr idInt ->
  fetch d activity_endpoint w = (Returned (Ok resp), w') ->
  decode_ActivityList (http.RespBody resp) = Ok result ->
  ocsMeta.Status (ocsListResponse.Meta (ocsListResponse.Ocs result)) = "ok" ->
  let data := ocsListResponse.Data (ocsListResponse.Ocs result) in
  (exists before activity after,
      data = before ++ activity :: after
      /\ Activity.ActivityID activity = idInt
      /\ Forall (fun a => Activity.ActivityID a <> idInt) before
      /\ getActivity d w = (Returned (Ok (Some (ActivityItem activity))), w'))
  \/ (Forall (fun a => Activity.ActivityID a <> idInt) data
      /\ getActivity d w
         = (Returned
              (Err (getActivity_not_found (plugin.GetStringValue qual))), w')).
Proof.
  intros Hq Hp Hf Hd Hs data.
  rewrite (getActivity_unfold _ _ _ _ Hq Hp), Hf, Hd. cbv zeta.
  rewrite Hs. simpl String.eqb. cbv iota. fold data.
  pose proof (find_first (fun a => Activity.ActivityID a =? idInt) data) as Hfind.
  destruct (List.find _ data) as [activity|].
  - left. destruct Hfind as (before & after & Hdata & Ha & Hb).
    exists before, activity, after. repeat split; try assumption.
    + now apply Z.eqb_eq.
    + eapply Forall_impl; [exact Hb|]. intros a Hne. now apply Z.eqb_neq.
  - right. split; [|reflexivity].
    eapply Forall_impl; [exact Hfind|]. intros a Hne. now apply Z.eqb_neq.
Qed.

End Handler_extras.

(** ** Bodies that are not an envelope, and the envelope of shares *)

Section Envelope_extras.
Context `{Runtime}.

Lemma object_members_skipped {T} (fields : list (field T)) (path : string)
    (members : list (string * json)) (v : T) (saved : option error) :
  Forall (fun m => find_field fields (fst m) = None) members ->
  object_members fields path members v saved = Ok (v, saved).
Proof.
  induction 1 as [|[key j] members Hkey _ IH]; [reflexivity|].
  simpl in *. now rewrite Hkey.
Qed.

Lemma find_field_ocs {E} (elem : string -> json -> E -> decoding E)
    (zero : E) (key : string) :
  foldName key <> "OCS" ->
  find_field (ocsListResponse.fields elem zero) key = None.
Proof.
  intros Hkey. unfold find_field, ocsListResponse.fields.
  cbn [List.find name].
  destruct (String.eqb_spec "ocs" key) as [<-|_];
    [now destruct Hkey|].
  change (foldName "ocs") with "OCS".
  destruct (String.eqb_spec "OCS" (foldName key)) as [E0|_];
    [now destruct Hkey | reflexivity].
Qed.

Lemma unmarshal_without_ocs {E} (elem : string -> json -> E -> decoding E)
    (zero : E) (j : json) :
  without_ocs j ->
  ocsListResponse.unmarshal elem zero "" j ocsListResponse.zero
  = Ok (ocsListResponse.zero, None).
Proof.
  intros [->|(members & -> & Hkeys)]; [reflexivity|].
  unfold ocsListResponse.unmarshal, decode_struct.
  apply object_members_skipped.
  eapply Forall_impl; [exact Hkeys|]. intros m. apply find_field_ocs.
Qed.

(** X14.  A body that is valid JSON but holds no envelope (the text
    [null], or an object without a member that matches "ocs") is not a
    decoding error: it decodes to the empty envelope, whose status is not
    "ok".  The activity handlers and the shares list then return their
    OCS error with an empty message and the code 0, and the share get its
    not-found error. *)
Theorem body_without_ocs d w resp w' j :
  json_readValue (http.RespBody resp) = Ok j ->
  without_ocs j ->
  (fetch d activity_endpoint w = (Returned (Ok resp), w') ->
   listActivity d w
   = (Returned (Err (errorString "erreur OCS API :  (code : 0)")), w')
   /\ forall qual idInt,
       plugin.EqualsQuals d !! "id" = Some qual ->
       strconv.ParseInt (plugin.GetStringValue qual) = inr idInt ->
       getActivity d w
       = (Returned (Err (errorString "OCS API error:  (code: 0)")), w'))
  /\ (fetch d shares_endpoint w = (Returned (Ok resp), w') ->
      listShares d w
      = (Returned (Err (errorString "OCS API error:  (code 0)")), w'))
  /\ (forall qual,
         plugin.EqualsQuals d !! "id" = Some qual ->
         fetch d (share_endpoint (plugin.GetInt64Value qual)) w
         = (Returned (Ok resp), w') ->
         getShare d w
         = (Returned (Err (getShare_not_found (plugin.GetInt64Value qual))),
            w')).
Proof.
  intros Hread Hj.
  assert (HA : decode_ActivityList (http.RespBody resp)
               = Ok ocsListResponse.zero)
    by (unfold decode_ActivityList, Decode;
        now rewrite Hread, unmarshal_without_ocs).
  assert (HS : decode_ShareList (http.RespBody resp)
               = Ok ocsListResponse.zero)
    by (unfold decode_ShareList, Decode;
        now rewrite Hread, unmarshal_without_ocs).
  split; [|split].
  - intros Hf. split.
    + rewrite listActivity_unfold, Hf, HA. reflexivity.
    + intros qual idInt Hq Hp.
      rewrite (getActivity_unfold _ _ _ _ Hq Hp), Hf, HA. reflexivity.
  - intros Hf. rewrite listShares_unfold, Hf, HS. reflexivity.
  - intros qual Hq Hf.
    rewrite (getShare_unfold _ _ _ Hq). cbv zeta. rewrite Hf, HS.
    reflexivity.
Qed.

Lemma decode_string_ptr_marshal (path : string) (p v : option string) :
  decode_string_ptr path (marshal_string_ptr p) v = Ok (p, None).
Proof. now destruct p. Qed.

Lemma unmarshal_marshal_Share (path : string) (s : ocsShare.t) :
  share_in_range s ->
  ocsShare.unmarshal path (marshal_Share s) ocsShare.zero = Ok (s, None).
Proof.
  intros (Ht & Hp & Hc & Hm). destruct s. simpl in *.
  unfold ocsShare.unmarshal, marshal_Share, decode_struct.
  cbn [object_members ocsShare.ID ocsShare.ShareType ocsShare.ShareWith
       ocsShare.ShareWithDisplayName ocsShare.Path ocsShare.Permissions
       ocsShare.Password ocsShare.PublicUpload ocsShare.ExpireDate
       ocsShare.URL ocsShare.UIDOwner ocsShare.Owner ocsShare.TimeCreated
       ocsShare.TimeModified].
  unfold into at 1. rewrite decode_int_Itoa by assumption.
  unfold into at 1. rewrite decode_int_Itoa by assumption.
  unfold into at 1. rewrite decode_string_ptr_marshal.
  unfold into at 1. rewrite decode_string_ptr_marshal.
  unfold into at 1. rewrite decode_int_Itoa by assumption.
  unfold into at 1. rewrite decode_int_Itoa by assumption.
  reflexivity.
Qed.

Lemma array_marshal_Share (path : string) (shares : list ocsShare.t)
    (saved : option error) :
  Forall share_in_range shares ->
  array_elems ocsShare.unmarshal ocsShare.zero path
    (map marshal_Share shares) saved
  = Ok (shares, saved).
Proof.
  induction 1 as [|s shares Hs _ IH]; [reflexivity|].
  cbn [map array_elems]. rewrite unmarshal_marshal_Share by assumption.
  replace (first_error saved None) with saved by now destruct saved.
  now rewrite IH.
Qed.

Lemma decode_shares_envelope (body : http.Body) (shares : list ocsShare.t) :
  Forall share_in_range shares ->
  json_readValue body = Ok (shares_envelope shares) ->
  decode_ShareList body
  = Ok (ocsListResponse.mk
          (ocsListResponse.mkOcs (ocsMeta.mk "ok" 200 "OK") shares)).
Proof.
  intros Hs Hread.
  unfold decode_ShareList, Decode. rewrite Hread.
  unfold shares_envelope, ocsListResponse.unmarshal, decode_struct.
  repeat (progress (unfold into, decode_struct, ocsMeta.unmarshal, decode_slice;
        cbn -[ocsShare.unmarshal marshal_Share strconv.ParseInt array_elems])).
  replace (strconv.ParseInt "200") with (@inr strconv.NumError Z 200)
    by (vm_compute; reflexivity).
  now rewrite array_marshal_Share.
Qed.

(** X15.  Shares written member by member under the tags of [ocsShare]
    (a nil pointer as [null]) and wrapped in an envelope with status "ok"
    come back as they were: the shares list streams exactly these
    shares, in order, provided their four integers are 64-bit integers;
    and the share get returns the first of them. *)
Theorem shares_roundtrip d w resp w' shares :
  Forall share_in_range shares ->
  json_readValue (http.RespBody resp) = Ok (shares_envelope shares) ->
  (fetch d shares_endpoint w = (Returned (Ok resp), w') ->
   exists w'',
     listShares d w = (Returned (Ok None), w'')
     /\ streamed w'' = streamed w ++ map ShareItem shares)
  /\ (forall qual share rest,
         plugin.EqualsQuals d !! "id" = Some qual ->
         fetch d (share_endpoint (plugin.GetInt64Value qual)) w
         = (Returned (Ok resp), w') ->
         shares = share :: rest ->
         getShare d w = (Returned (Ok (Some (ShareItem share))), w')).
Proof.
  intros Hs Hread.
  pose proof (decode_shares_envelope _ _ Hs Hread) as Hd.
  split.
  - intros Hf. rewrite (listShares_Ok _ _ _ _ _ Hf Hd eq_refl).
    eexists. split; reflexivity.
  - intros qual share rest Hq Hf ->.
    rewrite (getShare_unfold _ _ _ Hq). cbv zeta. now rewrite Hf, Hd.
Qed.

End Envelope_extras.

(** ** The requests of a successful call *)

Section Success_requests.
Context `{Runtime}.

Lemma fetch_requests d endpoint w resp w' :
  fetch d endpoint w = (Returned (Ok resp), w') ->
  probe_then_GET d endpoint w w'.
Proof.
  intros Hf. apply fetch_Ok in Hf as (client & w1 & HG & HM & _).
  unfold GetClient in HG.
  apply NewNextcloudClient_Ok in HG
    as (cfg & url & username & password & Hcfg & Hurl & Hu & Hp & -> & HT).
  apply TestConnection_verified in HT as (u1 & _ & _ & Hu1 & Hs1 & _).
  apply MakeRequest_Ok in HM as (u2 & Hu2 & Hs2 & _).
  exists cfg, url, username, password, u1, u2.
  repeat split; try assumption.
  now rewrite Hs2, Hs1, <- app_assoc.
Qed.

(** X16.  A call of a handler that returns without error has executed
    exactly two requests, and caches nothing: first the probe of the
    capabilities endpoint, then the GET of the endpoint of the handler,
    both at the configured URL (with a separator appended when it has
    none) and with the configured credentials. *)
Theorem successful_call_requests d w r w' :
  (listActivity d w = (Returned (Ok r), w') ->
   probe_then_GET d activity_endpoint w w')
  /\ (getActivity d w = (Returned (Ok r), w') ->
      probe_then_GET d activity_endpoint w w')
  /\ (listShares d w = (Returned (Ok r), w') ->
      probe_then_GET d shares_endpoint w w')
  /\ (getShare d w = (Returned (Ok r), w') ->
      exists qual,
        plugin.EqualsQuals d !! "id" = Some qual
        /\ probe_then_GET d (share_endpoint (plugin.GetInt64Value qual))
             w w').
Proof.
  split; [|split; [|split]].
  - rewrite listActivity_unfold.
    destruct (fetch d activity_endpoint w) as [[[resp|err]|msg] w1] eqn:Hf;
      try discriminate.
    apply fetch_requests in Hf.
    destruct (decode_ActivityList _) as [result|err]; [|discriminate].
    cbv zeta. destruct (String.eqb _ "ok"); [|discriminate].
    intros [= _ <-]. exact Hf.
  - destruct (plugin.EqualsQuals d !! "id") as [qual|] eqn:Hq;
      [|unfold getActivity; rewrite Hq; discriminate].
    destruct (strconv.ParseInt (plugin.GetStringValue qual))
      as [e|idInt] eqn:Hp;
      [unfold getActivity; rewrite Hq, Hp; discriminate|].
    rewrite (getActivity_unfold _ _ _ _ Hq Hp).
    destruct (fetch d activity_endpoint w) as [[[resp|err]|msg] w1] eqn:Hf;
      try discriminate.
    apply fetch_requests in Hf.
    destruct (decode_ActivityList _) as [result|err]; [|discriminate].
    cbv zeta. destruct (String.eqb _ "ok"); [|discriminate].
    destruct (List.find _ _); [|discriminate].
    intros [= _ <-]. exact Hf.
  - rewrite listShares_unfold.
    destruct (fetch d shares_endpoint w) as [[[resp|err]|msg] w1] eqn:Hf;
      try discriminate.
    apply fetch_requests in Hf.
    destruct (decode_ShareList _) as [result|err]; [|discriminate].
    cbv zeta. destruct (String.eqb _ "ok"); [|discriminate].
    intros [= _ <-]. exact Hf.
  - destruct (plugin.EqualsQuals d !! "id") as [qual|] eqn:Hq;
      [|unfold getShare; rewrite Hq; discriminate].
    rewrite (getShare_unfold _ _ _ Hq). cbv zeta.
    destruct (fetch d _ w) as [[[resp|err]|msg] w1] eqn:Hf;
      try discriminate.
    apply fetch_requests in Hf.
    destruct (decode_ShareList _) as [result|err]; [|discriminate].
    destruct (String.eqb _ "ok"); [|discriminate].
    destruct (ocsListResponse.Data _); [discriminate|].
    intros [= _ <-]. now exists qual.
Qed.

End Success_requests.

(** ** Runs of the replayed service *)

Section Replay_runs.
#[local] Existing Instance Replay.standard.

(** X2 on three runs: a server URL that starts with a colon, a method
    with a space, and a service that does not answer. *)
Lemma MakeRequest_failures_witness :
  (exists e,
      MakeRequest (Replay.client ":") "GET" activity_endpoint None
        (Replay.world [])
      = (Returned (Err e), Replay.world [])
      /\ Error e = "invalid URL: missing protocol scheme")
  /\ (exists e,
         MakeRequest (Replay.client "https://cloud.example.com") "GET IT"
           activity_endpoint None (Replay.world [])
         = (Returned (Err e), Replay.world [])
         /\ Error e = "failed to create request: net/http: invalid method")
  /\ (exists e w',
         MakeRequest (Replay.client "https://cloud.example.com") "GET"
           activity_endpoint None (Replay.world [])
         = (Returned (Err e), w')
         /\ length (sent w') = 1%nat
         /\ Error e = "request failed: EOF").
Proof.
  split; [|split].
  - destruct (proj1 (MakeRequest_failures (Replay.client ":") "GET"
                       activity_endpoint None (Replay.world []))
                (errorString "missing protocol scheme") eq_refl)
      as (e & HM & He & _).
    exists e. split; [exact HM | exact He].
  - destruct (proj1 (proj2 (MakeRequest_failures
                              (Replay.client "https://cloud.example.com")
                              "GET IT" activity_endpoint None
                              (Replay.world [])))
                ("https://cloud.example.com/" +:+ activity_endpoint)
                (errorString "net/http: invalid method") eq_refl eq_refl)
      as (e & HM & He & _).
    exists e. split; [exact HM | exact He].
  - destruct (proj2 (proj2 (MakeRequest_failures
                              (Replay.client "https://cloud.example.com")
                              "GET" activity_endpoint None
                              (Replay.world [])))
                ("https://cloud.example.com/" +:+ activity_endpoint)
                (errorString "EOF") [] eq_refl eq_refl eq_refl)
      as (e & HM & He & _).
    eexists e, _. split; [exact HM|]. split; [reflexivity | exact He].
Defined.

(** X15 on a run: the document "two shares" is the envelope of
    [Replay.link] and [Replay.plain]. *)
Lemma shares_roundtrip_witness :
  let d := Replay.query "https://cloud.example.com" [] in
  let w :=
    Replay.world [Replay.answer 200 "{}"; Replay.answer 200 "two shares"] in
  Forall share_in_range [Replay.link; Replay.plain]
  /\ fst (listShares d w) = Returned (Ok None)
  /\ streamed (snd (listShares d w))
     = [ShareItem Replay.link; ShareItem Replay.plain].
Proof.
  intros d w.
  assert (Hr : Forall share_in_range [Replay.link; Replay.plain])
    by (repeat constructor; vm_compute; intros ?; discriminate).
  split; [exact Hr|].
  destruct (fetch d shares_endpoint w) as [[[resp|?]|?] w'] eqn:Hf;
    [|vm_compute in Hf; discriminate Hf ..].
  assert (Hread : json_readValue (http.RespBody resp)
                  = Ok (shares_envelope [Replay.link; Replay.plain])).
  { vm_compute in Hf. injection Hf as <- <-. reflexivity. }
  destruct (proj1 (shares_roundtrip d w resp w' _ Hr Hread) Hf)
    as (w'' & HL & Hst).
  rewrite HL. simpl. rewrite Hst. split; reflexivity.
Defined.

End Replay_runs.

(** ** The properties on concrete runs *)

#[local] Existing Instance Scripted.runtime.

(** C5 on a run: a 404 with an HTML body. *)
Lemma MakeRequest_http_status_witness :
  MakeRequest (client_of Scripted.cloud "alice" "secret") "GET" activity_endpoint None
    (Scripted.world [Scripted.answer 404 "<html>Not Found</html>"])
  = (Returned
       (Err (errorString "Nextcloud API error 404: <html>Not Found</html>")),
     mkWorld []
       [request_of (client_of Scripted.cloud "alice" "secret") "GET"
          (Scripted.cloud +:+ "/" +:+ activity_endpoint) None] []).
Proof.
  refine (proj1 (proj1 (MakeRequest_http_status
                          (client_of Scripted.cloud "alice" "secret") "GET"
                          activity_endpoint None
                          (Scripted.world
                             [Scripted.answer 404 "<html>Not Found</html>"]))
                   (Scripted.cloud +:+ "/" +:+ activity_endpoint)
                   {| http.StatusCode := 404;
                      http.RespBody :=
                        {| http.bytes := "<html>Not Found</html>";
                           http.readErr := None |} |}
                   [] eq_refl eq_refl eq_refl _)).
  simpl. lia.
Defined.

(** C6 on a run: the username is empty. *)
Lemma NewNextcloudClient_missing_setting_witness :
  let cfg := NextcloudConfig.mk (Some Scripted.cloud) (Some "") (Some "secret") in
  let conn := Some {| plugin.Config := plugin.val_NextcloudConfig cfg |} in
  exists before name value after,
    required_fields cfg = before ++ (name, value) :: after
    /\ Forall (fun field => ~ missing (snd field)) before
    /\ missing value
    /\ NewNextcloudClient conn (Scripted.world [])
       = (Returned (Err (errorString (name +:+ " must be configured"))),
          Scripted.world []).
Proof.
  intros cfg conn.
  apply (NewNextcloudClient_missing_setting conn cfg (Scripted.world []) eq_refl).
  right. left. right. reflexivity.
Defined.

(** C7 on a run: the service is in maintenance and answers the probe
    with status 503; the request was executed and the constructor
    fails. *)
Lemma NewNextcloudClient_probes_witness :
  let conn :=
    Some {| plugin.Config := plugin.val_NextcloudConfig (Scripted.config Scripted.cloud) |} in
  let w := Scripted.world [Scripted.answer 503 "maintenance"] in
  let client := client_of Scripted.cloud "alice" "secret" in
  exists probe w',
    TestConnection client w = (Returned probe, w')
    /\ probe_attempted client w w'
    /\ (probe = None <-> verified client w w')
    /\ match probe with
       | None =>
           NewNextcloudClient conn w = (Returned (Ok client), w')
           /\ verified client w w'
       | Some err =>
           exists e,
             NewNextcloudClient conn w = (Returned (Err e), w')
             /\ Error e = "unable to connect to Nextcloud: " +:+ Error err
             /\ Unwrap e = Some err
       end.
Proof.
  intros conn w client.
  exact (proj1 (NewNextcloudClient_probes conn w) (Scripted.config Scripted.cloud)
               Scripted.cloud "alice" "secret" eq_refl eq_refl eq_refl eq_refl).
Defined.

(** C7 on that run, evaluated: one request was executed, the GET of the
    capabilities endpoint, and the constructor returned the error of the
    probe. *)
Example NewNextcloudClient_probes_run :
  let conn :=
    Some {| plugin.Config := plugin.val_NextcloudConfig (Scripted.config Scripted.cloud) |} in
  let w := Scripted.world [Scripted.answer 503 "maintenance"] in
  map http.URL (sent (snd (NewNextcloudClient conn w)))
  = ["https://cloud.example.com/ocs/v1.php/cloud/capabilities?format=json"]
  /\ match fst (NewNextcloudClient conn w) with
     | Returned (Err e) =>
         Error e
         = "unable to connect to Nextcloud: connection test failed: "
           +:+ "Nextcloud API error 503: maintenance"
     | _ => False
     end.
Proof. vm_compute. split; reflexivity. Qed.

(** C2 on a run: the configured URL ends with no separator. *)
Lemma NewNextcloudClient_BaseURL_witness :
  let c := client_of Scripted.cloud "alice" "secret" in
  NextcloudClient.BaseURL c = "https://cloud.example.com/"
  /\ strings.HasSuffix (NextcloudClient.BaseURL c) "/" = true
  /\ trailing_separators (NextcloudClient.BaseURL c) = 1%nat.
Proof.
  intros c.
  set (conn := Some {| plugin.Config :=
                         plugin.val_NextcloudConfig (Scripted.config Scripted.cloud) |}).
  set (w := Scripted.world [Scripted.probe_ok]).
  refine (NewNextcloudClient_BaseURL conn (Scripted.config Scripted.cloud) Scripted.cloud w c
            (snd (NewNextcloudClient conn w)) eq_refl eq_refl _).
  vm_compute. reflexivity.
Defined.

(** C2 fails on a URL that ends with two separators: the client is
    returned with both. *)
Lemma NewNextcloudClient_keeps_separators :
  let url := "https://cloud.example.com//" in
  let conn :=
    Some {| plugin.Config := plugin.val_NextcloudConfig (Scripted.config url) |} in
  exists c w',
    NewNextcloudClient conn (Scripted.world [Scripted.probe_ok]) = (Returned (Ok c), w')
    /\ NextcloudClient.BaseURL c = url
    /\ trailing_separators (NextcloudClient.BaseURL c) = 2%nat
    /\ trailing_separators (NextcloudClient.BaseURL c) <> 1%nat.
Proof.
  intros url conn.
  destruct (NewNextcloudClient conn (Scripted.world [Scripted.probe_ok]))
    as [[[c|e]|m] w'] eqn:E; vm_compute in E; try discriminate E.
  injection E as <- <-. eexists _, _. split; [reflexivity|].
  split; [reflexivity|]. split; [reflexivity|]. vm_compute. discriminate.
Qed.

(** C1 on a run: the activity list is answered "not logged in". *)
Lemma ocs_status_not_ok_witness :
  let d := Scripted.query Scripted.cloud [] in
  let w :=
    Scripted.world [Scripted.probe_ok; Scripted.answer 200 "not logged in"] in
  fst (listActivity d w)
  = Returned
      (Err (errorString
              "erreur OCS API : Current user is not logged in (code : 997)")).
Proof.
  intros d w.
  destruct (fetch d activity_endpoint w) as [[[resp|?]|?] w'] eqn:Hf;
    [|vm_compute in Hf; discriminate Hf ..].
  destruct (decode_ActivityList (http.RespBody resp)) as [result|?] eqn:Hd;
    [|vm_compute in Hf; injection Hf as <- <-; vm_compute in Hd;
      discriminate Hd].
  assert (Hs : ocsMeta.Status (ocsListResponse.Meta (ocsListResponse.Ocs result))
               <> "ok").
  { vm_compute in Hf. injection Hf as <- <-. vm_compute in Hd.
    injection Hd as <-. discriminate. }
  destruct (proj1 (ocs_status_not_ok d w resp w') result Hf Hd Hs) as [-> _].
  vm_compute in Hf. injection Hf as <- <-. vm_compute in Hd.
  injection Hd as <-. reflexivity.
Defined.

(** C1 fails for the share get: the failure that the envelope announces is
    reported as a share that was not found, without the message and the
    status code of the envelope. *)
Lemma getShare_hides_ocs_failure :
  let d := Scripted.query Scripted.cloud [("id", plugin.Int64Value 5)] in
  let w :=
    Scripted.world [Scripted.probe_ok; Scripted.answer 200 "not logged in"] in
  exists resp w' result e,
    fetch d (share_endpoint 5) w = (Returned (Ok resp), w')
    /\ decode_ShareList (http.RespBody resp) = Ok result
    /\ ocsListResponse.Meta (ocsListResponse.Ocs result)
       = ocsMeta.mk "failure" 997 "Current user is not logged in"
    /\ getShare d w = (Returned (Err e), w')
    /\ Error e = "share with ID 5 not found"
    /\ ~ strings.Contains (Error e) "Current user is not logged in"
    /\ ~ strings.Contains (Error e) (strconv.Itoa 997).
Proof.
  intros d w.
  destruct (fetch d (share_endpoint 5) w) as [[[resp|?]|?] w'] eqn:Hf;
    vm_compute in Hf; try discriminate Hf.
  injection Hf as <- <-.
  eexists _, _, _, _. split; [reflexivity|].
  split; [vm_compute; reflexivity|]. split; [reflexivity|].
  split; [vm_compute; reflexivity|]. split; [reflexivity|].
  split; intros C; apply Contains_contains in C; vm_compute in C; discriminate C.
Qed.

(** C3 on a run, the example of the specification: the data array holds
    an activity of user "a" and one of user "b", and the qualifier asks
    for "b". *)
Lemma listActivity_streams_witness :
  let d := Scripted.query Scripted.cloud [("user_id", plugin.StringValue "b")] in
  let w :=
    Scripted.world [Scripted.probe_ok; Scripted.answer 200 "activities a b"] in
  fst (listActivity d w) = Returned (Ok None)
  /\ streamed (snd (listActivity d w))
     = [ActivityItem (Scripted.activity 2 "b")].
Proof.
  intros d w.
  destruct (fetch d activity_endpoint w) as [[[resp|?]|?] w'] eqn:Hf;
    [|vm_compute in Hf; discriminate Hf ..].
  destruct (decode_ActivityList (http.RespBody resp)) as [result|?] eqn:Hd;
    [|vm_compute in Hf; injection Hf as <- <-; vm_compute in Hd;
      discriminate Hd].
  assert (Hs : ocsMeta.Status (ocsListResponse.Meta (ocsListResponse.Ocs result))
               = "ok").
  { vm_compute in Hf. injection Hf as <- <-. vm_compute in Hd.
    injection Hd as <-. reflexivity. }
  rewrite (listActivity_streams d w resp w' result Hf Hd Hs).
  vm_compute in Hf. injection Hf as <- <-. vm_compute in Hd.
  injection Hd as <-. split; reflexivity.
Defined.

(** C3 on a run without qualifier: both activities are streamed. *)
Example listActivity_streams_all :
  let d := Scripted.query Scripted.cloud [] in
  let w :=
    Scripted.world [Scripted.probe_ok; Scripted.answer 200 "activities a b"] in
  streamed (snd (listActivity d w))
  = [ActivityItem (Scripted.activity 1 "a");
     ActivityItem (Scripted.activity 2 "b")].
Proof. vm_compute. reflexivity. Qed.

(** C4 on a run: activity 999 is not in the collection. *)
Lemma get_by_id_not_found_witness :
  let d := Scripted.query Scripted.cloud [("id", plugin.StringValue "999")] in
  let w :=
    Scripted.world [Scripted.probe_ok; Scripted.answer 200 "activities a b"] in
  fst (getActivity d w)
  = Returned (Err (errorString "activity with ID 999 not found")).
Proof.
  intros d w.
  destruct (fetch d activity_endpoint w) as [[[resp|?]|?] w'] eqn:Hf;
    [|vm_compute in Hf; discriminate Hf ..].
  destruct (decode_ActivityList (http.RespBody resp)) as [result|?] eqn:Hd;
    [|vm_compute in Hf; injection Hf as <- <-; vm_compute in Hd;
      discriminate Hd].
  assert (Hs : ocsMeta.Status (ocsListResponse.Meta (ocsListResponse.Ocs result))
               = "ok").
  { vm_compute in Hf. injection Hf as <- <-. vm_compute in Hd.
    injection Hd as <-. reflexivity. }
  assert (Hne : forall a,
             In a (ocsListResponse.Data (ocsListResponse.Ocs result)) ->
             Activity.ActivityID a <> 999).
  { vm_compute in Hf. injection Hf as <- <-. vm_compute in Hd.
    injection Hd as <-. simpl. intros a [<-|[<-|[]]]; discriminate. }
  destruct (proj1 (get_by_id_not_found d w resp w') result
                  (plugin.StringValue "999") 999 eq_refl eq_refl Hf Hd Hs Hne)
    as [-> _].
  reflexivity.
Defined.

(** C4 fails for the share get: the data array holds share 7 alone, share
    5 was asked for, and share 7 is returned. *)
Lemma getShare_returns_another_share :
  let d := Scripted.query Scripted.cloud [("id", plugin.Int64Value 5)] in
  let w := Scripted.world [Scripted.probe_ok; Scripted.answer 200 "share 7"] in
  exists resp w' result share,
    fetch d (share_endpoint 5) w = (Returned (Ok resp), w')
    /\ decode_ShareList (http.RespBody resp) = Ok result
    /\ ocsMeta.Status (ocsListResponse.Meta (ocsListResponse.Ocs result)) = "ok"
    /\ (forall s, In s (ocsListResponse.Data (ocsListResponse.Ocs result)) ->
                  ocsShare.ID s <> strconv.Itoa 5)
    /\ getShare d w = (Returned (Ok (Some (ShareItem share))), w')
    /\ ocsShare.ID share = "7".
Proof.
  intros d w.
  destruct (fetch d (share_endpoint 5) w) as [[[resp|?]|?] w'] eqn:Hf;
    vm_compute in Hf; try discriminate Hf.
  injection Hf as <- <-.
  eexists _, _, _, _. split; [reflexivity|].
  split; [vm_compute; reflexivity|]. split; [reflexivity|].
  split; [intros s [<-|[]]; vm_compute; discriminate|].
  split; [vm_compute; reflexivity|]. reflexivity.
Qed.

(** C9 on a run: the largest identifier. *)
Lemma identifier_exact_witness :
  strconv.ParseInt "9223372036854775807" = inr 9223372036854775807
  /\ strconv.ParseInt "-9223372036854775808" = inr (-9223372036854775808).
Proof.
  split.
  - refine (proj1 (identifier_exact 9223372036854775807 _)).
    unfold int64_range. vm_compute. split; [discriminate | reflexivity].
  - refine (proj1 (identifier_exact (-9223372036854775808) _)).
    unfold int64_range. vm_compute. split; [discriminate | reflexivity].
Defined.


(** ** The further properties on concrete runs *)

(** X1 on a run: the request for the activities. *)
Lemma MakeRequest_request_witness :
  let c := client_of Scripted.cloud "alice" "secret" in
  exists r s req,
    MakeRequest c "GET" activity_endpoint None
      (Scripted.world [Scripted.probe_ok])
    = (Returned r, mkWorld s [req] [])
    /\ http.URL req = "https://cloud.example.com/" +:+ activity_endpoint
    /\ http.ReqHeader req !! "Authorization" = Some ["Basic alice:secret"]
    /\ http.ReqHeader req !! "Cookie" = None.
Proof.
  intros c.
  destruct (MakeRequest_request c "GET" activity_endpoint None
              (Scripted.world [Scripted.probe_ok])
              ("https://cloud.example.com/" +:+ activity_endpoint)
              eq_refl eq_refl)
    as (r & s & req & HM & _ & Hu & _ & _ & _ & _ & _ & Ha & Hno).
  exists r, s, req. repeat split; try assumption.
  apply Hno. vm_compute. intros Hin.
  repeat (apply elem_of_cons in Hin as [Hin|Hin]; [discriminate Hin|]).
  now apply elem_of_nil in Hin.
Defined.

(** X3 on a run: the service is in maintenance. *)
Lemma NewNextcloudClient_errors_witness :
  let conn := plugin.Connection_ (Scripted.query Scripted.cloud []) in
  let w := Scripted.world [Scripted.answer 503 "maintenance"] in
  exists e,
    fst (NewNextcloudClient conn w) = Returned (Err e)
    /\ ((snd (NewNextcloudClient conn w) = w
         /\ exists name,
              In name ["server_url"; "username"; "password"]
              /\ e = errorString (name +:+ " must be configured"))
        \/ exists cause middle,
             Error e
             = "unable to connect to Nextcloud: connection test failed: "
               +:+ Error cause
             /\ Unwrap e = Some middle
             /\ Unwrap middle = Some cause).
Proof.
  intros conn w.
  destruct (NewNextcloudClient conn w) as [[[c|e]|msg] w'] eqn:HN;
    [vm_compute in HN; discriminate HN| |vm_compute in HN; discriminate HN].
  exists e. split; [reflexivity|].
  destruct (NewNextcloudClient_errors conn w e w' HN)
    as [Hl|(c & cause & middle & He & Hm & Hc & _)].
  - left. exact Hl.
  - right. exists cause, middle. repeat split; assumption.
Defined.

(** X4 on a run: the probe is answered with an empty object. *)
Lemma TestConnection_body_witness :
  let c := client_of Scripted.cloud "alice" "secret" in
  let w := Scripted.world [Scripted.probe_ok] in
  exists resp w1,
    MakeRequest c "GET" capabilities_endpoint None w
    = (Returned (Ok resp), w1)
    /\ json_readValue (http.RespBody resp) = Ok (JObject [])
    /\ TestConnection c w = (Returned None, w1).
Proof.
  intros c w.
  destruct (MakeRequest c "GET" capabilities_endpoint None w)
    as [[[resp|?]|?] w1] eqn:HM; [|vm_compute in HM; discriminate HM ..].
  assert (Hread : json_readValue (http.RespBody resp) = Ok (JObject [])).
  { vm_compute in HM. injection HM as <- <-. reflexivity. }
  exists resp, w1. split; [reflexivity|]. split; [exact Hread|].
  apply (proj2 (TestConnection_body c w resp w1 HM)).
  exists (JObject []). split; [exact Hread|].
  right. exists []. split; reflexivity.
Defined.

(** X5 on a run: a query without connection. *)
Lemma degenerate_connection_witness :
  let d := {| plugin.Connection_ := None; plugin.EqualsQuals := ∅ |} in
  let w := Scripted.world [Scripted.probe_ok] in
  degenerate (plugin.Connection_ d)
  /\ listActivity d w
     = (Returned (Err (errorString "server_url must be configured")), w)
  /\ listShares d w
     = (Returned (Err (errorString "server_url must be configured")), w).
Proof.
  intros d w.
  assert (Hd : degenerate (plugin.Connection_ d)) by (left; reflexivity).
  split; [exact Hd|].
  destruct (degenerate_connection d w Hd) as (_ & HA & HS & _).
  split; [exact HA | exact HS].
Defined.

(** X6 on a run: a configuration held by pointer. *)
Lemma GetConfig_extends_Legacy_witness :
  let conn :=
    Some {| plugin.Config :=
              plugin.ptr_NextcloudConfig
                (Some (Scripted.config Scripted.cloud)) |} in
  Legacy.GetConfig conn = Returned (Some (Scripted.config Scripted.cloud))
  /\ GetConfig conn = Some (Scripted.config Scripted.cloud).
Proof.
  intros conn. split; [reflexivity|].
  apply (GetConfig_extends_Legacy conn). reflexivity.
Defined.

(** X7 on a run: the service answers the activity list with a failure. *)
Lemma streaming_all_or_nothing_witness :
  let d := Scripted.query Scripted.cloud [] in
  let w :=
    Scripted.world [Scripted.probe_ok; Scripted.answer 200 "not logged in"] in
  let o := fst (listActivity d w) in
  let w' := snd (listActivity d w) in
  (o = Returned (Ok None)
   /\ exists rows, streamed w' = streamed w ++ map ActivityItem rows)
  \/ ((forall r, o <> Returned (Ok r)) /\ streamed w' = streamed w).
Proof.
  intros d w o w'.
  apply (proj1 (streaming_all_or_nothing d w o w')).
  apply surjective_pairing.
Defined.

(** X8 on a run: the share 7 is asked for. *)
Lemma handlers_requests_witness :
  let d := Scripted.query Scripted.cloud [("id", plugin.Int64Value 7)] in
  let w := Scripted.world [Scripted.probe_ok; Scripted.answer 200 "share 7"] in
  exists reqs,
    sent (snd (getShare d w)) = sent w ++ reqs
    /\ (length reqs <= 2)%nat
    /\ Forall GET_without_body reqs
    /\ (reqs = [] -> server (snd (getShare d w)) = server w).
Proof.
  intros d w.
  apply (handlers_requests d w (fst (getShare d w))).
  right. right. right. apply surjective_pairing.
Defined.

(** X9 on three runs: no qualifier, the text "12a", and an integer
    qualifier. *)
Lemma getActivity_refuses_witness :
  let w := Scripted.world [Scripted.probe_ok] in
  getActivity (Scripted.query Scripted.cloud []) w
  = (Returned (Err (errorString "id qualifier not provided")), w)
  /\ getActivity
       (Scripted.query Scripted.cloud [("id", plugin.StringValue "12a")]) w
     = (Returned (Err (errorString "invalid ID format: 12a")), w)
  /\ getActivity
       (Scripted.query Scripted.cloud [("id", plugin.Int64Value 12)]) w
     = (Returned (Err (errorString "invalid ID format: ")), w).
Proof.
  intros w. split; [|split].
  - apply (proj1 (getActivity_refuses (Scripted.query Scripted.cloud []) w)).
    reflexivity.
  - apply (proj1 (proj2 (getActivity_refuses
                           (Scripted.query Scripted.cloud
                              [("id", plugin.StringValue "12a")]) w))
             (plugin.StringValue "12a") eq_refl).
    apply (ParseInt_rejected "12a" strconv.ErrSyntax). reflexivity.
  - apply (proj2 (proj2 (getActivity_refuses
                           (Scripted.query Scripted.cloud
                              [("id", plugin.Int64Value 12)]) w))
             (plugin.Int64Value 12) eq_refl).
    intros s. discriminate.
Defined.

(** X10 on a run: the activity 2 is asked for as "+02". *)
Lemma getActivity_decimal_texts_witness :
  let d := Scripted.query Scripted.cloud [("id", plugin.StringValue "+02")] in
  let d' := with_qual "id" (plugin.StringValue "2") d in
  let w :=
    Scripted.world [Scripted.probe_ok; Scripted.answer 200 "activities a b"] in
  decimal_text "+02" 2
  /\ int64_range 2
  /\ (getActivity d' w = getActivity d w
      \/ (fst (getActivity d w)
          = Returned (Err (getActivity_not_found "+02"))
          /\ getActivity d' w
             = (Returned (Err (getActivity_not_found "2")),
                snd (getActivity d w)))).
Proof.
  intros d d' w.
  assert (Hd : decimal_text "+02" 2)
    by (exists "+", "02"; repeat split; auto; discriminate).
  assert (Hr : int64_range 2) by (unfold int64_range; lia).
  split; [exact Hd|]. split; [exact Hr|].
  destruct (getActivity_decimal_texts d w (plugin.StringValue "+02") 2
              (fst (getActivity d w)) (snd (getActivity d w))
              eq_refl Hd Hr (surjective_pairing _)) as [HL|[Ho HR]].
  - left. rewrite (surjective_pairing (getActivity d w)). exact HL.
  - right. split; [exact Ho | exact HR].
Defined.

(** X11 on two runs: no qualifier, and a string qualifier, which reads
    as the share 0. *)
Lemma getShare_qualifier_witness :
  let w := Scripted.world [Scripted.probe_ok; Scripted.answer 200 "share 7"] in
  let d := Scripted.query Scripted.cloud [("id", plugin.StringValue "7")] in
  getShare (Scripted.query Scripted.cloud []) w
  = (Returned (Err (errorString "id qualifier not provided")), w)
  /\ getShare d w = getShare (with_qual "id" (plugin.Int64Value 0) d) w.
Proof.
  intros w d. split.
  - apply (proj1 (getShare_qualifier (Scripted.query Scripted.cloud []) w)).
    reflexivity.
  - apply (proj2 (getShare_qualifier d w) (plugin.StringValue "7") eq_refl).
    intros i. discriminate.
Defined.

(** X12 on a run: the collection holds the share 7. *)
Lemma listShares_streams_witness :
  let d := Scripted.query Scripted.cloud [] in
  let w := Scripted.world [Scripted.probe_ok; Scripted.answer 200 "share 7"] in
  fst (listShares d w) = Returned (Ok None)
  /\ map (fun i => match i with
                   | ShareItem s => ocsShare.ID s
                   | ActivityItem _ => "activity"
                   end)
         (streamed (snd (listShares d w)))
     = ["7"].
Proof.
  intros d w.
  destruct (fetch d shares_endpoint w) as [[[resp|?]|?] w'] eqn:Hf;
    [|vm_compute in Hf; discriminate Hf ..].
  destruct (decode_ShareList (http.RespBody resp)) as [result|?] eqn:Hd;
    [|vm_compute in Hf; injection Hf as <- <-; vm_compute in Hd;
      discriminate Hd].
  assert (Hs : ocsMeta.Status (ocsListResponse.Meta (ocsListResponse.Ocs result))
               = "ok").
  { vm_compute in Hf. injection Hf as <- <-. vm_compute in Hd.
    injection Hd as <-. reflexivity. }
  destruct (listShares_streams d w resp w' result Hf Hd Hs)
    as (w'' & HL & Hst & _).
  rewrite HL. simpl fst. simpl snd. rewrite Hst.
  vm_compute in Hf. injection Hf as <- <-. vm_compute in Hd.
  injection Hd as <-. split; reflexivity.
Defined.

(** X13 on a run: the activity 2 is the second of the collection. *)
Lemma getActivity_first_match_witness :
  let d := Scripted.query Scripted.cloud [("id", plugin.StringValue "2")] in
  let w :=
    Scripted.world [Scripted.probe_ok; Scripted.answer 200 "activities a b"] in
  (exists activity,
      Activity.ActivityID activity = 2
      /\ fst (getActivity d w) = Returned (Ok (Some (ActivityItem activity))))
  \/ fst (getActivity d w) = Returned (Err (getActivity_not_found "2")).
Proof.
  intros d w.
  destruct (fetch d activity_endpoint w) as [[[resp|?]|?] w'] eqn:Hf;
    [|vm_compute in Hf; discriminate Hf ..].
  destruct (decode_ActivityList (http.RespBody resp)) as [result|?] eqn:Hd;
    [|vm_compute in Hf; injection Hf as <- <-; vm_compute in Hd;
      discriminate Hd].
  assert (Hs : ocsMeta.Status (ocsListResponse.Meta (ocsListResponse.Ocs result))
               = "ok").
  { vm_compute in Hf. injection Hf as <- <-. vm_compute in Hd.
    injection Hd as <-. reflexivity. }
  destruct (getActivity_first_match d w resp w' result
              (plugin.StringValue "2") 2 eq_refl eq_refl Hf Hd Hs)
    as [(before & activity & after & _ & Hid & _ & HG)|(_ & HG)].
  - left. exists activity. split; [exact Hid|]. now rewrite HG.
  - right. now rewrite HG.
Defined.

(** X14 on a run: the service answers the activity list with an empty
    object. *)
Lemma body_without_ocs_witness :
  let d := Scripted.query Scripted.cloud [] in
  let w := Scripted.world [Scripted.probe_ok; Scripted.answer 200 "{}"] in
  without_ocs (JObject [])
  /\ fst (listActivity d w)
     = Returned (Err (errorString "erreur OCS API :  (code : 0)")).
Proof.
  intros d w.
  assert (Hwo : without_ocs (JObject []))
    by (right; exists []; split; [reflexivity | constructor]).
  split; [exact Hwo|].
  destruct (fetch d activity_endpoint w) as [[[resp|?]|?] w'] eqn:Hf;
    [|vm_compute in Hf; discriminate Hf ..].
  assert (Hread : json_readValue (http.RespBody resp) = Ok (JObject [])).
  { vm_compute in Hf. injection Hf as <- <-. reflexivity. }
  destruct (proj1 (body_without_ocs d w resp w' (JObject []) Hread Hwo) Hf)
    as [HL _].
  now rewrite HL.
Defined.

(** X16 on a run: the shares are listed. *)
Lemma successful_call_requests_witness :
  let d := Scripted.query Scripted.cloud [] in
  let w := Scripted.world [Scripted.probe_ok; Scripted.answer 200 "share 7"] in
  listShares d w = (Returned (Ok None), snd (listShares d w))
  /\ probe_then_GET d shares_endpoint w (snd (listShares d w)).
Proof.
  intros d w.
  assert (HL : listShares d w = (Returned (Ok None), snd (listShares d w)))
    by (vm_compute; reflexivity).
  split; [exact HL|].
  exact (proj1 (proj2 (proj2 (successful_call_requests d w None
                                (snd (listShares d w))))) HL).
Defined.
